(** * KCE-3.0: the payment-session reconciliation pipeline

    A shallow embedding of the two request handlers that carry the booking
    logic of the site,

    - [src/app/api/checkout/route.ts]        (module [Checkout]) and
    - [src/app/api/webhooks/stripe/route.ts] (module [Webhook]),

    together with the parts of [src/features/tours/data.mock.ts] they use,
    of the settings they import from [src/lib/env.ts] (module [Env]) and of
    the two routes that serve the invoice of a session afterwards,

    - [src/app/api/invoice/[session_id]/route.ts]         (module [InvoiceRoute]),
    - [src/app/api/email/booking-confirmation/route.ts]   (module [Confirmation]).

    JavaScript numbers are IEEE 754 binary64 values: the arithmetic of
    [copToUsdCents] is carried out on Rocq's primitive floats, which are
    the same format with the same rounding.  Strings are UTF-8 byte strings;
    what depends on UTF-16 code units or on Unicode tables (length, slicing,
    case mapping, trimming, normalisation) is taken from the platform.
    Functions of the JavaScript platform and of the libraries the handlers
    call ([Number], [JSON.stringify], the URL parser and serializer,
    SHA-256, the date parser, zod's e-mail and URL checks, SQL's ILIKE) are
    fields of the class [Platform]; the remote services (Stripe, Resend,
    the PDF renderer) are oracles passed to the handlers.  The database
    behind [supabase-js] is a set of in-memory tables reached through a
    client: each delivery of the webhook gets its client from
    [getSupabaseAdmin()], which throws without its two variables, and every
    query through it is taken by the tables, or answered with an error, or
    thrown. *)

From Stdlib Require Import ZArith Floats Bool Lia Ascii String.
From stdpp Require Import gmap strings list pretty.

Local Open Scope Z_scope.

(* ===================================================================== *)
(** * JavaScript values and built-ins                                      *)
(* ===================================================================== *)

Module JS.

(** An integral JavaScript number, [NaN] or an infinity: what [Math.round]
    returns.  Every integral binary64 value is an integer, so [Int] holds it
    exactly (the sign of a zero is dropped; nothing below observes it). *)
Inductive intnum :=
| Int (n : Z)
| NaN
| Inf (negative : bool).

(** [Math.round(x)]: the integral value closest to [x], the one closer to
    +∞ on a tie, that is ⌊x + 1/2⌋ computed exactly.  A finite binary64 is
    ±m·2^e; for e < 0 and k = -e, ⌊n/2^k + 1/2⌋ = ⌊(2n + 2^k) / 2^(k+1)⌋. *)
Definition SF_round (f : spec_float) : intnum :=
  match f with
  | S754_zero _ => Int 0
  | S754_infinity s => Inf s
  | S754_nan => NaN
  | S754_finite s m e =>
      let n := if s then Z.neg m else Z.pos m in
      if 0 <=? e then Int (n * 2 ^ e)
      else Int ((2 * n + 2 ^ (- e)) / 2 ^ (- e + 1))
  end.

Definition Math_round (x : float) : intnum := SF_round (Prim2SF x).

(** The value of a finite binary64 as a fraction [num / den], [den > 0]. *)
Definition SF_ratio (f : spec_float) : option (Z * Z) :=
  match f with
  | S754_zero _ => Some (0, 1)
  | S754_finite s m e =>
      let n := if s then Z.neg m else Z.pos m in
      if 0 <=? e then Some (n * 2 ^ e, 1) else Some (n, 2 ^ (- e))
  | _ => None
  end.

(** [r] is the integer nearest to [num / den], the upper one on a tie:
    -1/2 < r - num/den <= 1/2. *)
Definition nearest_half_up (r num den : Z) : Prop :=
  - den < 2 * (r * den - num) <= den.

(** [Math.max(a, b)] on integral values: [NaN] if either is [NaN]. *)
Definition Math_max (a b : intnum) : intnum :=
  match a, b with
  | NaN, _ | _, NaN => NaN
  | Inf false, _ | _, Inf false => Inf false
  | Inf true, y => y
  | x, Inf true => x
  | Int x, Int y => Int (Z.max x y)
  end.

(** [Math.max] and [Math.min] on binary64 values. *)
Definition fmax (a b : float) : float :=
  if PrimFloat.is_nan a || PrimFloat.is_nan b then PrimFloat.nan
  else if PrimFloat.ltb a b then b else a.

Definition fmin (a b : float) : float :=
  if PrimFloat.is_nan a || PrimFloat.is_nan b then PrimFloat.nan
  else if PrimFloat.ltb b a then b else a.

(** The binary64 value of an integer literal (exact below 2^53). *)
Definition of_Z (n : Z) : float :=
  if n <? 0 then PrimFloat.opp (PrimFloat.of_uint63 (Uint63.of_Z (- n)))
  else PrimFloat.of_uint63 (Uint63.of_Z n).

(** JSON values, as the handlers build them. *)
#[warnings="-register-all"]
Inductive json :=
| JNull
| JBool (b : bool)
| JNum (n : intnum)
| JStr (s : string)
| JObj (fields : list (string * json)).

(** [a || b] on strings that may be [undefined]: the empty string is falsy. *)
Definition truthy (s : option string) : option string :=
  match s with
  | Some EmptyString | None => None
  | Some x => Some x
  end.

Definition or_str (a : option string) (b : string) : string :=
  default b (truthy a).

(** What the handlers take from the platform and from libraries. *)
Class Platform := {
  (** [String.prototype.toLowerCase], [toUpperCase], [trim] *)
  toLowerCase : string -> string;
  toUpperCase : string -> string;
  trim : string -> string;
  (** [s.length] and [s.slice(0, n)], in UTF-16 code units *)
  str_length : string -> nat;
  str_slice : nat -> string -> string;
  (** [s.normalize('NFKD').replace(/[\u0300-\u036f]/g, '')] *)
  without_diacritics : string -> string;
  (** [encodeURIComponent] *)
  encodeURIComponent : string -> string;
  (** [Number(s)] *)
  Number : string -> float;
  (** [JSON.stringify] *)
  JSON_stringify : json -> string;
  (** [crypto.createHash('sha256').update(s).digest('hex')] *)
  sha256_hex : string -> string;
  (** [new URL(path, base)] with its search parameters, [toString()] *)
  URL_toString : string -> string -> list (string * string) -> string;
  (** [URL.canParse(path, base)]: whether [new URL(path, base)] returns, and
      does not throw *)
  URL_canParse : string -> string -> bool;
  (** [new Date(s).getTime()]; [None] is [NaN] (an invalid date) *)
  Date_getTime : string -> option Z;
  (** [new Date(ms).toISOString()]; [None] when it throws a [RangeError] *)
  Date_toISOString : Z -> option string;
  (** [ilike pattern value]: SQL's [value ILIKE pattern] *)
  ilike : string -> string -> bool;
  (** the pattern of zod's [z.string().email()] *)
  is_email : string -> bool;
  (** the check of zod's [z.string().url()] *)
  is_url : string -> bool;
}.

End JS.
Export JS.

(* ===================================================================== *)
(** * The catalog: [src/features/tours/data.mock.ts]                      *)
(* ===================================================================== *)

Module Catalog.

(** A tour.  [rating], [image] and [tags] are never read by the handlers
    and are left out.  Prices are integers ([Precios en COP (enteros, sin
    decimales)]). *)
Record Tour := {
  id : string;
  slug : string;
  title : string;
  city : string;
  durationHours : Z;
  price : Z;
  short : option string;
}.

Definition TOURS : list Tour := [
  {| id := "t_001"; slug := "bogota-coffee-culture";
     title := "Bogotá Coffee Culture"; city := "Bogotá";
     durationHours := 4; price := 120000;
     short := Some "Cata de cafés especiales, tostión artesanal y barrios bohemios." |};
  {| id := "t_002"; slug := "medellin-street-art";
     title := "Medellín Street Art"; city := "Medellín";
     durationHours := 3; price := 110000;
     short := Some "Graffitis, historia y transformación social en Comuna 13." |};
  {| id := "t_003"; slug := "guatape-day-trip";
     title := "Guatapé Day Trip"; city := "Guatapé";
     durationHours := 8; price := 280000;
     short := Some "La piedra del Peñol, colores vibrantes y paseo en lancha." |};
  {| id := "t_004"; slug := "cartagena-sunset-sail";
     title := "Cartagena Sunset Sail"; city := "Cartagena";
     durationHours := 2; price := 240000;
     short := Some "Navega al atardecer por la bahía con brindis incluido." |};
  {| id := "t_005"; slug := "cocora-valley-hike";
     title := "Cocora Valley Hike"; city := "Salento";
     durationHours := 6; price := 260000;
     short := Some "Sendero entre palmas de cera y paisajes cafeteros." |};
  {| id := "t_006"; slug := "tayrona-paradise-beaches";
     title := "Tayrona Paradise Beaches"; city := "Santa Marta";
     durationHours := 9; price := 320000;
     short := Some "Caminata suave y playas cristalinas en el Tayrona." |}
].

(** [new Map(TOURS.map(t => [t.slug.toLowerCase(), t]))]: a later entry
    with the same key replaces an earlier one. *)
Definition TOURS_BY_SLUG `{Platform} : gmap string Tour :=
  list_to_map (reverse ((λ t, (toLowerCase (slug t), t)) <$> TOURS)).

(** [if (!slug) return undefined; return TOURS_BY_SLUG.get(slug.toLowerCase())] *)
Definition getTourBySlug `{Platform} (s : option string) : option Tour :=
  match truthy s with
  | None => None
  | Some s => TOURS_BY_SLUG !! toLowerCase s
  end.

End Catalog.

(* ===================================================================== *)
(** * Booking creation: [src/app/api/checkout/route.ts]                   *)
(* ===================================================================== *)

Module Checkout.
Import Catalog.

(** ** The request body and its schema *)

(** [tour] of the body.  [price] is accepted by the schema and never read
    afterwards ([el precio que mande el cliente se ignora]). *)
Record TourRef := {
  t_slug : option string;
  t_title : option string;
  t_short : option string;
  t_price : option Z;
}.

Record Customer := { email : string; name : string }.

(** The parsed JSON body: every key may be missing.  A key that holds a
    value of another JSON type (a string for [quantity], a fraction for
    [price]) is refused by the schema and is not represented. *)
Record RawPayload := {
  r_tour : option TourRef;
  r_quantity : option Z;
  r_customer : option Customer;
  r_date : option string;
  r_phone : option string;
  r_currency : option string;
  r_locale : option string;
}.

(** [type Payload = z.infer<typeof Schema>] *)
Record Payload := {
  tour : TourRef;
  quantity : Z;
  customer : Customer;
  date : string;
  phone : option string;
  currency : string;
  locale : option string;
}.

Definition is_digit (c : ascii) : bool :=
  let n := nat_of_ascii c in (48 <=? n)%nat && (n <=? 57)%nat.

(** [/^\d{4}-\d{2}-\d{2}$/] *)
Definition ymd_shape (s : string) : bool :=
  match list_ascii_of_string s with
  | [y1; y2; y3; y4; d1; m1; m2; d2; a1; a2] =>
      forallb is_digit [y1; y2; y3; y4; m1; m2; a1; a2]
      && bool_decide (d1 = "-"%char) && bool_decide (d2 = "-"%char)
  | _ => false
  end.

Definition min_length `{Platform} (n : nat) (s : option string) : bool :=
  match s with
  | Some x => (n <=? str_length x)%nat
  | None => true
  end.

(** The [tour] object with its refinement [Boolean(t.slug || t.title)]. *)
Definition tour_ok `{Platform} (t : TourRef) : bool :=
  min_length 1 (t_slug t) && min_length 1 (t_title t)
  && match t_price t with Some p => 0 <=? p | None => true end
  && (bool_decide (is_Some (truthy (t_slug t)))
      || bool_decide (is_Some (truthy (t_title t)))).

Definition customer_ok `{Platform} (c : Customer) : bool :=
  is_email (email c) && (2 <=? str_length (name c))%nat.

(** [Schema.safeParse(raw)]: the parsed payload, or [None] when the schema
    reports an issue. *)
Definition Schema_safeParse `{Platform} (raw : RawPayload) : option Payload :=
  t ← r_tour raw;
  q ← r_quantity raw;
  c ← r_customer raw;
  d ← r_date raw;
  cur ← match r_currency raw with
        | None => Some "COP"
        | Some x => if bool_decide (x = "COP") || bool_decide (x = "USD")
                    then Some x else None
        end;
  if tour_ok t && (1 <=? q) && (q <=? 20) && customer_ok c && ymd_shape d
     && match r_locale raw with
        | Some l => (str_length l <=? 10)%nat
        | None => true
        end
  then Some {| tour := t; quantity := q; customer := c; date := d;
               phone := r_phone raw; currency := cur;
               locale := r_locale raw |}
  else None.

(** ** Utils *)

Definition parseYMD `{Platform} (ymd : string) : option string :=
  if ymd_shape ymd then
    match Date_getTime (ymd +:+ "T00:00:00Z") with
    | Some _ => Some ymd
    | None => None
    end
  else None.

Definition day_ms : Z := 86400000.

(** [now.setUTCHours(0, 0, 0, 0)] on the clock reading [now]. *)
Definition utc_midnight (now : Z) : Z := now - now mod day_ms.

Definition isTodayOrFuture `{Platform} (now : Z) (ymd : string) : bool :=
  match truthy (parseYMD ymd) with
  | None => false
  | Some ok =>
      match Date_getTime (ok +:+ "T00:00:00Z") with
      | Some d => utc_midnight now <=? d
      | None => false
      end
  end.

Definition copToUsdCents `{Platform} (env : gmap string string) (cop : float) : intnum :=
  let rate := Number (or_str (env !! "STRIPE_COP_USD_RATE") "4000") in
  let usd := (cop / rate)%float in
  Math_max (Int 1) (Math_round (usd * 100)%float).

Inductive Locale := es_419 | en | auto.

Definition locale_of_hint (s : string) : option Locale :=
  if String.prefix "es" s then Some es_419
  else if String.prefix "en" s then Some en
  else None.

(** [raw.split(',')[0]] *)
Fixpoint before_comma (s : string) : string :=
  match s with
  | EmptyString => EmptyString
  | String c r => if bool_decide (c = ","%char) then EmptyString
                  else String c (before_comma r)
  end.

Definition inferLocale `{Platform} (accept_language : option string)
    (override : option string) : Locale :=
  let from_header :=
    let raw := toLowerCase (or_str accept_language "") in
    default auto (locale_of_hint (trim (before_comma raw))) in
  match truthy override with
  | Some o => default from_header (locale_of_hint (toLowerCase o))
  | None => from_header
  end.

Definition buildSuccessUrl `{Platform} (SITE_URL sessionPlaceholder slug date : string)
    (qty : Z) : string :=
  URL_toString "/checkout/success" SITE_URL
    [("session_id", sessionPlaceholder); ("tour", slug); ("date", date);
     ("q", pretty qty)].

Definition buildCancelUrl `{Platform} (SITE_URL slug date : string) (qty : Z) : string :=
  URL_toString "/checkout/cancel" SITE_URL
    [("tour", slug); ("date", date); ("q", pretty qty)].

(** ** Responses and the provider *)

Inductive Body :=
| InvalidBody (requestId : string)
    (** [{ error: issues[0].message || 'Datos inválidos.', requestId }] *)
| Error (error : string) (requestId : string)
| ErrorCode (error code : string) (requestId : string)
| Url (url : string) (requestId : string)
| Session (url : string) (requestId : string) (sessionId : string)
| Uncaught (e : string)
    (** no response of the handler: an exception leaves it *)
.

Record Response := {
  body : Body;
  status : Z;
  headers : list (string * string);
}.

Definition json (data : Body) (status : Z) (extra : list (string * string)) : Response :=
  {| body := data; status := status;
     headers := ("Cache-Control", "no-store") :: extra |}.

Record LineItem := {
  li_quantity : Z;
  li_currency : string;
  li_unit_amount : intnum;
  li_name : string;
  li_description : string;
}.

(** The first argument of [stripe.checkout.sessions.create]. *)
Record SessionCreateParams := {
  mode : string;
  customer_email : string;
  success_url : string;
  cancel_url : string;
  client_reference_id : string;
  sp_locale : Locale;
  phone_number_collection : bool;
  allow_promotion_codes : bool;
  customer_creation : string;
  expires_at : float;
  after_expiration_recovery : bool;
  line_items : list LineItem;
  metadata : list (string * string);
  payment_intent_metadata : list (string * string);
}.

(** An error thrown inside the handler, by the Stripe client or by the
    platform: [raw.code], [code], [type], [message], [raw.message] and, when
    it is an integer, [statusCode]. *)
Record StripeError := {
  e_raw_code : option string;
  e_code : option string;
  e_type : option string;
  e_message : option string;
  e_raw_message : option string;
  e_statusCode : option Z;
}.

(** The [TypeError] that [new URL(path, base)] throws in Node. *)
Definition invalid_url : StripeError :=
  {| e_raw_code := None; e_code := Some "ERR_INVALID_URL"; e_type := None;
     e_message := Some "Invalid URL"; e_raw_message := None;
     e_statusCode := None |}.

Inductive CreateResult :=
| Created (id : string) (url : option string)
| Thrown (e : StripeError).

(** One call of [stripe.checkout.sessions.create(params, { idempotencyKey })]. *)
Record CreateCall := { params : SessionCreateParams; idempotencyKey : string }.

(** What the module reads besides the request: [process.env] and the two
    constants imported from [@/lib/env]. *)
Record Config := {
  process_env : gmap string string;
  SITE_URL : string;
  isStripeMock : bool;
}.

(** What one run draws from its surroundings: [crypto.randomUUID()] and the
    two readings of the clock ([new Date()], [Date.now()]). *)
Record Ambient := { reqId : string; today_clock : Z; expiry_clock : Z }.

Record Request := { accept_language : option string; json_body : option RawPayload }.

(** ** Handler *)

(** Step 1: the tour is resolved from the catalog, by slug and, failing
    that, by title compared in lower case. *)
Definition resolve `{Platform} (t : TourRef) : option Tour :=
  match getTourBySlug (t_slug t) with
  | Some r => Some r
  | None =>
      match truthy (t_title t) with
      | Some ti =>
          List.find (λ x, bool_decide (toLowerCase (title x) = toLowerCase ti)) TOURS
      | None => None
      end
  end.

Definition catalogCurrency `{Platform} (env : gmap string string) : string :=
  or_str (toUpperCase <$> env !! "CATALOG_CURRENCY") "COP".

Definition unitAmountCents `{Platform} (env : gmap string string) (resolved : Tour) : intnum :=
  if bool_decide (catalogCurrency env = "USD")
  then Math_max (Int 1) (Int (price resolved))
  else copToUsdCents env (of_Z (price resolved)).

Definition metadata_of `{Platform} (env : gmap string string) (data : Payload)
    (resolved : Tour) : list (string * string) :=
  [("date", date data);
   ("quantity", pretty (quantity data));
   ("tour_title", title resolved);
   ("tour_slug", slug resolved);
   ("tour_price_cop", pretty (price resolved));
   ("customer_name", name (customer data));
   ("phone", default "" (phone data));
   ("origin_currency", toUpperCase (or_str (Some (currency data)) "COP"));
   ("catalog_currency", catalogCurrency env)].

Definition clientReferenceId `{Platform} (data : Payload) (resolved : Tour) : string :=
  str_slice 500
    (slug resolved +:+ ":" +:+ date data +:+ ":" +:+ email (customer data)).

Definition expireMinutes `{Platform} (env : gmap string string) : float :=
  fmax 15 (fmin 60 (match truthy (env !! "STRIPE_SESSION_EXPIRES_MIN") with
                    | Some s => Number s
                    | None => 24%float
                    end)).

Definition expires_at_of `{Platform} (env : gmap string string) (now : Z) : float :=
  (of_Z (now / 1000) + expireMinutes env * 60)%float.

(** The idempotency key, before its prefix: the digest of the JSON text of
    [{ slug, date, qty, email, unitAmountCents, success_url, cancel_url }]. *)
Definition idemKey `{Platform} (cfg : Config) (data : Payload) (resolved : Tour) : string :=
  sha256_hex (JSON_stringify
    (JObj [("slug", JStr (slug resolved));
           ("date", JStr (date data));
           ("qty", JNum (Int (quantity data)));
           ("email", JStr (toLowerCase (email (customer data))));
           ("unitAmountCents", JNum (unitAmountCents (process_env cfg) resolved));
           ("success_url",
            JStr (buildSuccessUrl (SITE_URL cfg) "{CHECKOUT_SESSION_ID}" (slug resolved)
                    (date data) (quantity data)));
           ("cancel_url",
            JStr (buildCancelUrl (SITE_URL cfg) (slug resolved) (date data)
                    (quantity data)))])).

Definition session_params `{Platform} (cfg : Config) (amb : Ambient) (req : Request)
    (data : Payload) (resolved : Tour) : SessionCreateParams :=
  let md := metadata_of (process_env cfg) data resolved in
  {| mode := "payment";
     customer_email := email (customer data);
     success_url := buildSuccessUrl (SITE_URL cfg) "{CHECKOUT_SESSION_ID}"
                      (slug resolved) (date data) (quantity data);
     cancel_url := buildCancelUrl (SITE_URL cfg) (slug resolved) (date data)
                     (quantity data);
     client_reference_id := clientReferenceId data resolved;
     sp_locale := inferLocale (accept_language req) (locale data);
     phone_number_collection := negb (bool_decide (is_Some (truthy (phone data))));
     allow_promotion_codes := true;
     customer_creation := "always";
     expires_at := expires_at_of (process_env cfg) (expiry_clock amb);
     after_expiration_recovery := true;
     line_items :=
       [{| li_quantity := quantity data;
           li_currency := "usd";
           li_unit_amount := unitAmountCents (process_env cfg) resolved;
           li_name := title resolved;
           li_description :=
             trim (default "" (short resolved)
                   +:+ (match truthy (Some (date data)) with
                        | Some d => " — Fecha: " +:+ d
                        | None => ""
                        end)) |}];
     metadata := md;
     payment_intent_metadata := md |}.

Definition locale_string (l : Locale) : string :=
  match l with es_419 => "es-419" | en => "en" | auto => "auto" end.

(** [NextResponse.json(data, { status })] throws for a status outside
    200-599 and for a status that allows no body. *)
Definition status_takes_body (status : Z) : bool :=
  (200 <=? status) && (status <=? 599)
  && negb (bool_decide (status ∈ [204; 205; 304])).

(** The [catch] block of the handler.  When it throws in its turn, the
    framework answers 500 in the handler's place. *)
Definition on_error (trace : list (string * string)) (rid : string) (e : StripeError)
    : Response :=
  let code :=
    match truthy (e_raw_code e), truthy (e_code e) with
    | Some c, _ | None, Some c => c
    | None, None =>
        if bool_decide (e_type e = Some "StripeInvalidRequestError")
        then "stripe_invalid_request" else "unknown_error"
    end in
  let msg :=
    match truthy (e_message e), truthy (e_raw_message e) with
    | Some m, _ | None, Some m => m
    | None, None => "Error al iniciar el checkout."
    end in
  let status :=
    match e_statusCode e with
    | Some s => if bool_decide (s = 0) then 500 else s
    | None => 500
    end in
  if status_takes_body status then json (ErrorCode msg code rid) status trace
  else {| body := Uncaught "Invalid response status code"; status := 500;
          headers := [] |}.

Definition empty_body : RawPayload :=
  {| r_tour := None; r_quantity := None; r_customer := None; r_date := None;
     r_phone := None; r_currency := None; r_locale := None |}.

(** [POST(req)]: the response, and the calls made to the payment provider.
    [create] is the provider's answer to
    [stripe.checkout.sessions.create(params, { idempotencyKey })]. *)
Definition POST `{Platform} (cfg : Config)
    (create : SessionCreateParams -> string -> CreateResult)
    (amb : Ambient) (req : Request) : Response * list CreateCall :=
  let rid := reqId amb in
  let trace := [("X-Request-ID", rid)] in
  let env := process_env cfg in
  match Schema_safeParse (default empty_body (json_body req)) with
  | None => (json (InvalidBody rid) 400 trace, [])
  | Some data =>
    match resolve (tour data) with
    | None => (json (Error "Tour no encontrado." rid) 404 trace, [])
    | Some resolved =>
      if negb (bool_decide (is_Some (truthy (parseYMD (date data))))) then
        (json (Error "Fecha inválida." rid) 400 trace, [])
      else if negb (isTodayOrFuture (today_clock amb) (date data)) then
        (json (Error "La fecha debe ser hoy o futura." rid) 400 trace, [])
      else if negb (URL_canParse "/checkout/success" (SITE_URL cfg)
                    && URL_canParse "/checkout/cancel" (SITE_URL cfg)) then
        (on_error trace rid invalid_url, [])
      else if isStripeMock cfg
              || negb (bool_decide (is_Some (truthy (env !! "STRIPE_SECRET_KEY")))) then
        let mockUrl :=
          URL_toString "/checkout/success" (SITE_URL cfg)
            [("mock", "1"); ("q", pretty (quantity data));
             ("tour", slug resolved); ("date", date data)] in
        (json (Url mockUrl rid) 200 trace, [])
      else
        let p := session_params cfg amb req data resolved in
        let key := "kce_checkout_" +:+ idemKey cfg data resolved in
        let call := {| params := p; idempotencyKey := key |} in
        match create p key with
        | Thrown e => (on_error trace rid e, [call])
        | Created sid url =>
            match truthy url with
            | None => (json (Error "Stripe session without URL" rid) 500 trace, [call])
            | Some u =>
                (json (Session u rid sid) 200
                   (trace ++ [("X-Stripe-Locale", locale_string (sp_locale p))]),
                 [call])
            end
        end
    end
  end.

(** ** Two requests that differ in [tour.price] only *)

Definition set_price (p : option Z) (t : TourRef) : TourRef :=
  {| t_slug := t_slug t; t_title := t_title t; t_short := t_short t; t_price := p |}.

(** The request [req] with the [tour.price] of its body set to [p]. *)
Definition with_price (p : option Z) (req : Request) : Request :=
  {| accept_language := accept_language req;
     json_body :=
       (λ raw, {| r_tour := set_price p <$> r_tour raw;
                  r_quantity := r_quantity raw; r_customer := r_customer raw;
                  r_date := r_date raw; r_phone := r_phone raw;
                  r_currency := r_currency raw; r_locale := r_locale raw |})
       <$> json_body req |}.

(** ** The provider's side of the idempotency key

    The payment provider is not part of the repository.  Its contract
    (specification, 4.4 and glossary) is that a request repeated with a key
    it has seen creates nothing: it answers with the first session when the
    parameters are the same, and with an error when they are not. *)






End Checkout.

(* ===================================================================== *)
(** * Payment webhooks: [src/app/api/webhooks/stripe/route.ts]            *)
(* ===================================================================== *)

Module Webhook.

(** ** Stripe objects *)

Record CustomerDetails := {
  cd_email : option string;
  cd_name : option string;
  cd_phone : option string;
}.

(** [Stripe.Checkout.Session], the fields the handler reads. *)
Record Session := {
  s_id : string;
  s_metadata : option (gmap string string);
  customer_details : option CustomerDetails;
  customer_email : option string;
  amount_total : option Z;
  s_currency : option string;
  payment_status : string;
  created : option Z;
  livemode : option bool;
  last_payment_error : option JS.json;
}.

Record PaymentIntent := {
  pi_id : string;
  pi_last_payment_error : option JS.json;
}.

(** [payment_intent] holds the id, whether the charge carries it as a string
    or as an expanded object. *)
Record Charge := {
  ch_id : string;
  ch_payment_intent : option string;
  amount_refunded : Z;
  ch_currency : string;
}.

(** [event.type] with [event.data.object]. *)
Inductive EventData :=
| checkout_session_completed (s : Session)
| checkout_session_async_payment_succeeded (s : Session)
| checkout_session_async_payment_failed (s : Session)
| checkout_session_expired (s : Session)
| payment_intent_succeeded (pi : PaymentIntent)
| payment_intent_payment_failed (pi : PaymentIntent)
| charge_refunded (c : Charge)
| other_event (type : string).

Record Event := { e_id : string; e_data : EventData }.

(** ** The database *)

Inductive Status := pending | paid | canceled.

#[export] Instance Status_eq_dec : EqDecision Status.
Proof. solve_decision. Defined.

(** A row of [bookings] ([src/types/supabase.ts]). *)
Record BookingRow := {
  b_id : nat;
  user_id : option string;
  tour_id : option string;
  b_date : string;
  persons : float;
  extras : JS.json;
  b_status : Status;
  total : option Z;
  b_currency : option string;
  origin_currency : option string;
  tour_price_cop : option float;
  payment_provider : option string;
  stripe_session_id : option string;
  b_customer_email : option string;
  b_customer_name : option string;
  b_phone : option string;
}.

(** A row of [events]. *)
Record EventRow := {
  ev_id : nat;
  ev_type : string;
  ev_payload : JS.json;
}.

Record TourRow := { tr_id : string; tr_slug : string; tr_title : string }.

Record Attachment := { filename : string; content : string; contentType : string }.

(** The message handed to [resend.emails.send]; its two bodies ([text] and
    [html]) are presentation and are left out. *)
Record Email := {
  from : string;
  to : string;
  subject : string;
  reply_to : option string;
  attachments : list Attachment;
}.

(** A write the database applied. *)
Inductive Write :=
| InsertBooking (id : nat) (session_id : string)
| UpdateBooking (id : nat) (session_id : string)
| UpdateStatus (id : nat) (s : Status)
| InsertEvent (type : string).

(** The state the handler acts on: the tables, the messages Resend accepted
    (each with the session it was sent for), and the writes applied so far. *)
Record World := {
  bookings : list BookingRow;
  events : list EventRow;
  tours : list TourRow;
  next_id : nat;
  outbox : list (string * Email);
  journal : list Write;
}.

Definition initial (catalog : list TourRow) : World :=
  {| bookings := []; events := []; tours := catalog; next_id := 0;
     outbox := []; journal := [] |}.

(** ** Awaited calls: state and exceptions *)

Inductive Outcome (A : Type) :=
| Ok (a : A)
| Throw (e : string).
Arguments Ok {A} a.
Arguments Throw {A} e.

Definition M (A : Type) : Type := World -> Outcome A * World.

#[export] Instance M_ret : MRet M := λ A a w, (Ok a, w).

#[export] Instance M_bind : MBind M := λ A B f m w,
  match m w with
  | (Ok a, w') => f a w'
  | (Throw e, w') => (Throw e, w')
  end.

Definition throw {A} (e : string) : M A := λ w, (Throw e, w).

(** [try { body } catch (e) { handler(e) }] *)
Definition try_catch {A} (body : M A) (handler : string -> M A) : M A := λ w,
  match body w with
  | (Ok a, w') => (Ok a, w')
  | (Throw e, w') => handler e w'
  end.

(** The result of an awaited call to a remote service. *)
Definition await {A} (r : Outcome A) : M A := λ w, (r, w).

(** A query sent through the admin client. *)
Inductive Query :=
| select_events (type key value : string)
| insert_into_events (type : string) (payload : JS.json)
| select_bookings (session_id : string)
| update_bookings (id : nat)
| insert_into_bookings (session_id : string)
| select_tours_by_slug (slug : string)
| select_tours_by_title (title : string).

(** How a query the database does not take goes wrong: its answer carries
    [error] and no data, or the awaited call throws.  Either way the tables
    are left as they were. *)
Inductive Fault :=
| Refused (error : string)
| Failed (e : string).

(** The client [getSupabaseAdmin()] returns, as one delivery finds the
    database: the fault of each query, if it has one. *)
Definition Admin : Type := Query -> option Fault.

(** [await admin.from(...)...]: [answer] is what the query does when the
    database takes it. *)
Definition query {A} (admin : Admin) (q : Query) (refused : string -> A) (answer : M A)
    : M A :=
  match admin q with
  | Some (Failed e) => throw e
  | Some (Refused error) => mret (refused error)
  | None => answer
  end.

(** [{ data, error }] of a query ended by [.maybeSingle()]: no row is no
    data and no error, several rows are an error. *)
Record QueryResult (A : Type) := { data : option A; error : option string }.
Arguments data {A} _.
Arguments error {A} _.

(** [{ data: null, error }] *)
Definition refusal {A} (error : string) : QueryResult A :=
  {| data := None; error := Some error |}.

Definition maybeSingle {A} (rows : list A) : QueryResult A :=
  match rows with
  | [] => {| data := None; error := None |}
  | [r] => {| data := Some r; error := None |}
  | _ => {| data := None; error := Some "PGRST116" |}
  end.

(** [payload @> { key: value }] for a text [value]. *)
Definition contains (payload : JS.json) (key value : string) : bool :=
  match payload with
  | JObj fields =>
      match list_find (λ kv, kv.1 = key) fields with
      | Some (_, (_, JStr v)) => bool_decide (v = value)
      | _ => false
      end
  | _ => false
  end.

Definition is_marker (type key value : string) (r : EventRow) : bool :=
  bool_decide (ev_type r = type) && contains (ev_payload r) key value.

(** [from('events').select('id').eq('type', t).contains('payload', {k: v}).maybeSingle()] *)
Definition select_event (admin : Admin) (type key value : string)
    : M (QueryResult EventRow) :=
  query admin (select_events type key value) refusal
    (λ w, (Ok (maybeSingle (List.filter (is_marker type key value) (events w))), w)).

(** The table of events with one more row. *)
Definition add_event (type : string) (payload : JS.json) (w : World) : World :=
  {| bookings := bookings w;
     events := events w ++ [{| ev_id := next_id w; ev_type := type;
                               ev_payload := payload |}];
     tours := tours w; next_id := S (next_id w); outbox := outbox w;
     journal := journal w ++ [InsertEvent type] |}.

(** [from('events').insert({ type, payload })]: the [error] of the answer. *)
Definition insert_event (admin : Admin) (type : string) (payload : JS.json)
    : M (option string) :=
  query admin (insert_into_events type payload) Some
    (λ w, (Ok None, add_event type payload w)).

Definition has_session (sid : string) (b : BookingRow) : bool :=
  bool_decide (stripe_session_id b = Some sid).

(** [from('bookings').select('id,status').eq('stripe_session_id', sid).maybeSingle()] *)
Definition select_booking (admin : Admin) (sid : string) : M (QueryResult BookingRow) :=
  query admin (select_bookings sid) refusal
    (λ w, (Ok (maybeSingle (List.filter (has_session sid) (bookings w))), w)).

(** The table of bookings with the row [id] patched. *)
Definition patch_booking (id : nat) (patch : BookingRow -> BookingRow) (wr : Write)
    (w : World) : World :=
  {| bookings := (λ b, if bool_decide (b_id b = id) then patch b else b) <$> bookings w;
     events := events w; tours := tours w; next_id := next_id w;
     outbox := outbox w; journal := journal w ++ [wr] |}.

(** [from('bookings').update(patch).eq('id', id)]: the [error] of the answer. *)
Definition update_booking (admin : Admin) (id : nat) (patch : BookingRow -> BookingRow)
    (wr : Write) : M (option string) :=
  query admin (update_bookings id) Some (λ w, (Ok None, patch_booking id patch wr w)).

(** The table of bookings with one more row, under the next id. *)
Definition add_booking (row : nat -> BookingRow) (sid : string) (w : World) : World :=
  {| bookings := bookings w ++ [row (next_id w)];
     events := events w; tours := tours w; next_id := S (next_id w);
     outbox := outbox w;
     journal := journal w ++ [InsertBooking (next_id w) sid] |}.

(** [from('bookings').insert(row).select('id').single()]: the new row's id
    as [data]. *)
Definition insert_booking (admin : Admin) (row : nat -> BookingRow) (sid : string)
    : M (QueryResult nat) :=
  query admin (insert_into_bookings sid) refusal
    (λ w, (Ok {| data := Some (next_id w); error := None |}, add_booking row sid w)).

(** The rows a query on [tours] selects. *)
Definition selects_tour `{Platform} (q : Query) (t : TourRow) : bool :=
  match q with
  | select_tours_by_slug slug => bool_decide (tr_slug t = slug)
  | select_tours_by_title title => ilike title (tr_title t)
  | _ => false
  end.

(** [from('tours').select('id')...maybeSingle()], then [!error && data?.id]. *)
Definition select_tour_id `{Platform} (admin : Admin) (q : Query) : M (option string) :=
  r ← query admin q refusal
        (λ w, (Ok (maybeSingle (List.filter (selects_tour q) (tours w))), w));
  mret (match error r, data r with
        | None, Some t => truthy (Some (tr_id t))
        | _, _ => None
        end).

(** A message Resend accepted, for the session [sid]. *)
Definition record_sent (sid : string) (m : Email) : M unit := λ w,
  (Ok (),
   {| bookings := bookings w; events := events w; tours := tours w;
      next_id := next_id w; outbox := outbox w ++ [(sid, m)];
      journal := journal w |}).

(** ** helpers *)

Inductive Body :=
| Err (error : string)
| Received
| Skipped
| Duplicate (event_id : string)
| Dev.

Record Response := { body : Body; status : Z }.

(** [json(data, status)]; the two headers are the same on every response. *)
Definition json (data : Body) (status : Z) : Response :=
  {| body := data; status := status |}.

(** [a ?? b] *)
Definition nullish {A} (a b : option A) : option A :=
  match a with Some _ => a | None => b end.
Infix "??" := nullish (at level 61, left associativity).

Definition safeStr `{Platform} (v : option string) : string :=
  match v with Some s => trim s | None => "" end.

Definition parseYMD `{Platform} (ymd : string) : option string :=
  match truthy (Some ymd) with
  | None => None
  | Some ymd =>
      if Checkout.ymd_shape ymd then
        match Date_getTime (ymd +:+ "T00:00:00Z") with
        | Some _ => Some ymd
        | None => None
        end
      else None
  end.

Definition is_lower_alnum (c : ascii) : bool :=
  let n := nat_of_ascii c in
  ((97 <=? n)%nat && (n <=? 122)%nat) || ((48 <=? n)%nat && (n <=? 57)%nat).

(** [.replace(/[^a-z0-9]+/g, '-')] *)
Fixpoint dash_runs (in_run : bool) (l : list ascii) : list ascii :=
  match l with
  | [] => []
  | c :: r =>
      if is_lower_alnum c then c :: dash_runs false r
      else if in_run then dash_runs true r
      else "-"%char :: dash_runs true r
  end.

Fixpoint drop_dashes (l : list ascii) : list ascii :=
  match l with
  | c :: r => if bool_decide (c = "-"%char) then drop_dashes r else l
  | [] => []
  end.

Definition toKebab `{Platform} (str : option string) : string :=
  let s := toLowerCase (without_diacritics (safeStr (Some (or_str str "")))) in
  string_of_list_ascii
    (reverse (drop_dashes (reverse (drop_dashes
       (dash_runs false (list_ascii_of_string s)))))).

(** ** Remote services, as one delivery finds them *)

Record InvoiceInput := {
  bookingId : string;
  createdAtISO : string;
  customerName : option string;
  customerEmail : string;
  tourTitle : string;
  tourDate : option string;
  inv_persons : float;
  totalMinor : option Z;
  inv_currency : string;
  siteUrl : string;
}.

(** The options the handler passes to the renderer besides its constants
    (locale [es-CO], no fraction digits, the brand colours, [showQr]). *)
Record InvoiceOptions := { logoUrl : string; qrUrl : string; qrLabel : string }.

Record Services := {
  (** [stripe.webhooks.constructEvent(rawBody, sig, secret)]: the event, or
      the message of the error it throws *)
  constructEvent : string -> string -> string -> string + Event;
  (** [checkout.sessions.list({ payment_intent, limit: 1 }).data?.[0]] *)
  sessions_list : string -> Outcome (option Session);
  (** [buildInvoicePdf(input, options)], in base64 *)
  buildInvoicePdf : InvoiceInput -> InvoiceOptions -> Outcome string;
  (** [buildInvoiceFileName(tourTitle, new Date(createdISO))] *)
  buildInvoiceFileName : string -> string -> string;
  (** [resend.emails.send(message)]: [Ok None] when accepted, [Ok (Some e)]
      when the answer carries [error] *)
  emails_send : Email -> Outcome (option string);
  (** [new Date().toISOString().slice(0, 10)], [Math.floor(Date.now() / 1000)] *)
  today : string;
  now_s : Z;
  (** the client for a URL and a service-role key, the one the process
      already holds or the one [createClient(url, key, options)] makes, or
      the error [createClient] throws *)
  createClient : string -> string -> Outcome Admin;
}.

Record Config := { process_env : gmap string string; SITE_URL : string }.

(** [mustGet(key)] of [src/lib/env.ts].  It reads [process.env[key] ??
    serverEnv[key]]; for the two keys asked here [serverEnv], parsed from
    [process.env], holds nothing that [process.env] lacks. *)
Definition mustGet (cfg : Config) (key : string) : Outcome string :=
  match process_env cfg !! key with
  | Some val => if bool_decide (val = "") then Throw ("Missing env: " +:+ key) else Ok val
  | None => Throw ("Missing env: " +:+ key)
  end.

(** [getSupabaseAdmin()] of [src/lib/supabaseAdmin.ts] *)
Definition getSupabaseAdmin `{Platform} (cfg : Config) (svc : Services) : Outcome Admin :=
  match mustGet cfg "SUPABASE_URL" with
  | Throw e => Throw e
  | Ok url =>
      match mustGet cfg "SUPABASE_SERVICE_ROLE" with
      | Throw e => Throw e
      | Ok key => createClient svc (trim url) (trim key)
      end
  end.

Definition isProd (cfg : Config) : bool :=
  bool_decide (process_env cfg !! "NODE_ENV" = Some "production").

Fixpoint drop_slashes (l : list ascii) : list ascii :=
  match l with
  | c :: r => if bool_decide (c = "/"%char) then drop_slashes r else l
  | [] => []
  end.

(** [(SITE_URL || NEXT_PUBLIC_SITE_URL || 'http://localhost:3000').replace(/\/+$/, '')] *)
Definition BASE_URL (cfg : Config) : string :=
  let u := match truthy (Some (SITE_URL cfg)) with
           | Some u => u
           | None => or_str (process_env cfg !! "NEXT_PUBLIC_SITE_URL")
                       "http://localhost:3000"
           end in
  string_of_list_ascii (reverse (drop_slashes (reverse (list_ascii_of_string u)))).

Definition LOGO_URL (cfg : Config) : string := BASE_URL cfg +:+ "/logo.png".

(** ** Supabase helpers *)

(** [.update({ status })] *)
Definition set_status (s : Status) (b : BookingRow) : BookingRow :=
  {| b_id := b_id b; user_id := user_id b; tour_id := tour_id b;
     b_date := b_date b; persons := persons b; extras := extras b;
     b_status := s; total := total b; b_currency := b_currency b;
     origin_currency := origin_currency b; tour_price_cop := tour_price_cop b;
     payment_provider := payment_provider b;
     stripe_session_id := stripe_session_id b;
     b_customer_email := b_customer_email b;
     b_customer_name := b_customer_name b; b_phone := b_phone b |}.

(** [.update({ status, total, currency, origin_currency, tour_price_cop,
    payment_provider, customer_email, customer_name, phone })] *)
Definition set_payment (s : Status) (tot : option Z) (cur origin : option string)
    (price_cop : option float) (provider email name phone : option string)
    (b : BookingRow) : BookingRow :=
  {| b_id := b_id b; user_id := user_id b; tour_id := tour_id b;
     b_date := b_date b; persons := persons b; extras := extras b;
     b_status := s; total := tot; b_currency := cur;
     origin_currency := origin; tour_price_cop := price_cop;
     payment_provider := provider;
     stripe_session_id := stripe_session_id b;
     b_customer_email := email; b_customer_name := name; b_phone := phone |}.

Definition updateBookingStatusBySessionId (admin : Admin) (stripe_session_id : string)
    (nextStatus : Status) : M unit :=
  existing ← select_booking admin stripe_session_id;
  match error existing with
  | Some exErr => throw exErr
  | None =>
      match data existing with
      | None => mret ()
      | Some row =>
          if bool_decide (b_status row = nextStatus) then mret ()
          else
            updErr ← update_booking admin (b_id row) (set_status nextStatus)
                       (UpdateStatus (b_id row) nextStatus);
            match updErr with
            | Some updErr => throw updErr
            | None => mret ()
            end
      end
  end.

(** [Number(x) || fallback] *)
Definition number_or (x fallback : float) : float :=
  if PrimFloat.is_nan x || PrimFloat.eqb x 0 then fallback else x.

Definition jsonSafe_meta (meta : gmap string string) : JS.json :=
  JObj [("meta", JObj ((λ kv, (kv.1, JStr kv.2)) <$> map_to_list meta))].

Definition upsertBookingFromSession `{Platform} (svc : Services) (admin : Admin)
    (session : Session) : M nat :=
  let meta := default ∅ (s_metadata session) in
  let cd := customer_details session in
  let customer_email :=
    safeStr ((cd ≫= cd_email) ?? customer_email session ?? meta !! "email") in
  let customer_name :=
    safeStr (meta !! "customer_name" ?? (cd ≫= cd_name) ?? Some "") in
  let phone := safeStr (meta !! "phone" ?? (cd ≫= cd_phone) ?? Some "") in
  let quantity :=
    number_or (match meta !! "quantity" with Some q => Number q | None => 0%float end)
      1%float in
  let dateStr := default (today svc) (parseYMD (safeStr (meta !! "date"))) in
  let tourSlug := toKebab (meta !! "tour_slug") in
  let tourTitle := safeStr (meta !! "tour_title") in
  tour_id ←
    try_catch
      (by_slug ← match truthy (Some tourSlug) with
                 | Some sl => select_tour_id admin (select_tours_by_slug sl)
                 | None => mret None
                 end;
       match by_slug, truthy (Some tourTitle) with
       | None, Some ti => select_tour_id admin (select_tours_by_title ti)
       | _, _ => mret by_slug
       end)
      (λ _, mret None);
  let amount_total := amount_total session in
  let currency := truthy (Some (toUpperCase (safeStr (s_currency session)))) in
  let origin_currency :=
    match truthy (Some (safeStr (meta !! "origin_currency"))),
          truthy (Some (safeStr (meta !! "currency"))) with
    | Some c, _ | None, Some c => c
    | None, None => "COP"
    end in
  let tour_price_cop :=
    match truthy (meta !! "tour_price_cop"), truthy (meta !! "tour_price") with
    | Some p, _ | None, Some p => Some (Number p)
    | None, None => None
    end in
  let bookingStatus :=
    if bool_decide (payment_status session = "paid") then paid else pending in
  let stripe_session_id := safeStr (Some (s_id session)) in
  match truthy (Some stripe_session_id) with
  | None => throw "Missing stripe_session_id"
  | Some stripe_session_id =>
      existing ← select_booking admin stripe_session_id;
      match error existing with
      | Some e => throw e
      | None =>
          match data existing with
          | Some row =>
              updErr ← update_booking admin (b_id row)
                (set_payment bookingStatus amount_total currency
                   (Some origin_currency) tour_price_cop (Some "stripe")
                   (truthy (Some customer_email)) (truthy (Some customer_name))
                   (truthy (Some phone)))
                (UpdateBooking (b_id row) stripe_session_id);
              match updErr with
              | Some updErr => throw updErr
              | None => mret (b_id row)
              end
          | None =>
              inserted ← insert_booking admin
                (λ id, {| b_id := id; user_id := None; tour_id := tour_id;
                          b_date := dateStr; persons := quantity;
                          extras := jsonSafe_meta meta;
                          b_status := bookingStatus; total := amount_total;
                          b_currency := currency;
                          origin_currency := Some origin_currency;
                          tour_price_cop := tour_price_cop;
                          payment_provider := Some "stripe";
                          stripe_session_id := Some stripe_session_id;
                          b_customer_email := truthy (Some customer_email);
                          b_customer_name := truthy (Some customer_name);
                          b_phone := truthy (Some phone) |})
                stripe_session_id;
              match error inserted, data inserted with
              | Some insErr, _ => throw insErr
              | None, Some id => mret id
              | None, None =>
                  throw "TypeError: Cannot read properties of null (reading 'id')"
              end
          end
      end
  end.

(** [logEvent(admin, type, payload)]: the [error] of the answer is not
    read. *)
Definition logEvent (admin : Admin) (type : string) (payload : list (string * JS.json))
    : M unit :=
  try_catch (insert_event admin type (JObj payload);; mret ()) (λ _, mret ()).

Definition jstr (s : string) : JS.json := JStr s.
Definition jnum (n : Z) : JS.json := JNum (Int n).
Definition jopt {A} (f : A -> JS.json) (x : option A) : JS.json :=
  match x with Some a => f a | None => JNull end.

(** Idempotent check-and-mark by [event.id] (best effort). *)
Definition seenOrMarkEvent (admin : Admin) (eventId : string) : M bool :=
  try_catch
    (seen ← select_event admin "stripe_event_seen" "event_id" eventId;
     match data seen with
     | Some _ => mret true
     | None =>
         insert_event admin "stripe_event_seen" (JObj [("event_id", JStr eventId)]);;
         mret false
     end)
    (λ _, mret false).

(** ** The confirmation e-mail with its PDF *)

(** [resend.emails.send(message)]; an accepted message goes to the outbox. *)
Definition resend_emails_send (svc : Services) (sid : string) (message : Email)
    : M (option string) :=
  sendRes ← await (emails_send svc message);
  match sendRes with
  | None => record_sent sid message;; mret None
  | Some e => mret (Some e)
  end.

Definition trySendBookingEmail `{Platform} (cfg : Config) (svc : Services)
    (admin : Admin) (session : Session) : M unit :=
  let env := process_env cfg in
  try_catch
    (match truthy (env !! "RESEND_API_KEY") with
     | None => mret ()
     | Some RESEND_API_KEY =>
       match truthy (customer_details session ≫= cd_email) ?? truthy (customer_email session) with
       | None => mret ()
       | Some to =>
         already ← select_event admin "invoice_sent" "session_id" (s_id session);
         match data already with
         | Some _ => mret ()
         | None =>
           let md := default ∅ (s_metadata session) in
           let tourTitle := or_str (md !! "tour_title") "Tour KCE" in
           let tourDate := truthy (md !! "date") in
           let qty :=
             number_or (match truthy (md !! "quantity") with
                        | Some q => Number q
                        | None => 1%float
                        end) 1%float in
           createdISO ←
             match Date_toISOString (default (now_s svc) (created session) * 1000) with
             | Some iso => mret iso
             | None => throw "RangeError: Invalid time value"
             end;
           let currency := toUpperCase (or_str (s_currency session) "usd") in
           pdfBuffer ← await (buildInvoicePdf svc
             {| bookingId := s_id session;
                createdAtISO := createdISO;
                customerName := truthy (customer_details session ≫= cd_name);
                customerEmail := to;
                tourTitle := tourTitle;
                tourDate := tourDate;
                inv_persons := qty;
                totalMinor := amount_total session;
                inv_currency := currency;
                siteUrl := BASE_URL cfg |}
             {| logoUrl := LOGO_URL cfg;
                qrUrl := BASE_URL cfg +:+ "/booking/" +:+ encodeURIComponent (s_id session);
                qrLabel := "Gestiona tu reserva" |});
           let filename := buildInvoiceFileName svc tourTitle createdISO in
           let fromAddr :=
             or_str (Some (trim (or_str (env !! "EMAIL_FROM") "")))
               "KCE <onboarding@resend.dev>" in
           let replyTo := truthy (env !! "EMAIL_REPLY_TO") in
           let subject :=
             "KCE — Confirmación de reserva"
             +:+ match truthy (Some tourTitle) with
                 | Some t => ": " +:+ t
                 | None => ""
                 end
             +:+ match tourDate with
                 | Some d => " (" +:+ d +:+ ")"
                 | None => ""
                 end in
           sendRes ← resend_emails_send svc (s_id session)
             {| from := fromAddr; to := to; subject := subject; reply_to := replyTo;
                attachments := [{| filename := filename; content := pdfBuffer;
                                   contentType := "application/pdf" |}] |};
           match sendRes with
           | Some e =>
               logEvent admin "invoice_send_error"
                 [("session_id", jstr (s_id session)); ("email", jstr to);
                  ("error", jstr e)]
           | None =>
               logEvent admin "invoice_sent"
                 [("session_id", jstr (s_id session)); ("email", jstr to)]
           end
         end
       end
     end)
    (λ err,
       try_catch
         (logEvent admin "invoice_send_exception"
            [("session_id", JNull); ("error", jstr err)])
         (λ _, mret ())).

(** ** handler *)

Record Request := { stripe_signature : option string; rawBody : string }.

(** The [switch (event.type)] of the handler. *)
Definition dispatch `{Platform} (cfg : Config) (svc : Services) (admin : Admin)
    (event : Event) : M unit :=
  let event_id := ("event_id", jstr (e_id event)) in
  match e_data event with
  | checkout_session_completed session =>
      bookingId ← upsertBookingFromSession svc admin session;
      logEvent admin "stripe_checkout_completed"
        [event_id; ("booking_id", jnum (Z.of_nat bookingId));
         ("session_id", jstr (s_id session));
         ("amount_total", jopt jnum (amount_total session));
         ("currency", jopt jstr (s_currency session));
         ("livemode", jopt JBool (livemode session))];;
      trySendBookingEmail cfg svc admin session
  | checkout_session_async_payment_succeeded session =>
      bookingId ← upsertBookingFromSession svc admin session;
      logEvent admin "stripe_checkout_async_succeeded"
        [event_id; ("booking_id", jnum (Z.of_nat bookingId));
         ("session_id", jstr (s_id session))];;
      trySendBookingEmail cfg svc admin session
  | checkout_session_async_payment_failed session =>
      logEvent admin "stripe_checkout_async_failed"
        [event_id; ("session_id", jstr (s_id session));
         ("last_payment_error", default JNull (last_payment_error session))]
  | checkout_session_expired session =>
      match truthy (Some (s_id session)) with
      | Some sid => updateBookingStatusBySessionId admin sid canceled
      | None => mret ()
      end;;
      logEvent admin "stripe_checkout_expired"
        [event_id; ("session_id", jstr (s_id session))]
  | payment_intent_succeeded pi =>
      try_catch
        (list ← await (sessions_list svc (pi_id pi));
         match list with
         | Some sess =>
             match truthy (Some (s_id sess)) with
             | Some _ =>
                 bookingId ← upsertBookingFromSession svc admin sess;
                 logEvent admin "stripe_pi_succeeded_linked"
                   [event_id; ("pi_id", jstr (pi_id pi));
                    ("booking_id", jnum (Z.of_nat bookingId));
                    ("session_id", jstr (s_id sess))];;
                 trySendBookingEmail cfg svc admin sess
             | None =>
                 logEvent admin "stripe_pi_succeeded_unlinked"
                   [event_id; ("pi_id", jstr (pi_id pi))]
             end
         | None =>
             logEvent admin "stripe_pi_succeeded_unlinked"
               [event_id; ("pi_id", jstr (pi_id pi))]
         end)
        (λ e,
           logEvent admin "stripe_pi_succeeded_lookup_error"
             [event_id; ("pi_id", jstr (pi_id pi)); ("error", jstr e)])
  | payment_intent_payment_failed pi =>
      logEvent admin "stripe_pi_failed"
        [event_id; ("pi_id", jstr (pi_id pi));
         ("last_payment_error", default JNull (pi_last_payment_error pi))]
  | charge_refunded charge =>
      match truthy (ch_payment_intent charge) with
      | Some piId =>
          sessions ← await (sessions_list svc piId);
          match sessions ≫= (λ sess, truthy (Some (s_id sess))) with
          | Some sid =>
              updateBookingStatusBySessionId admin sid canceled;;
              logEvent admin "stripe_charge_refunded"
                [event_id; ("session_id", jstr sid); ("charge_id", jstr (ch_id charge));
                 ("amount_refunded", jnum (amount_refunded charge));
                 ("currency", jstr (ch_currency charge))]
          | None =>
              logEvent admin "stripe_charge_refunded_orphan"
                [event_id; ("charge_id", jstr (ch_id charge));
                 ("payment_intent", jstr piId)]
          end
      | None => mret ()
      end
  | other_event type =>
      logEvent admin "stripe_unhandled_event" [event_id; ("type", jstr type)]
  end.

(** [POST(req)].  A run that ends in [Throw] is an exception no handler of
    the route catches: the one [getSupabaseAdmin()] throws. *)
Definition POST `{Platform} (cfg : Config) (svc : Services) (req : Request) : M Response :=
  let env := process_env cfg in
  match truthy (env !! "STRIPE_WEBHOOK_SECRET"), truthy (env !! "STRIPE_SECRET_KEY") with
  | Some webhookSecret, Some stripeKey =>
      match truthy (stripe_signature req) with
      | None => mret (json (Err "Missing stripe-signature") 400)
      | Some sig =>
          match constructEvent svc (rawBody req) sig webhookSecret with
          | inl message => mret (json (Err message) 400)
          | inr event =>
              admin ← await (getSupabaseAdmin cfg svc);
              seen ← seenOrMarkEvent admin (e_id event);
              if seen : bool then mret (json (Duplicate (e_id event)) 200)
              else
                try_catch
                  (dispatch cfg svc admin event;; mret (json Received 200))
                  (λ _, mret (if isProd cfg then json (Err "Handler failure") 500
                              else json Dev 200))
          end
      end
  | _, _ =>
      if isProd cfg then mret (json (Err "Stripe env not set") 500)
      else mret (json Skipped 200)
  end.

(** One delivery: the services as it finds them, and the request. *)
Definition Delivery : Type := Services * Request.

Definition deliver `{Platform} (cfg : Config) (w : World) (d : Delivery) : World :=
  (POST cfg d.1 d.2 w).2.

(** Deliveries handled one after the other. *)
Definition run `{Platform} (cfg : Config) (w : World) (ds : list Delivery) : World :=
  foldl (deliver cfg) w ds.

(** A delivery whose signature verifies for [secret], and its event. *)
Definition verified (secret : string) (svc : Services) (req : Request)
    (event : Event) : Prop :=
  exists sig, truthy (stripe_signature req) = Some sig
              /\ constructEvent svc (rawBody req) sig secret = inr event.

(** ** What the properties observe *)

(** Rows of [bookings] for the session [sid]. *)
Definition booking_count (sid : string) (w : World) : nat :=
  length (List.filter (has_session sid) (bookings w)).

(** Rows of [events] of the given type whose payload has [key = value]. *)
Definition marker_count (type key value : string) (w : World) : nat :=
  length (List.filter (is_marker type key value) (events w)).

Definition sent_for (sid : string) (m : string * Email) : bool :=
  bool_decide (m.1 = sid).

(** Confirmation e-mails sent for the session [sid]. *)
Definition sent_count (sid : string) (w : World) : nat :=
  length (List.filter (sent_for sid) (outbox w)).

Definition is_upsert (x : Write) : bool :=
  match x with
  | InsertBooking _ _ | UpdateBooking _ _ => true
  | _ => false
  end.

(** Inserts and updates issued by [upsertBookingFromSession]. *)
Definition upsert_count (w : World) : nat :=
  length (List.filter is_upsert (journal w)).

(** ** The writes of a delivery, one at a time

    Every change a delivery makes to the world through the client [admin]
    is one of these; the two indices count booking upserts and e-mails
    sent.  A marker is written after a read that found none, or after a
    read that went wrong.  The marker of a sent e-mail is recorded by the
    same step as the e-mail, as nothing happens between the two in
    [trySendBookingEmail], unless the database does not take it. *)
Inductive atomic (admin : Admin) : nat -> nat -> World -> World -> Prop :=
| at_log w type payload :
    type <> "invoice_sent" -> type <> "stripe_event_seen" ->
    atomic admin 0 0 w (add_event type payload w)
| at_seen w eid :
    (admin (select_events "stripe_event_seen" "event_id" eid) = None ->
     data (maybeSingle
             (List.filter (is_marker "stripe_event_seen" "event_id" eid) (events w)))
     = None) ->
    atomic admin 0 0 w
      (add_event "stripe_event_seen" (JObj [("event_id", JStr eid)]) w)
| at_insert w row sid :
    List.filter (has_session sid) (bookings w) = [] ->
    (forall id, stripe_session_id (row id) = Some sid) ->
    atomic admin 1 0 w (add_booking row sid w)
| at_update w id patch sid :
    (forall b, stripe_session_id (patch b) = stripe_session_id b) ->
    atomic admin 1 0 w (patch_booking id patch (UpdateBooking id sid) w)
| at_status w id st :
    atomic admin 0 0 w (patch_booking id (set_status st) (UpdateStatus id st) w)
| at_send w sid m to :
    (admin (select_events "invoice_sent" "session_id" sid) = None ->
     data (maybeSingle
             (List.filter (is_marker "invoice_sent" "session_id" sid) (events w)))
     = None) ->
    atomic admin 0 1 w
      (add_event "invoice_sent"
         (JObj [("session_id", JStr sid); ("email", JStr to)])
         (record_sent sid m w).2)
| at_send_unmarked w sid m payload :
    admin (insert_into_events "invoice_sent" payload) <> None ->
    atomic admin 0 1 w (record_sent sid m w).2.

Inductive steps (admin : Admin) : nat -> nat -> World -> World -> Prop :=
| steps_refl w : steps admin 0 0 w w
| steps_cons u1 s1 u2 s2 w1 w2 w3 :
    atomic admin u1 s1 w1 w2 -> steps admin u2 s2 w2 w3 ->
    steps admin (u1 + u2) (s1 + s2) w1 w3.

(** [m] changes the world by such writes only, with at most [U] upserts and
    [S] e-mails. *)
Definition sound {A} (admin : Admin) (U S : nat) (m : M A) : Prop :=
  forall w, exists u s, (u <= U)%nat /\ (s <= S)%nat /\ steps admin u s w (m w).2.

(** The same at one world, to step through the reads of a helper. *)
Definition sound_at {A} (admin : Admin) (w : World) (U S : nat) (m : M A) : Prop :=
  exists u s, (u <= U)%nat /\ (s <= S)%nat /\ steps admin u s w (m w).2.

(** ** A database that answers *)


(** The client reads and writes [bookings] without fault. *)
Definition bookings_work (admin : Admin) : Prop :=
  (forall sid, admin (select_bookings sid) = None)
  /\ (forall id, admin (update_bookings id) = None)
  /\ (forall sid, admin (insert_into_bookings sid) = None).

(** The client a delivery gets, when it gets one, satisfies [P]. *)
Definition client_is `{Platform} (cfg : Config) (P : Admin -> Prop) (d : Delivery) : Prop :=
  forall admin, getSupabaseAdmin cfg d.1 = Ok admin -> P admin.

(** ** Invariants of the tables *)

(** At most one row of [bookings] per session. *)
Definition bookings_unique (w : World) : Prop :=
  forall sid, (booking_count sid w <= 1)%nat.

(** At most one [stripe_event_seen] marker per event id. *)
Definition seen_once (w : World) : Prop :=
  forall eid, (marker_count "stripe_event_seen" "event_id" eid w <= 1)%nat.

(** Every e-mail sent for a session has its [invoice_sent] marker, every
    marker its e-mail, and there is at most one of them. *)
Definition sent_ledger (w : World) : Prop :=
  forall sid,
    sent_count sid w = marker_count "invoice_sent" "session_id" sid w
    /\ (marker_count "invoice_sent" "session_id" sid w <= 1)%nat.

(** ** Variations used by the properties *)

(** The services [svc] with a PDF renderer that throws [e]. *)
Definition pdf_fails (e : string) (svc : Services) : Services :=
  {| constructEvent := constructEvent svc;
     sessions_list := sessions_list svc;
     buildInvoicePdf := λ _ _, Throw e;
     buildInvoiceFileName := buildInvoiceFileName svc;
     emails_send := emails_send svc;
     today := today svc;
     now_s := now_s svc;
     createClient := createClient svc |}.

(** The session [s] with another [payment_status]. *)
Definition with_payment_status (st : string) (s : Session) : Session :=
  {| s_id := s_id s; s_metadata := s_metadata s;
     customer_details := customer_details s; customer_email := customer_email s;
     amount_total := amount_total s; s_currency := s_currency s;
     payment_status := st; created := created s; livemode := livemode s;
     last_payment_error := last_payment_error s |}.

(** ** What the further properties observe *)

(** The events that write a payment to [bookings] and send the e-mail; the
    others are recorded in [events] and, for an expiry or a refund, cancel
    a booking. *)
Definition confirms_payment (d : EventData) : bool :=
  match d with
  | checkout_session_completed _ | checkout_session_async_payment_succeeded _
  | payment_intent_succeeded _ => true
  | _ => false
  end.

(** The events whose [case] cannot end in an exception: it only records,
    or it catches what it runs. *)
Definition caught_or_recorded (d : EventData) : bool :=
  match d with
  | checkout_session_async_payment_failed _ | payment_intent_succeeded _
  | payment_intent_payment_failed _ | other_event _ => true
  | _ => false
  end.

(** [m] leaves the table of bookings as it is. *)
Definition keeps_bookings {A} (m : M A) : Prop :=
  forall w, bookings (m w).2 = bookings w.

(** The status [upsertBookingFromSession] writes for a session. *)
Definition status_of_session (session : Session) : Status :=
  if bool_decide (payment_status session = "paid") then paid else pending.

(** No two dashes in a row. *)
Definition no_double_dash (l : list ascii) : Prop :=
  forall l1 l2, l <> l1 ++ "-"%char :: "-"%char :: l2.

End Webhook.

(* ===================================================================== *)
(** * Derived settings: [src/lib/env.ts]                                  *)
(* ===================================================================== *)

Module Env.

Definition TRUEY : list string := ["1"; "true"; "yes"; "on"].

Definition boolEnv `{Platform} (v : option string) (fallback : bool) : bool :=
  match v with
  | None => fallback
  | Some v => bool_decide (toLowerCase (trim v) ∈ TRUEY)
  end.

(** Case folding of a regular expression with the flag [i] and without the
    flag [u]: an ASCII letter matches its other case and nothing else does. *)
Definition ascii_lower (c : ascii) : ascii :=
  let n := nat_of_ascii c in
  if (65 <=? n)%nat && (n <=? 90)%nat then ascii_of_nat (n + 32) else c.

(** [/^https?:\/\//i.test(u)] *)
Definition has_protocol (u : string) : bool :=
  let l := ascii_lower <$> list_ascii_of_string u in
  bool_decide (take 7 l = list_ascii_of_string "http://")
  || bool_decide (take 8 l = list_ascii_of_string "https://").

Definition ensureProtocol (u : string) : string :=
  match truthy (Some u) with
  | None => u
  | Some _ => if has_protocol u then u else "https://" +:+ u
  end.

(** [u.endsWith('/') ? u.slice(0, -1) : u] *)
Definition stripTrailingSlash (u : string) : string :=
  match reverse (list_ascii_of_string u) with
  | c :: r => if bool_decide (c = "/"%char) then string_of_list_ascii (reverse r) else u
  | [] => u
  end.

(** A field of [ServerSchema]: [z.string()], [z.string().min(1)],
    [z.string().url()], [z.enum([...])]. *)
Inductive Field :=
| text
| nonempty
| url
| enum (values : list string).

(** The fields of [ServerSchema].  All are optional; [NODE_ENV] has a
    default. *)
Definition ServerSchema : list (string * Field) :=
  [("NODE_ENV", enum ["development"; "test"; "production"]);
   ("STRIPE_SECRET_KEY", nonempty);
   ("STRIPE_WEBHOOK_SECRET", nonempty);
   ("STRIPE_MOCK", text);
   ("SUPABASE_URL", url);
   ("SUPABASE_SERVICE_ROLE", nonempty);
   ("OPENAI_API_KEY", nonempty);
   ("OPENAI_ORG", text);
   ("OPENAI_BASE_URL", url);
   ("OPENAI_MODEL", text);
   ("GEMINI_API_KEY", nonempty);
   ("GEMINI_MODEL", text);
   ("GEMINI_API_URL", url);
   ("AI_PRIMARY", enum ["gemini"; "openai"]);
   ("AI_SECONDARY", enum ["gemini"; "openai"]);
   ("AI_HTTP_TIMEOUT_MS", text);
   ("RESEND_API_KEY", text);
   ("EMAIL_FROM", text);
   ("EMAIL_REPLY_TO", text);
   ("NEXT_PUBLIC_SITE_URL", url);
   ("NEXT_PUBLIC_BASE_URL", url);
   ("ROBOTS_DISABLE_INDEXING", text);
   ("VERCEL_URL", text);
   ("VERCEL_ENV", enum ["production"; "preview"; "development"])].

Definition accepts `{Platform} (f : Field) (v : string) : bool :=
  match f with
  | text => true
  | nonempty => negb (bool_decide (v = ""))
  | url => is_url v
  | enum values => bool_decide (v ∈ values)
  end.

(** The variable of a field is unset, or the field accepts it. *)
Definition field_ok `{Platform} (process_env : gmap string string)
    (kf : string * Field) : bool :=
  match process_env !! kf.1 with
  | Some v => accepts kf.2 v
  | None => true
  end.

(** [ServerSchema.safeParse(process.env)]: [server.data] when
    [server.success], the variables of the schema's fields. *)
Definition safeParse `{Platform} (process_env : gmap string string)
    : option (gmap string string) :=
  if forallb (field_ok process_env) ServerSchema
  then Some (<["NODE_ENV" := default "development" (process_env !! "NODE_ENV")]>
               (list_to_map
                  (omap (λ kf : string * Field, (λ v, (kf.1, v)) <$> process_env !! kf.1)
                     ServerSchema)))
  else None.

(** [serverEnv = Object.freeze(server.success ? server.data : {})] *)
Definition serverEnv `{Platform} (process_env : gmap string string) : gmap string string :=
  default ∅ (safeParse process_env).

(** [_computedSiteUrl], from the variables [ServerSchema] accepted. *)
Definition computedSiteUrl `{Platform} (serverEnv : gmap string string) : string :=
  match truthy (trim <$> serverEnv !! "NEXT_PUBLIC_SITE_URL") with
  | Some u => u
  | None =>
      match truthy (Some (match truthy (serverEnv !! "VERCEL_URL") with
                          | Some v => ensureProtocol (trim v)
                          | None => ""
                          end)) with
      | Some u => u
      | None => or_str (trim <$> serverEnv !! "NEXT_PUBLIC_BASE_URL")
                  "http://localhost:3000"
      end
  end.

Definition SITE_URL `{Platform} (serverEnv : gmap string string) : string :=
  stripTrailingSlash (computedSiteUrl serverEnv).

Definition isStripeMock `{Platform} (serverEnv : gmap string string) : bool :=
  boolEnv (serverEnv !! "STRIPE_MOCK") false.

(** [absUrl(path)], for the site URL [site]. *)
Definition absUrl (site path : string) : string :=
  match truthy (Some path) with
  | None => site
  | Some _ =>
      if has_protocol path then path
      else site +:+ (if String.prefix "/" path then path else "/" +:+ path)
  end.

(** What [src/app/api/checkout/route.ts] reads in a deployment with the
    variables [process_env]: them, and the two constants it imports from
    this module. *)
Definition checkout_config `{Platform} (process_env : gmap string string)
    : Checkout.Config :=
  {| Checkout.process_env := process_env;
     Checkout.SITE_URL := SITE_URL (serverEnv process_env);
     Checkout.isStripeMock := isStripeMock (serverEnv process_env) |}.

End Env.

(* ===================================================================== *)
(** * The invoice download: [src/app/api/invoice/[session_id]/route.ts]   *)
(* ===================================================================== *)

Module InvoiceRoute.

(** The text of one double quote. *)
Definition dquote : string := String (ascii_of_nat 34) EmptyString.

(** [\w] *)
Definition is_word (c : ascii) : bool :=
  let n := nat_of_ascii c in
  ((97 <=? n)%nat && (n <=? 122)%nat) || ((65 <=? n)%nat && (n <=? 90)%nat)
  || ((48 <=? n)%nat && (n <=? 57)%nat) || bool_decide (c = "_"%char).

(** [[\w.\-() ]] *)
Definition is_filename_char (c : ascii) : bool :=
  is_word c || bool_decide (c ∈ list_ascii_of_string ".-() ").

(** [.replace(/[^\w.\-() ]+/g, '_')] *)
Fixpoint underscore_runs (in_run : bool) (l : list ascii) : list ascii :=
  match l with
  | [] => []
  | c :: r =>
      if is_filename_char c then c :: underscore_runs false r
      else if in_run then underscore_runs true r
      else "_"%char :: underscore_runs true r
  end.

(** [name.replace(...).slice(0, 120) || 'archivo.pdf'].  After the
    replacement the text is ASCII, so its code units are its bytes. *)
Definition sanitizeFilename (name : string) : string :=
  or_str
    (Some (string_of_list_ascii
             (take 120 (underscore_runs false (list_ascii_of_string name)))))
    "archivo.pdf".

(** A line terminator, which [.] does not match: LF, CR, U+2028, U+2029
    (in UTF-8, E2 80 A8 and E2 80 A9). *)
Fixpoint has_line_terminator (l : list ascii) : bool :=
  match l with
  | [] => false
  | c :: r =>
      bool_decide (c = "010"%char) || bool_decide (c = "013"%char)
      || match r with
         | b :: d :: _ =>
             bool_decide (c = "226"%char) && bool_decide (b = "128"%char)
             && (bool_decide (d = "168"%char) || bool_decide (d = "169"%char))
         | _ => false
         end
      || has_line_terminator r
  end.

(** [/^\{.+\}$/.test(v)] *)
Definition in_braces (v : string) : bool :=
  match list_ascii_of_string v with
  | c :: rest =>
      bool_decide (c = "{"%char)
      && match reverse rest with
         | e :: mid =>
             bool_decide (e = "}"%char) && negb (bool_decide (mid = []))
             && negb (has_line_terminator (reverse mid))
         | [] => false
         end
  | [] => false
  end.

Definition isStripePlaceholderSession `{Platform} (id : option string) : bool :=
  let v := trim (or_str id "") in
  bool_decide (v = "") || bool_decide (v = "{CHECKOUT_SESSION_ID}") || in_braces v.

(** [hay.includes(needle)] *)
Fixpoint includes (needle hay : string) : bool :=
  String.prefix needle hay
  || match hay with
     | String _ r => includes needle r
     | EmptyString => false
     end.

Record Request := {
  accept : option string;        (** the header [accept] *)
  download : option string;      (** the search parameter [download] *)
  session_id : string;           (** the path parameter *)
}.

Definition wantsJson `{Platform} (req : Request) : bool :=
  let accept := toLowerCase (or_str (accept req) "") in
  includes "application/json" accept || includes "text/json" accept.

Inductive Body :=
| Problem (error : string) (as_json : bool)
    (** [{ error, requestId }] as JSON, or the text [error] *)
| Pdf (bytes : string).

Record Response := {
  body : Body;
  status : Z;
  headers : list (string * string);
}.

Definition CORS_HEADERS : list (string * string) :=
  [("Access-Control-Allow-Origin", "*");
   ("Access-Control-Allow-Methods", "GET,OPTIONS");
   ("Access-Control-Allow-Headers", "Content-Type");
   ("Access-Control-Expose-Headers",
    "Content-Disposition,Content-Length,X-Invoice-Session,X-Request-ID")].

(** The answer to a request that cannot be served, in the form the client
    asked for. *)
Definition problem `{Platform} (req : Request) (requestId error : string) (status : Z)
    : Response :=
  if wantsJson req
  then {| body := Problem error true; status := status;
          headers := [("Content-Type", "application/json"); ("Cache-Control", "no-store")]
                     ++ CORS_HEADERS ++ [("X-Request-ID", requestId)] |}
  else {| body := Problem error false; status := status;
          headers := CORS_HEADERS ++ [("X-Request-ID", requestId)] |}.

(** The first argument of [buildInvoicePdf] as this route builds it: the
    customer's e-mail may be [null]. *)
Record InvoiceInput := {
  bookingId : string;
  createdAtISO : string;
  customerName : option string;
  customerEmail : option string;
  tourTitle : string;
  tourDate : option string;
  persons : float;
  totalMinor : option Z;
  currency : string;
  siteUrl : string;
}.

Record Services := {
  (** [stripe.checkout.sessions.retrieve(session_id)] *)
  sessions_retrieve : string -> Webhook.Outcome Webhook.Session;
  (** [buildInvoicePdf(input, options)]: the bytes of the document *)
  buildInvoicePdf : InvoiceInput -> Webhook.InvoiceOptions -> Webhook.Outcome string;
  (** [buildInvoiceFileName(tourTitle, new Date(createdISO))] *)
  buildInvoiceFileName : string -> string -> string;
  (** [Math.floor(Date.now() / 1000)], [crypto.randomUUID()] *)
  now_s : Z;
  requestId : string;
}.

(** [GET(req, ctx)]: the response (or the exception no handler catches),
    and the session ids asked of the provider. *)
Definition GET `{Platform} (cfg : Webhook.Config) (svc : Services) (req : Request)
    : Webhook.Outcome Response * list string :=
  let rid := requestId svc in
  let forceDownload :=
    bool_decide (toLowerCase (or_str (download req) "") ∈ ["1"; "true"; "yes"]) in
  match truthy (Webhook.process_env cfg !! "STRIPE_SECRET_KEY") with
  | None => (Webhook.Ok (problem req rid "Stripe not configured" 500), [])
  | Some _ =>
    if isStripePlaceholderSession (Some (session_id req))
    then (Webhook.Ok (problem req rid "Invalid session_id placeholder" 400), [])
    else
      match sessions_retrieve svc (session_id req) with
      | Webhook.Throw _ =>
          (Webhook.Ok (problem req rid "Not found" 404), [session_id req])
      | Webhook.Ok session =>
        let md := default ∅ (Webhook.s_metadata session) in
        match Date_toISOString
                (default (now_s svc) (Webhook.created session) * 1000) with
        | None => (Webhook.Throw "RangeError: Invalid time value", [session_id req])
        | Some createdISO =>
          let tourTitle := or_str (md !! "tour_title") "Tour KCE" in
          let qty :=
            Webhook.number_or
              (match truthy (md !! "quantity") with
               | Some q => Number q
               | None => 1%float
               end) 1%float in
          match buildInvoicePdf svc
                  {| bookingId := Webhook.s_id session;
                     createdAtISO := createdISO;
                     customerName :=
                       truthy (Webhook.customer_details session ≫= Webhook.cd_name);
                     customerEmail :=
                       Webhook.nullish
                         (truthy (Webhook.customer_details session ≫= Webhook.cd_email))
                         (truthy (Webhook.customer_email session));
                     tourTitle := tourTitle;
                     tourDate := truthy (md !! "date");
                     persons := qty;
                     totalMinor := Webhook.amount_total session;
                     currency := toUpperCase (or_str (Webhook.s_currency session) "usd");
                     siteUrl := Webhook.BASE_URL cfg |}
                  {| Webhook.logoUrl := Webhook.LOGO_URL cfg;
                     Webhook.qrUrl :=
                       Webhook.BASE_URL cfg +:+ "/booking/"
                       +:+ encodeURIComponent (Webhook.s_id session);
                     Webhook.qrLabel := "Gestiona tu reserva" |} with
          | Webhook.Throw _ =>
              (Webhook.Ok (problem req rid "Failed to build PDF" 500), [session_id req])
          | Webhook.Ok bytes =>
              let filename :=
                sanitizeFilename (buildInvoiceFileName svc tourTitle createdISO) in
              (Webhook.Ok
                 {| body := Pdf bytes; status := 200;
                    headers :=
                      [("Content-Type", "application/pdf");
                       ("Cache-Control", "no-store");
                       ("Content-Length", pretty (String.length bytes));
                       ("Content-Disposition",
                        (if forceDownload then "attachment" else "inline")
                        +:+ "; filename=" +:+ dquote +:+ filename +:+ dquote);
                       ("X-Invoice-Session", Webhook.s_id session);
                       ("X-Request-ID", rid)]
                      ++ CORS_HEADERS
                      ++ match Webhook.livemode session with
                         | Some b => [("X-Stripe-Livemode",
                                       if b then "true" else "false")]
                         | None => []
                         end |},
               [session_id req])
          end
        end
      end
  end.

End InvoiceRoute.

(* ===================================================================== *)
(** * Sending the confirmation again:
      [src/app/api/email/booking-confirmation/route.ts]                   *)
(* ===================================================================== *)

Module Confirmation.

Definition ZERO_DECIMAL : list string :=
  ["bif"; "clp"; "djf"; "gnf"; "jpy"; "kmf"; "krw"; "mga"; "pyg"; "rwf"; "ugx";
   "vnd"; "vuv"; "xaf"; "xof"; "xpf"].

Definition escape_char (c : ascii) : list ascii :=
  if bool_decide (c = "&"%char) then list_ascii_of_string "&amp;"
  else if bool_decide (c = "<"%char) then list_ascii_of_string "&lt;"
  else if bool_decide (c = ">"%char) then list_ascii_of_string "&gt;"
  else if bool_decide (c = "034"%char) then list_ascii_of_string "&quot;"
  else if bool_decide (c = "'"%char) then list_ascii_of_string "&#39;"
  else [c].

(** [escapeHtml(s)]: the ampersand, the two angle brackets and the two
    quotes are replaced by their entities. *)
Definition escapeHtml (s : string) : string :=
  string_of_list_ascii (list_ascii_of_string s ≫= escape_char).

Definition isStripePlaceholderSession `{Platform} (id : option string) : bool :=
  let v := trim (or_str id "") in
  bool_decide (v = "") || bool_decide (v = "{CHECKOUT_SESSION_ID}")
  || InvoiceRoute.in_braces v.

(** The body after [stripEmptyStrings] and [Input.safeParse]. *)
Record Input := {
  session_id : option string;
  email : option string;
  tour : option string;
  date : option string;
  people : option float;
}.

(** The header [accept], and [readInput(req)]: [None] when the schema
    reports an issue. *)
Record Request := { accept : option string; input : option Input }.

Record Services := {
  (** [stripe.checkout.sessions.retrieve(session_id, { expand })] *)
  sessions_retrieve : string -> Webhook.Outcome Webhook.Session;
  (** [new Intl.NumberFormat('es-CO', { style: 'currency', currency,
      maximumFractionDigits: 0 }).format(value)] *)
  Intl_format : string -> float -> Webhook.Outcome string;
  (** [buildInvoicePdf(input, options)], in base64 *)
  buildInvoicePdf :
    Webhook.InvoiceInput -> Webhook.InvoiceOptions -> Webhook.Outcome string;
  (** [buildInvoiceFileName(tourTitle, createdAt)], for the ISO text of
      [createdAt] *)
  buildInvoiceFileName : string -> string -> string;
  (** [resend.emails.send(message)]: [Ok None] when accepted, [Ok (Some e)]
      when the answer carries [error] with the message [e] *)
  emails_send : Webhook.Email -> Webhook.Outcome (option string);
  (** [Math.floor(Date.now() / 1000)], [new Date()], [crypto.randomUUID()] *)
  now_s : Z;
  now_ms : Z;
  requestId : string;
}.

Definition formatAmount `{Platform} (svc : Services) (amountInMinor : Z)
    (currency : string) : Webhook.Outcome string :=
  let c := toLowerCase currency in
  let value := if bool_decide (c ∈ ZERO_DECIMAL) then of_Z amountInMinor
               else (of_Z amountInMinor / 100)%float in
  Intl_format svc (toUpperCase currency) value.

(** The search parameters of the redirect. *)
Record Redirect := {
  r_session_id : option string;
  r_tour : option string;
  r_date : option string;
  r_q : option float;
}.

Inductive Body :=
| Err (error : string)
| InvalidBody
| NoEmail
| SendFailed (error triedFrom : string)
| Sent (redirect : Redirect)
| SeeOther (redirect : Redirect).

Record Response := { body : Body; status : Z }.

(** [json(data, status, { 'X-Request-ID': requestId })]; every response
    carries the request id. *)
Definition json (data : Body) (status : Z) : Response :=
  {| body := data; status := status |}.

(** What the handler asks of the remote services, in order. *)
Inductive Effect :=
| Retrieved (session_id : string)
| Rendered (input : Webhook.InvoiceInput)
| Offered (message : Webhook.Email).

(** The variables of the handler after its step 2. *)
Record Locals := {
  l_to : string;
  l_session : option Webhook.Session;
  chargedAmount : option string;
  l_currency : option string;
  l_tour : option string;
  l_date : option string;
  l_people : option float;
}.

(** [x || undefined] on a number. *)
Definition js_number (x : float) : option float :=
  if PrimFloat.is_nan x || PrimFloat.eqb x 0 then None else Some x.

(** Step 2: the [try] block that completes the input from the provider's
    session.  An exception leaves the variables as they were when it was
    thrown. *)
Definition lookup_session `{Platform} (cfg : Webhook.Config) (svc : Services)
    (input : Input) (session_id : option string) : Locals * list Effect :=
  let start :=
    {| l_to := trim (or_str (email input) ""); l_session := None;
       chargedAmount := None; l_currency := None; l_tour := tour input;
       l_date := date input; l_people := people input |} in
  match truthy (Webhook.process_env cfg !! "STRIPE_SECRET_KEY"), truthy session_id with
  | Some _, Some sid =>
      match sessions_retrieve svc sid with
      | Webhook.Throw _ => (start, [Retrieved sid])
      | Webhook.Ok session =>
          let to :=
            match truthy (Some (l_to start)),
                  truthy (Webhook.customer_details session ≫= Webhook.cd_email) with
            | Some t, _ | None, Some t => t
            | None, None => or_str (Webhook.customer_email session) ""
            end in
          let md := default ∅ (Webhook.s_metadata session) in
          let filled (charged cur : option string) :=
            {| l_to := to; l_session := Some session;
               chargedAmount := charged; l_currency := cur;
               l_tour := Webhook.nullish (truthy (tour input)) (truthy (md !! "tour_title"));
               l_date := Webhook.nullish (truthy (date input)) (truthy (md !! "date"));
               l_people :=
                 Webhook.nullish (people input ≫= js_number)
                   (truthy (md !! "quantity") ≫= λ q, js_number (Number q)) |} in
          match Webhook.amount_total session, truthy (Webhook.s_currency session) with
          | Some amt, Some cur =>
              match formatAmount svc amt cur with
              | Webhook.Ok charged =>
                  (filled (Some charged) (Some (toUpperCase cur)), [Retrieved sid])
              | Webhook.Throw _ =>
                  ({| l_to := to; l_session := Some session;
                      chargedAmount := None; l_currency := None;
                      l_tour := tour input; l_date := date input;
                      l_people := people input |}, [Retrieved sid])
              end
          | _, _ => (filled None None, [Retrieved sid])
          end
      end
  | _, _ => (start, [])
  end.

Definition fallbackFrom : string := "KCE <onboarding@resend.dev>".

(** Step 4: the PDF and its file name, [null] and ['Factura.pdf'] when
    anything in the [try] block throws. *)
Definition build_pdf `{Platform} (cfg : Webhook.Config) (svc : Services) (loc : Locals)
    (session_id : option string) (to : string) (qty : option float)
    (manageUrl : string) : (option string * string) * list Effect :=
  let createdAt :=
    match l_session loc with
    | Some s => Some (default (now_s svc) (Webhook.created s) * 1000)
    | None =>
        match truthy (l_date loc) with
        | Some d => Date_getTime (d +:+ "T00:00:00")
        | None => Some (now_ms svc)
        end
    end in
  match createdAt ≫= Date_toISOString with
  | None => ((None, "Factura.pdf"), [])
  | Some createdISO =>
      let inv :=
        {| Webhook.bookingId := or_str session_id "manual";
           Webhook.createdAtISO := createdISO;
           Webhook.customerName :=
             truthy ((l_session loc ≫= Webhook.customer_details) ≫= Webhook.cd_name);
           Webhook.customerEmail := to;
           Webhook.tourTitle := or_str (l_tour loc) "Tour KCE";
           Webhook.tourDate := truthy (l_date loc);
           Webhook.inv_persons := default 1%float qty;
           Webhook.totalMinor := l_session loc ≫= Webhook.amount_total;
           Webhook.inv_currency :=
             match truthy (l_currency loc),
                   truthy (toUpperCase <$> (l_session loc ≫= Webhook.s_currency)) with
             | Some c, _ | None, Some c => c
             | None, None => "USD"
             end;
           Webhook.siteUrl := Webhook.BASE_URL cfg |} in
      match buildInvoicePdf svc inv
              {| Webhook.logoUrl := Webhook.LOGO_URL cfg;
                 Webhook.qrUrl := manageUrl;
                 Webhook.qrLabel := "Gestiona tu reserva" |} with
      | Webhook.Ok pdfBuffer =>
          ((Some pdfBuffer,
            buildInvoiceFileName svc (or_str (l_tour loc) "Tour KCE") createdISO),
           [Rendered inv])
      | Webhook.Throw _ => ((None, "Factura.pdf"), [Rendered inv])
      end
  end.

(** Step 5: [sendWith(initialFrom)] and, when the provider refuses it and
    the sender was not the fallback, [sendWith(fallbackFrom)]: the sender
    last tried and the provider's answer to it. *)
Definition send_with_fallback (svc : Services) (initialFrom : string)
    (sendWith : string -> Webhook.Email)
    : Webhook.Outcome (string * option string) * list Effect :=
  match emails_send svc (sendWith initialFrom) with
  | Webhook.Throw e => (Webhook.Throw e, [Offered (sendWith initialFrom)])
  | Webhook.Ok res =>
      if bool_decide (is_Some res) && negb (bool_decide (initialFrom = fallbackFrom))
      then
        match emails_send svc (sendWith fallbackFrom) with
        | Webhook.Throw e =>
            (Webhook.Throw e,
             [Offered (sendWith initialFrom); Offered (sendWith fallbackFrom)])
        | Webhook.Ok res =>
            (Webhook.Ok (fallbackFrom, res),
             [Offered (sendWith initialFrom); Offered (sendWith fallbackFrom)])
        end
      else (Webhook.Ok (initialFrom, res), [Offered (sendWith initialFrom)])
  end.

(** [POST(req)]: the response (or the exception no handler catches), and
    what was asked of the remote services.  The two bodies of the message
    ([text] and [html]) are presentation and are left out, as in
    [Webhook.Email]. *)
Definition POST `{Platform} (cfg : Webhook.Config) (svc : Services) (req : Request)
    : Webhook.Outcome Response * list Effect :=
  let env := Webhook.process_env cfg in
  match truthy (Some (trim (or_str (env !! "RESEND_API_KEY") ""))) with
  | None => (Webhook.Ok (json (Err "RESEND_API_KEY not set") 500), [])
  | Some _ =>
    match input req with
    | None => (Webhook.Ok (json InvalidBody 400), [])
    | Some input =>
      let session_id :=
        if isStripePlaceholderSession (session_id input) then None
        else session_id input in
      let looked := lookup_session cfg svc input session_id in
      let loc := looked.1 in
      match truthy (Some (l_to loc)) with
      | None => (Webhook.Ok (json NoEmail 400), looked.2)
      | Some to =>
        let safeTour := match truthy (l_tour loc) with
                        | Some t => escapeHtml t
                        | None => ""
                        end in
        let safeDate := match truthy (l_date loc) with
                        | Some d => escapeHtml d
                        | None => ""
                        end in
        let qty := match l_people loc with
                   | Some p => if PrimFloat.ltb 0 p then Some p else None
                   | None => None
                   end in
        let subject :=
          "KCE — Confirmación de reserva"
          +:+ match truthy (Some safeTour) with
              | Some t => ": " +:+ t
              | None => ""
              end
          +:+ match truthy (Some safeDate) with
              | Some d => " (" +:+ d +:+ ")"
              | None => ""
              end in
        let manageUrl :=
          Webhook.BASE_URL cfg +:+ "/booking/"
          +:+ encodeURIComponent (or_str session_id "manual") in
        let built := build_pdf cfg svc loc session_id to qty manageUrl in
        let pdfBuffer := built.1.1 in
        let filename := built.1.2 in
        let fromEnv := trim (or_str (env !! "EMAIL_FROM") "") in
        let initialFrom := or_str (Some fromEnv) fallbackFrom in
        let replyTo := truthy (env !! "EMAIL_REPLY_TO") in
        let sendWith (fromAddr : string) : Webhook.Email :=
          {| Webhook.from := fromAddr; Webhook.to := to;
             Webhook.subject := subject; Webhook.reply_to := replyTo;
             Webhook.attachments :=
               match pdfBuffer with
               | Some b => [{| Webhook.filename := filename; Webhook.content := b;
                               Webhook.contentType := "application/pdf" |}]
               | None => []
               end |} in
        let sent := send_with_fallback svc initialFrom sendWith in
        let fx := looked.2 ++ built.2 ++ sent.2 in
        match sent.1 with
        | Webhook.Throw e => (Webhook.Throw e, fx)
        | Webhook.Ok (firstFrom, Some e) =>
            (Webhook.Ok (json (SendFailed e firstFrom) 500), fx)
        | Webhook.Ok (_, None) =>
            let redirect :=
              {| r_session_id := truthy session_id; r_tour := truthy (l_tour loc);
                 r_date := truthy (l_date loc); r_q := qty |} in
            let accept := toLowerCase (or_str (accept req) "") in
            if InvoiceRoute.includes "application/json" accept
               || InvoiceRoute.includes "text/json" accept
            then (Webhook.Ok (json (Sent redirect) 200), fx)
            else (Webhook.Ok (json (SeeOther redirect) 303), fx)
        end
      end
    end
  end.

(** The messages handed to the mail provider. *)
Definition offered (fx : list Effect) : list Webhook.Email :=
  omap (λ e, match e with Offered m => Some m | _ => None end) fx.

(** The session ids asked of the payment provider. *)
Definition retrieved (fx : list Effect) : list string :=
  omap (λ e, match e with Retrieved sid => Some sid | _ => None end) fx.

(** The message [m] from another sender. *)
Definition with_from (fromAddr : string) (m : Webhook.Email) : Webhook.Email :=
  {| Webhook.from := fromAddr; Webhook.to := Webhook.to m;
     Webhook.subject := Webhook.subject m; Webhook.reply_to := Webhook.reply_to m;
     Webhook.attachments := Webhook.attachments m |}.

End Confirmation.

(* ===================================================================== *)
(** * A small platform, to run the handlers on examples                   *)
(* ===================================================================== *)

Module Sample.

Definition lower_ascii (c : ascii) : ascii :=
  let n := nat_of_ascii c in
  if (65 <=? n)%nat && (n <=? 90)%nat then ascii_of_nat (n + 32) else c.

Definition upper_ascii (c : ascii) : ascii :=
  let n := nat_of_ascii c in
  if (97 <=? n)%nat && (n <=? 122)%nat then ascii_of_nat (n - 32) else c.

Definition map_string (f : ascii -> ascii) (s : string) : string :=
  string_of_list_ascii (f <$> list_ascii_of_string s).

Definition is_space (c : ascii) : bool :=
  let n := nat_of_ascii c in
  bool_decide (n = 32%nat) || ((9 <=? n)%nat && (n <=? 13)%nat).

Fixpoint drop_spaces (l : list ascii) : list ascii :=
  match l with
  | c :: r => if is_space c then drop_spaces r else l
  | [] => []
  end.

Definition trim_ascii (s : string) : string :=
  string_of_list_ascii
    (reverse (drop_spaces (reverse (drop_spaces (list_ascii_of_string s))))).

Fixpoint digits_value (acc : Z) (l : list ascii) : option Z :=
  match l with
  | [] => Some acc
  | c :: r =>
      if Checkout.is_digit c
      then digits_value (10 * acc + (Z.of_nat (nat_of_ascii c) - 48)) r
      else None
  end.

(** [Number] on a string of decimal digits; anything else is [NaN] here. *)
Definition number_of_digits (s : string) : float :=
  match list_ascii_of_string s with
  | [] => 0%float
  | l => match digits_value 0 l with
         | Some n => of_Z n
         | None => PrimFloat.nan
         end
  end.

Definition query_string (q : list (string * string)) : string :=
  String.concat "&" ((λ kv, kv.1 +:+ "=" +:+ kv.2) <$> q).

Definition show_intnum (n : intnum) : string :=
  match n with Int z => pretty z | _ => "null" end.

Definition show_field (kv : string * JS.json) : string :=
  kv.1 +:+ ":" +:+
  match kv.2 with
  | JNull => "null"
  | JBool b => if b then "true" else "false"
  | JNum n => show_intnum n
  | JStr s => s
  | JObj _ => "{}"
  end.

Definition show_json (j : JS.json) : string :=
  match j with
  | JObj fs => "{" +:+ String.concat "," (show_field <$> fs) +:+ "}"
  | _ => show_field ("", j)
  end.

(** Days from 1970-01-01 to the civil date y-m-d. *)
Definition days_from_civil (y m d : Z) : Z :=
  let y' := if m <=? 2 then y - 1 else y in
  let era := y' / 400 in
  let yoe := y' - era * 400 in
  let mp := (m + 9) mod 12 in
  let doy := (153 * mp + 2) / 5 + d - 1 in
  let doe := yoe * 365 + yoe / 4 - yoe / 100 + doy in
  era * 146097 + doe - 719468.

Definition date_ms (s : string) : option Z :=
  let l := list_ascii_of_string s in
  y ← digits_value 0 (take 4 l);
  m ← digits_value 0 (take 2 (drop 5 l));
  d ← digits_value 0 (take 2 (drop 8 l));
  if (1 <=? m) && (m <=? 12) && (1 <=? d) && (d <=? 31)
  then Some (days_from_civil y m d * Checkout.day_ms) else None.

#[export] Instance platform : Platform := {|
  toLowerCase := map_string lower_ascii;
  toUpperCase := map_string upper_ascii;
  trim := trim_ascii;
  Number := number_of_digits;
  JSON_stringify := show_json;
  sha256_hex := λ s, "sha256(" +:+ s +:+ ")";
  URL_toString := λ path base q, base +:+ path +:+ "?" +:+ query_string q;
  str_length := String.length;
  str_slice := λ n s, String.substring 0 n s;
  without_diacritics := λ s, s;
  encodeURIComponent := λ s, s;
  Date_getTime := date_ms;
  Date_toISOString := λ ms, Some ("ms:" +:+ pretty ms);
  ilike := λ pattern value, bool_decide (map_string lower_ascii pattern = map_string lower_ascii value);
  is_email := λ s, bool_decide ("@"%char ∈ list_ascii_of_string s);
  URL_canParse := λ path base, Env.has_protocol base;
  is_url := Env.has_protocol;
|}.

(** ** Sample requests for booking creation *)

Definition cfg_live : Checkout.Config :=
  {| Checkout.process_env := <["STRIPE_SECRET_KEY" := "sk_test_1"]> ∅;
     Checkout.SITE_URL := "https://kce.travel";
     Checkout.isStripeMock := false |}.

Definition body_coffee (p : option Z) (mail : string) : Checkout.RawPayload :=
  {| Checkout.r_tour := Some {| Checkout.t_slug := Some "Bogota-Coffee-Culture";
                                Checkout.t_title := None;
                                Checkout.t_short := None;
                                Checkout.t_price := p |};
     Checkout.r_quantity := Some 3;
     Checkout.r_customer := Some {| Checkout.email := mail; Checkout.name := "Ana" |};
     Checkout.r_date := Some "2030-01-15";
     Checkout.r_phone := None;
     Checkout.r_currency := None;
     Checkout.r_locale := None |}.

Definition req_coffee (p : option Z) (mail : string) : Checkout.Request :=
  {| Checkout.accept_language := Some "es-CO,es;q=0.9";
     Checkout.json_body := Some (body_coffee p mail) |}.

Definition amb (rid : string) (now : Z) : Checkout.Ambient :=
  {| Checkout.reqId := rid; Checkout.today_clock := now; Checkout.expiry_clock := now |}.

(** 2026-11-02T00:00:00Z and a little later *)
Definition t0 : Z := 1793577600000.
Definition t1 : Z := 1793577605000.

Definition always_created (p : Checkout.SessionCreateParams) (key : string)
    : Checkout.CreateResult :=
  Checkout.Created "cs_test_1" (Some "https://checkout.stripe.com/c/pay/cs_test_1").

(** The tour of the specification's scenario: 100,000 COP. *)
Definition scenario_tour : Catalog.Tour :=
  {| Catalog.id := "t_x"; Catalog.slug := "scenario"; Catalog.title := "Scenario";
     Catalog.city := "Bogota"; Catalog.durationHours := 1; Catalog.price := 100000;
     Catalog.short := None |}.

Definition scenario_data : Checkout.Payload :=
  {| Checkout.tour := {| Checkout.t_slug := Some "scenario"; Checkout.t_title := None;
                         Checkout.t_short := None; Checkout.t_price := None |};
     Checkout.quantity := 3;
     Checkout.customer := {| Checkout.email := "ana@example.com"; Checkout.name := "Ana" |};
     Checkout.date := "2030-01-15"; Checkout.phone := None;
     Checkout.currency := "COP"; Checkout.locale := None |}.

(** ** Sample deliveries for the webhook *)

Definition cfg_hook : Webhook.Config :=
  {| Webhook.process_env :=
       <["RESEND_API_KEY" := "re_test_1"]>
         (<["STRIPE_WEBHOOK_SECRET" := "whsec_1"]>
            (<["STRIPE_SECRET_KEY" := "sk_test_1"]>
               (<["SUPABASE_URL" := "https://kce.supabase.co"]>
                  (<["SUPABASE_SERVICE_ROLE" := "service_role_1"]> ∅))));
     Webhook.SITE_URL := "https://kce.travel/" |}.

(** The same deployment without the webhook secret. *)
Definition cfg_no_secret (node_env : string) : Webhook.Config :=
  {| Webhook.process_env :=
       <["NODE_ENV" := node_env]>
         (delete "STRIPE_WEBHOOK_SECRET" (Webhook.process_env cfg_hook));
     Webhook.SITE_URL := "https://kce.travel/" |}.

Definition session_of (sid status : string) : Webhook.Session :=
  {| Webhook.s_id := sid;
     Webhook.s_metadata :=
       Some (<["tour_title" := "Bogota Coffee Culture"]>
               (<["quantity" := "3"]> (<["date" := "2030-01-15"]> ∅)));
     Webhook.customer_details :=
       Some {| Webhook.cd_email := Some "ana@example.com";
               Webhook.cd_name := Some "Ana"; Webhook.cd_phone := None |};
     Webhook.customer_email := None;
     Webhook.amount_total := Some 9000;
     Webhook.s_currency := Some "usd";
     Webhook.payment_status := status;
     Webhook.created := Some 1793577600;
     Webhook.livemode := Some false;
     Webhook.last_payment_error := None |}.

(** A stand-in for the signature check: the header must be the secret; the
    body is then the id of the event, which carries [data]. *)
Definition sample_construct (data : Webhook.EventData) (body sig secret : string)
    : string + Webhook.Event :=
  if bool_decide (sig = secret)
  then inr {| Webhook.e_id := body; Webhook.e_data := data |}
  else inl "No signatures found matching the expected signature for payload".

(** A database that takes every query. *)
Definition healthy : Webhook.Admin := λ _, None.

(** Services that work, and the same with a PDF renderer that throws. *)
Definition services (data : Webhook.EventData) (pdf_ok : bool) : Webhook.Services :=
  {| Webhook.constructEvent := sample_construct data;
     Webhook.sessions_list := λ pi, Webhook.Ok (Some (session_of "cs_test_1" "paid"));
     Webhook.buildInvoicePdf := λ _ _,
       if pdf_ok then Webhook.Ok "JVBERi0xLjcK"
       else Webhook.Throw "Error: Failed to embed font";
     Webhook.buildInvoiceFileName := λ t d, "Factura-KCE_" +:+ t +:+ ".pdf";
     Webhook.emails_send := λ _, Webhook.Ok None;
     Webhook.today := "2026-11-02";
     Webhook.now_s := 1793577600;
     Webhook.createClient := λ _ _, Webhook.Ok healthy |}.

Definition completed (status : string) : Webhook.EventData :=
  Webhook.checkout_session_completed (session_of "cs_test_1" status).

Definition intent_succeeded : Webhook.EventData :=
  Webhook.payment_intent_succeeded
    {| Webhook.pi_id := "pi_1"; Webhook.pi_last_payment_error := None |}.

Definition signed (body : string) : Webhook.Request :=
  {| Webhook.stripe_signature := Some "whsec_1"; Webhook.rawBody := body |}.

Definition unsigned (body : string) : Webhook.Request :=
  {| Webhook.stripe_signature := None; Webhook.rawBody := body |}.

(** A deployment with the mock switch on. *)
Definition cfg_mock : Checkout.Config :=
  {| Checkout.process_env := <["STRIPE_SECRET_KEY" := "sk_test_1"]> ∅;
     Checkout.SITE_URL := "https://kce.travel";
     Checkout.isStripeMock := true |}.

(** ** Further deliveries *)

(** The deployment of [cfg_hook] in production. *)
Definition cfg_hook_prod : Webhook.Config :=
  {| Webhook.process_env := <["NODE_ENV" := "production"]> (Webhook.process_env cfg_hook);
     Webhook.SITE_URL := "https://kce.travel/" |}.

(** The services [svc] when the provider's session list cannot be reached. *)
Definition lookup_fails (svc : Webhook.Services) : Webhook.Services :=
  {| Webhook.constructEvent := Webhook.constructEvent svc;
     Webhook.sessions_list := λ _, Webhook.Throw "StripeConnectionError";
     Webhook.buildInvoicePdf := Webhook.buildInvoicePdf svc;
     Webhook.buildInvoiceFileName := Webhook.buildInvoiceFileName svc;
     Webhook.emails_send := Webhook.emails_send svc;
     Webhook.today := Webhook.today svc;
     Webhook.now_s := Webhook.now_s svc;
     Webhook.createClient := Webhook.createClient svc |}.

Definition refund : Webhook.EventData :=
  Webhook.charge_refunded
    {| Webhook.ch_id := "ch_1"; Webhook.ch_payment_intent := Some "pi_1";
       Webhook.amount_refunded := 9000; Webhook.ch_currency := "usd" |}.

Definition expired (sid : string) : Webhook.EventData :=
  Webhook.checkout_session_expired (session_of sid "unpaid").

(** The session the provider holds for [scenario_data]: it carries the
    metadata the checkout handler sent. *)
Definition scenario_session (sid status : string) : Webhook.Session :=
  {| Webhook.s_id := sid;
     Webhook.s_metadata :=
       Some (list_to_map (Checkout.metadata_of ∅ scenario_data scenario_tour));
     Webhook.customer_details := None;
     Webhook.customer_email := Some "ana@example.com";
     Webhook.amount_total := Some 7500;
     Webhook.s_currency := Some "usd";
     Webhook.payment_status := status;
     Webhook.created := Some 1793577600;
     Webhook.livemode := Some false;
     Webhook.last_payment_error := None |}.

(** ** Requests to send the confirmation again *)

(** Services for the confirmation route: whether the provider knows the
    session, whether the PDF can be built, and whether the mail provider
    refuses every sender but the fallback. *)
Definition mail_services (session_known pdf_ok refuse_own : bool) : Confirmation.Services :=
  {| Confirmation.sessions_retrieve := λ sid,
       if session_known then Webhook.Ok (session_of sid "paid")
       else Webhook.Throw "No such checkout.session";
     Confirmation.Intl_format := λ cur v, Webhook.Ok ("$ 90 " +:+ cur);
     Confirmation.buildInvoicePdf := λ _ _,
       if pdf_ok then Webhook.Ok "JVBERi0xLjcK"
       else Webhook.Throw "Error: Failed to embed font";
     Confirmation.buildInvoiceFileName := λ t d, "Factura-KCE_" +:+ t +:+ ".pdf";
     Confirmation.emails_send := λ m,
       if refuse_own
          && negb (bool_decide (Webhook.from m = Confirmation.fallbackFrom))
       then Webhook.Ok (Some "The domain is not verified")
       else Webhook.Ok None;
     Confirmation.now_s := 1793577600;
     Confirmation.now_ms := 1793577600000;
     Confirmation.requestId := "r1" |}.

Definition resend_request (sid mail : option string) : Confirmation.Request :=
  {| Confirmation.accept := Some "application/json";
     Confirmation.input :=
       Some {| Confirmation.session_id := sid; Confirmation.email := mail;
               Confirmation.tour := Some "Bogota <Coffee>";
               Confirmation.date := Some "2030-01-15";
               Confirmation.people := Some 2%float |} |}.

(** The deployment of [cfg_hook] with a sender of its own. *)
Definition cfg_mail : Webhook.Config :=
  {| Webhook.process_env :=
       <["EMAIL_FROM" := "KCE <reservas@kce.travel>"]> (Webhook.process_env cfg_hook);
     Webhook.SITE_URL := "https://kce.travel/" |}.

(** ** Requests for the invoice *)

Definition invoice_services : InvoiceRoute.Services :=
  {| InvoiceRoute.sessions_retrieve := λ sid, Webhook.Ok (session_of sid "paid");
     InvoiceRoute.buildInvoicePdf := λ _ _, Webhook.Ok "%PDF-1.7";
     InvoiceRoute.buildInvoiceFileName := λ t d, "Factura: " +:+ t +:+ "/2030.pdf";
     InvoiceRoute.now_s := 1793577600;
     InvoiceRoute.requestId := "r1" |}.

Definition invoice_request (sid : string) : InvoiceRoute.Request :=
  {| InvoiceRoute.accept := Some "text/html"; InvoiceRoute.download := Some "1";
     InvoiceRoute.session_id := sid |}.

(** ** Deliveries that find the database at fault *)


(** A database whose table of bookings cannot be read. *)
Definition bookings_unreadable : Webhook.Admin := λ q,
  match q with
  | Webhook.select_bookings _ => Some (Webhook.Refused "canceling statement due to timeout")
  | _ => None
  end.

(** The services [svc] with the client [admin]. *)
Definition with_client (admin : Webhook.Admin) (svc : Webhook.Services)
    : Webhook.Services :=
  {| Webhook.constructEvent := Webhook.constructEvent svc;
     Webhook.sessions_list := Webhook.sessions_list svc;
     Webhook.buildInvoicePdf := Webhook.buildInvoicePdf svc;
     Webhook.buildInvoiceFileName := Webhook.buildInvoiceFileName svc;
     Webhook.emails_send := Webhook.emails_send svc;
     Webhook.today := Webhook.today svc;
     Webhook.now_s := Webhook.now_s svc;
     Webhook.createClient := λ _ _, Webhook.Ok admin |}.

(** The deployment of [cfg_hook] without the service-role key. *)
Definition cfg_no_database : Webhook.Config :=
  {| Webhook.process_env := delete "SUPABASE_SERVICE_ROLE" (Webhook.process_env cfg_hook);
     Webhook.SITE_URL := "https://kce.travel/" |}.

End Sample.

(* ===================================================================== *)
(** * Properties of booking creation                                      *)
(* ===================================================================== *)

Module CheckoutFacts.
Import Catalog Checkout.

Lemma pow2_pos (k : Z) : 0 <= k -> 0 < 2 ^ k.
Proof. intros Hk. apply Z.pow_pos_nonneg; lia. Qed.

(** [Math.round] returns the nearest integer, the upper one on a tie. *)
Lemma SF_round_nearest (f : spec_float) (num den : Z) :
  SF_ratio f = Some (num, den) ->
  0 < den /\ exists r, SF_round f = Int r /\ nearest_half_up r num den.
Proof.
  unfold nearest_half_up.
  destruct f as [s | s | | s m e]; cbn; try discriminate.
  - intros [= <- <-]. split; [lia | exists 0; split; [reflexivity | lia]].
  - destruct (0 <=? e) eqn:He; intros [= <- <-].
    + split; [lia | eexists; split; [reflexivity | lia]].
    + apply Z.leb_gt in He.
      set (n := if s then Z.neg m else Z.pos m).
      assert (HD : 0 < 2 ^ (- e)) by (apply pow2_pos; lia).
      replace (- e + 1) with (Z.succ (- e)) by lia.
      rewrite Z.pow_succ_r by lia.
      set (D := 2 ^ (- e)) in *.
      split; [exact HD | eexists; split; [reflexivity |]].
      pose proof (Z.div_mod (2 * n + D) (2 * D) ltac:(lia)) as Hdm.
      pose proof (Z.mod_pos_bound (2 * n + D) (2 * D) ltac:(lia)) as Hb.
      set (q := (2 * n + D) / (2 * D)) in *.
      nia.
Qed.

Lemma Math_max_1_floor (x : intnum) :
  Math_max (Int 1) x <> Int 0 /\ (forall n, Math_max (Int 1) x = Int n -> 1 <= n).
Proof.
  destruct x as [n | | []]; cbn; split; try discriminate; try congruence.
  - intros [=]; lia.
  - intros m [= <-]; lia.
  - intros m [= <-]; lia.
Qed.


Lemma copToUsdCents_default_rate `{Platform} (env : gmap string string) :
  Number "4000" = 4000%float -> env !! "STRIPE_COP_USD_RATE" = None ->
  copToUsdCents env (of_Z 100000) = Int 2500.
Proof.
  intros HN Henv. unfold copToUsdCents. rewrite Henv. cbn [or_str truthy default].
  rewrite HN. reflexivity.
Qed.

(** C7, as amended.  When the catalog is not already in USD, the unit
    amount is [Math.max(1, Math.round(cop / rate * 100))]: whenever the
    binary64 product [cop / rate * 100] is finite, the amount is the integer
    nearest to it (the upper one on a tie), raised to 1 if it is smaller;
    it is never 0 and, when it is an integer, it is at least 1.  In the
    scenario of the specification (price 100,000, the default rate 4000,
    quantity 3) the session carries one line of 3 units at 2,500 minor
    units each, 7,500 in all. *)
Theorem copToUsdCents_nearest_with_floor `{Platform} (env : gmap string string)
    (cop : float) :
  let rate := Number (or_str (env !! "STRIPE_COP_USD_RATE") "4000") in
  (forall num den,
      SF_ratio (Prim2SF (cop / rate * 100)%float) = Some (num, den) ->
      exists r, nearest_half_up r num den /\ copToUsdCents env cop = Int (Z.max 1 r))
  /\ copToUsdCents env cop <> Int 0
  /\ (forall n, copToUsdCents env cop = Int n -> 1 <= n)
  /\ (forall (cfg : Config) (amb : Ambient) (req : Request) (data : Payload) (t : Tour),
        process_env cfg = env ->
        Number "4000" = 4000%float ->
        env !! "STRIPE_COP_USD_RATE" = None ->
        catalogCurrency env <> "USD" ->
        price t = 100000 -> quantity data = 3 ->
        exists li,
          line_items (session_params cfg amb req data t) = [li]
          /\ li_quantity li = 3 /\ li_unit_amount li = Int 2500
          /\ li_quantity li * 2500 = 7500).
Proof.
  intros rate. repeat split.
  - intros num den Hr. unfold copToUsdCents, Math_round. fold rate.
    destruct (SF_round_nearest _ _ _ Hr) as [_ (r & Hround & Hnear)].
    exists r. split; [exact Hnear |]. rewrite Hround. reflexivity.
  - apply Math_max_1_floor.
  - apply Math_max_1_floor.
  - intros cfg amb req data t Hcfg HN Henv Hcur Hprice Hq.
    eexists. split; [reflexivity |]. cbn. rewrite Hq, Hcfg.
    repeat split; try lia.
    unfold unitAmountCents. rewrite bool_decide_eq_false_2 by exact Hcur.
    rewrite Hprice. apply copToUsdCents_default_rate; assumption.
Qed.


Lemma copToUsdCents_nearest_with_floor_witness :
  (exists r, nearest_half_up r 5497558138880000 2199023255552
             /\ copToUsdCents (H := Sample.platform) ∅ (of_Z 100000) = Int (Z.max 1 r))
  /\ (exists li,
        line_items (session_params (H := Sample.platform) Sample.cfg_live
                      (Sample.amb "r1" Sample.t0) (Sample.req_coffee None "ana@example.com")
                      Sample.scenario_data Sample.scenario_tour) = [li]
        /\ li_quantity li = 3 /\ li_unit_amount li = Int 2500
        /\ li_quantity li * 2500 = 7500).
Proof.
  pose proof (copToUsdCents_nearest_with_floor (H := Sample.platform)
                (process_env Sample.cfg_live) (of_Z 100000)) as (Hnear & _ & _ & Hscen).
  split.
  - apply Hnear. reflexivity.
  - apply Hscen; try reflexivity. vm_compute. discriminate.
Defined.

(** C7, the scenario as the specification states it: the amount computed for
    price 100,000 at rate 4000 is 2,500 per unit, so neither it nor three
    times it is 750,000. *)
Lemma scenario_amount_is_not_750000 :
  copToUsdCents (H := Sample.platform) ∅ (of_Z 100000) = Int 2500
  /\ Int 2500 <> Int 750000
  /\ 3 * 2500 <> 750000.
Proof.
  split; [| split].
  - apply (copToUsdCents_default_rate (H := Sample.platform) ∅ eq_refl (lookup_empty _)).
  - intros [=].
  - lia.
Qed.

(** The catalog at the default rate: every price divides evenly. *)
Example catalog_unit_amounts :
  (λ t, unitAmountCents (H := Sample.platform) ∅ t) <$> TOURS
  = [Int 3000; Int 2750; Int 7000; Int 6000; Int 6500; Int 8000].
Proof. reflexivity. Qed.

(** The floor: a price that rounds to 0 is charged 1 minor unit. *)
Example price_rounding_to_zero :
  copToUsdCents (H := Sample.platform) ∅ (of_Z 0) = Int 1
  /\ copToUsdCents (H := Sample.platform) ∅ (of_Z 19) = Int 1.
Proof. split; reflexivity. Qed.

(** A tie that the binary64 product misses: 201 / 200 * 100 is
    100.49999999999999 and rounds down. *)
Example tie_rounds_on_the_double :
  copToUsdCents (H := Sample.platform) (<["STRIPE_COP_USD_RATE" := "200"]> ∅) (of_Z 201)
  = Int 100.
Proof. reflexivity. Qed.


Lemma resolve_set_price `{Platform} (p : option Z) (t : TourRef) :
  resolve (set_price p t) = resolve t.
Proof. reflexivity. Qed.

Lemma tour_ok_set_price `{Platform} (p : option Z) (t : TourRef) :
  tour_ok (set_price p t) = true -> tour_ok (set_price None t) = true.
Proof.
  unfold tour_ok. cbn. rewrite !andb_true_iff. tauto.
Qed.

(** What the schema keeps of a body whose [tour.price] was set to [p]. *)
Lemma Schema_safeParse_with_price `{Platform} (p : option Z) (req : Request) (d : Payload) :
  Schema_safeParse (default empty_body (json_body (with_price p req))) = Some d ->
  exists t d0,
    Schema_safeParse (default empty_body (json_body (with_price None req))) = Some d0
    /\ tour d0 = set_price None t
    /\ d = {| tour := set_price p t; quantity := quantity d0; customer := customer d0;
              date := date d0; phone := phone d0; currency := currency d0;
              locale := locale d0 |}.
Proof.
  destruct req as [al [raw |]]; cbn; [| discriminate].
  destruct raw as [[t |] q c dt ph cur loc]; cbn; [| discriminate].
  unfold Schema_safeParse; cbn.
  destruct q as [q |]; cbn; [| discriminate].
  destruct c as [c |]; cbn; [| discriminate].
  destruct dt as [dt |]; cbn; [| discriminate].
  destruct (match cur with
            | Some x => if bool_decide (x = "COP") || bool_decide (x = "USD")
                        then Some x else None
            | None => Some "COP"
            end) as [cur' |]; cbn; [| discriminate].
  destruct (tour_ok (set_price p t)) eqn:Hok; cbn; [| discriminate].
  rewrite (tour_ok_set_price _ _ Hok). cbn.
  match goal with |- (if ?b then _ else _) = _ -> _ => destruct b end; [| discriminate].
  intros [= <-]. exists t. eexists. split; [reflexivity |]. split; reflexivity.
Qed.

Lemma set_price_irrelevant (p : option Z) (t t' : TourRef) :
  set_price None t = set_price None t' -> set_price p t = set_price p t'.
Proof. unfold set_price. intros [= -> -> ->]. reflexivity. Qed.

Lemma TOURS_BY_SLUG_in `{Platform} (k : string) (t : Tour) :
  TOURS_BY_SLUG !! k = Some t -> t ∈ TOURS.
Proof.
  unfold TOURS_BY_SLUG. intros Hl.
  apply elem_of_list_to_map_2 in Hl.
  rewrite elem_of_reverse in Hl.
  apply list_elem_of_fmap in Hl as (x & [= -> ->] & Hx). exact Hx.
Qed.

Lemma resolve_in_catalog `{Platform} (t : TourRef) (r : Tour) :
  resolve t = Some r -> r ∈ TOURS.
Proof.
  unfold resolve, getTourBySlug.
  destruct (truthy (t_slug t)) as [s |].
  - destruct (TOURS_BY_SLUG !! toLowerCase s) as [r' |] eqn:Hs.
    + intros [= <-]. eapply TOURS_BY_SLUG_in, Hs.
    + destruct (truthy (t_title t)); [| discriminate].
      intros Hf. apply List.find_some in Hf as [Hin _]. by apply list_elem_of_In.
  - destruct (truthy (t_title t)); [| discriminate].
    intros Hf. apply List.find_some in Hf as [Hin _]. by apply list_elem_of_In.
Qed.

(** Every call to the provider carries one line, priced from the catalog
    entry the request resolves to. *)
Lemma POST_unit_amount `{Platform} (cfg : Config)
    (create : SessionCreateParams -> string -> CreateResult) (amb : Ambient)
    (req : Request) (c : CreateCall) :
  c ∈ (POST cfg create amb req).2 ->
  exists data resolved,
    Schema_safeParse (default empty_body (json_body req)) = Some data
    /\ resolve (tour data) = Some resolved
    /\ c = {| params := session_params cfg amb req data resolved;
              idempotencyKey := "kce_checkout_" +:+ idemKey cfg data resolved |}.
Proof.
  unfold POST.
  destruct (Schema_safeParse _) as [data |] eqn:Hd; [| by intros ?%elem_of_nil].
  destruct (resolve (tour data)) as [resolved |] eqn:Hr; [| by intros ?%elem_of_nil].
  repeat (match goal with |- context [if ?b then _ else _] => destruct b end;
          [by intros ?%elem_of_nil |]).
  cbn zeta.
  destruct (create _ _) as [sid url | e]; [destruct (truthy url) |]; cbn;
    intros Hc%list_elem_of_singleton; exists data, resolved; done.
Qed.

(** C1.  Two valid requests that differ in the client's [tour.price] only
    get the same response and make the same call to the provider; and the
    unit amount of every call is [unitAmountCents] of the catalog entry the
    request resolves to, found without reading the client's price. *)
Theorem client_price_never_charged `{Platform} (cfg : Config)
    (create : SessionCreateParams -> string -> CreateResult) (amb : Ambient)
    (req : Request) (p1 p2 : option Z) (d1 d2 : Payload) :
  Schema_safeParse (default empty_body (json_body (with_price p1 req))) = Some d1 ->
  Schema_safeParse (default empty_body (json_body (with_price p2 req))) = Some d2 ->
  POST cfg create amb (with_price p1 req) = POST cfg create amb (with_price p2 req)
  /\ forall c, c ∈ (POST cfg create amb (with_price p1 req)).2 ->
       exists resolved,
         resolved ∈ TOURS
         /\ resolve (set_price None (tour d1)) = Some resolved
         /\ li_unit_amount <$> line_items (params c)
            = [unitAmountCents (process_env cfg) resolved].
Proof.
  intros H1 H2. split.
  - destruct (Schema_safeParse_with_price _ _ _ H1) as (t1 & e1 & He1 & Ht1 & ->).
    destruct (Schema_safeParse_with_price _ _ _ H2) as (t2 & e2 & He2 & Ht2 & ->).
    rewrite He1 in He2. injection He2 as <-.
    assert (Ht : set_price p2 t2 = set_price p2 t1)
      by (apply set_price_irrelevant; congruence).
    unfold POST. rewrite H1, H2, Ht. reflexivity.
  - intros c Hc.
    destruct (POST_unit_amount _ _ _ _ _ Hc) as (data & resolved & Hd & Hr & ->).
    rewrite H1 in Hd. injection Hd as <-.
    exists resolved. split; [eapply resolve_in_catalog, Hr |].
    split; [exact Hr | reflexivity].
Qed.

Lemma POST_calls `{Platform} (cfg : Config)
    (create : SessionCreateParams -> string -> CreateResult) (amb : Ambient)
    (req : Request) :
  (POST cfg create amb req).2 = []
  \/ exists c, (POST cfg create amb req).2 = [c].
Proof.
  unfold POST.
  destruct (Schema_safeParse _) as [data |]; [| by left].
  destruct (resolve (tour data)) as [resolved |]; [| by left].
  repeat (match goal with |- context [if ?b then _ else _] => destruct b end;
          [by left |]).
  cbn zeta. right.
  destruct (create _ _) as [sid url | e]; [destruct (truthy url) |]; cbn; eauto.
Qed.





Lemma client_price_never_charged_witness :
  let req := Sample.req_coffee None "ana@example.com" in
  let run p := POST (H := Sample.platform) Sample.cfg_live Sample.always_created
                 (Sample.amb "r1" Sample.t0) (with_price p req) in
  run (Some 1) = run (Some 999999)
  /\ forall c, c ∈ (run (Some 1)).2 ->
       exists resolved,
         resolved ∈ TOURS
         /\ resolve (H := Sample.platform)
              (set_price None (set_price (Some 1)
                 {| t_slug := Some "Bogota-Coffee-Culture"; t_title := None;
                    t_short := None; t_price := None |})) = Some resolved
         /\ li_unit_amount <$> line_items (params c)
            = [unitAmountCents (H := Sample.platform)
                 (process_env Sample.cfg_live) resolved].
Proof.
  cbv zeta.
  eapply (client_price_never_charged (H := Sample.platform) Sample.cfg_live
            Sample.always_created (Sample.amb "r1" Sample.t0)
            (Sample.req_coffee None "ana@example.com") (Some 1) (Some 999999)
            {| tour := _; quantity := _; customer := _; date := _; phone := _;
               currency := _; locale := _ |});
    vm_compute; reflexivity.
Defined.

(** The two requests of the witness are charged the catalog price of the
    coffee tour, 120,000 COP: 3,000 cents a unit. *)
Example client_price_example :
  (λ c, li_unit_amount <$> line_items (params c))
    <$> (POST (H := Sample.platform) Sample.cfg_live Sample.always_created
           (Sample.amb "r1" Sample.t0)
           (Sample.req_coffee (Some 1) "ana@example.com")).2
  = [[Int 3000]].
Proof. reflexivity. Qed.


End CheckoutFacts.

(* ===================================================================== *)
(** * Properties of the webhook                                           *)
(* ===================================================================== *)

Module WebhookFacts.
Import Webhook.

(** ** The configuration gate *)

(** C10.  When [STRIPE_WEBHOOK_SECRET] or [STRIPE_SECRET_KEY] is unset (or
    empty), the handler answers every request without looking at it and
    leaves the world as it was: 200 [{received, skipped}] outside
    production, 500 in production. *)
Theorem unconfigured_webhook_skips `{Platform} (cfg : Config) (svc : Services)
    (req : Request) (w : World) :
  truthy (process_env cfg !! "STRIPE_WEBHOOK_SECRET") = None
  \/ truthy (process_env cfg !! "STRIPE_SECRET_KEY") = None ->
  (process_env cfg !! "NODE_ENV" <> Some "production" ->
   POST cfg svc req w = (Ok (json Skipped 200), w))
  /\ (process_env cfg !! "NODE_ENV" = Some "production" ->
      POST cfg svc req w = (Ok (json (Err "Stripe env not set") 500), w)).
Proof.
  intros Hunset.
  assert (Hpost : POST cfg svc req w
                  = (Ok (if isProd cfg then json (Err "Stripe env not set") 500
                         else json Skipped 200), w)).
  { unfold POST.
    destruct Hunset as [-> | Hkey].
    - by destruct (isProd cfg).
    - rewrite Hkey. destruct (truthy (process_env cfg !! "STRIPE_WEBHOOK_SECRET"));
        by destruct (isProd cfg). }
  rewrite Hpost. unfold isProd. split; intros Henv.
  - by rewrite bool_decide_eq_false_2.
  - by rewrite bool_decide_eq_true_2.
Qed.

(** ** Writes compose *)

Ltac le_done := first [exact (le_n _) | exact (Nat.le_0_l _) | lia].

Lemma steps_one (admin : Admin) (u s : nat) (w w' : World) :
  atomic admin u s w w' -> steps admin u s w w'.
Proof.
  intros Ha. replace u with (u + 0)%nat by lia. replace s with (s + 0)%nat by lia.
  eapply steps_cons; [exact Ha | apply steps_refl].
Qed.

Lemma steps_trans (admin : Admin) (u1 s1 u2 s2 : nat) (w1 w2 w3 : World) :
  steps admin u1 s1 w1 w2 -> steps admin u2 s2 w2 w3 ->
  steps admin (u1 + u2) (s1 + s2) w1 w3.
Proof.
  induction 1 as [w | a1 b1 a2 b2 x y z Hat Hst IH]; intros H23; cbn.
  - exact H23.
  - rewrite <- !Nat.add_assoc. eapply steps_cons; [exact Hat | exact (IH H23)].
Qed.

Lemma sound_weaken {A} (admin : Admin) (U S U' S' : nat) (m : M A) :
  sound admin U S m -> (U <= U')%nat -> (S <= S')%nat -> sound admin U' S' m.
Proof.
  intros Hm HU HS w. destruct (Hm w) as (u & s & Hu & Hs & Hst).
  exists u, s. repeat split; [lia | lia | exact Hst].
Qed.

Lemma sound_pure {A} (admin : Admin) (m : M A) :
  (forall w, (m w).2 = w) -> sound admin 0 0 m.
Proof.
  intros Hm w. exists 0%nat, 0%nat. rewrite Hm.
  repeat split; [lia | lia | apply steps_refl].
Qed.

Lemma sound_ret {A} (admin : Admin) (a : A) : sound admin 0 0 (mret a).
Proof. by apply sound_pure. Qed.

Lemma sound_throw {A} (admin : Admin) (e : string) : sound admin 0 0 (throw (A := A) e).
Proof. by apply sound_pure. Qed.

Lemma sound_await {A} (admin : Admin) (r : Outcome A) : sound admin 0 0 (await r).
Proof. by apply sound_pure. Qed.

Lemma sound_bind {A B} (admin : Admin) (U1 S1 U2 S2 : nat) (m : M A) (f : A -> M B) :
  sound admin U1 S1 m -> (forall a, sound admin U2 S2 (f a)) ->
  sound admin (U1 + U2) (S1 + S2) (m ≫= f).
Proof.
  intros Hm Hf w. unfold mbind, M_bind.
  destruct (Hm w) as (u1 & s1 & Hu1 & Hs1 & H1).
  destruct (m w) as [[a | e] w1]; cbn in *.
  - destruct (Hf a w1) as (u2 & s2 & Hu2 & Hs2 & H2).
    exists (u1 + u2)%nat, (s1 + s2)%nat.
    repeat split; [lia | lia | eapply steps_trans; eassumption].
  - exists u1, s1. repeat split; [lia | lia | exact H1].
Qed.

Lemma sound_try_catch {A} (admin : Admin) (U1 S1 U2 S2 : nat) (body : M A)
    (handler : string -> M A) :
  sound admin U1 S1 body -> (forall e, sound admin U2 S2 (handler e)) ->
  sound admin (U1 + U2) (S1 + S2) (try_catch body handler).
Proof.
  intros Hm Hf w. unfold try_catch.
  destruct (Hm w) as (u1 & s1 & Hu1 & Hs1 & H1).
  destruct (body w) as [[a | e] w1]; cbn in *.
  - exists u1, s1. repeat split; [lia | lia | exact H1].
  - destruct (Hf e w1) as (u2 & s2 & Hu2 & Hs2 & H2).
    exists (u1 + u2)%nat, (s1 + s2)%nat.
    repeat split; [lia | lia | eapply steps_trans; eassumption].
Qed.

(** ** Stepping through a helper at one world *)

Lemma sound_at_all {A} (admin : Admin) (U S : nat) (m : M A) :
  (forall w, sound_at admin w U S m) -> sound admin U S m.
Proof. intros Hm w. exact (Hm w). Qed.

Lemma sound_at_here {A} (admin : Admin) (w : World) (U S : nat) (m : M A) :
  (m w).2 = w -> sound_at admin w U S m.
Proof.
  intros Hm. exists 0%nat, 0%nat. rewrite Hm.
  repeat split; [lia | lia | apply steps_refl].
Qed.

Lemma sound_at_one {A} (admin : Admin) (w : World) (u s U S : nat) (m : M A) :
  atomic admin u s w (m w).2 -> (u <= U)%nat -> (s <= S)%nat -> sound_at admin w U S m.
Proof. intros Ha Hu Hs. exists u, s. repeat split; [lia | lia | by apply steps_one]. Qed.

Lemma sound_at_read {A B} (admin : Admin) (w : World) (U S : nat) (m : M A)
    (f : A -> M B) (a : A) :
  m w = (Ok a, w) -> sound_at admin w U S (f a) -> sound_at admin w U S (m ≫= f).
Proof. intros Hm Hf. unfold sound_at, mbind, M_bind. by rewrite Hm. Qed.

Lemma sound_at_try_catch {A} (admin : Admin) (w : World) (U S : nat) (body : M A)
    (handler : string -> M A) :
  sound_at admin w U S body -> (forall e, sound admin 0 0 (handler e)) ->
  sound_at admin w U S (try_catch body handler).
Proof.
  intros (u1 & s1 & Hu1 & Hs1 & H1) Hf. unfold sound_at, try_catch.
  destruct (body w) as [[a | e] w1]; cbn in *.
  - exists u1, s1. repeat split; [le_done | le_done | exact H1].
  - destruct (Hf e w1) as (u2 & s2 & Hu2 & Hs2 & H2).
    exists (u1 + u2)%nat, (s1 + s2)%nat.
    repeat split; [lia | lia | eapply steps_trans; eassumption].
Qed.

(** A query and what follows it: the answer that carries an error, the
    call that throws, the query the database takes. *)
Lemma sound_at_query {A B} (admin : Admin) (w : World) (U S : nat) (q : Query)
    (refused : string -> A) (answer : M A) (f : A -> M B) :
  (forall e, admin q = Some (Refused e) -> sound_at admin w U S (f (refused e))) ->
  (admin q = None -> sound_at admin w U S (answer ≫= f)) ->
  sound_at admin w U S (query admin q refused answer ≫= f).
Proof.
  intros Hr Ha. unfold query.
  destruct (admin q) as [[e | e] |] eqn:Hq.
  - eapply sound_at_read; [reflexivity | by apply Hr].
  - by apply sound_at_here.
  - by apply Ha.
Qed.

(** ** Steps that change nothing *)

Lemma query_reads {A} (admin : Admin) (q : Query) (refused : string -> A) (answer : M A)
    (w : World) :
  (answer w).2 = w -> (query admin q refused answer w).2 = w.
Proof. intros Ha. unfold query. by destruct (admin q) as [[e | e] |]. Qed.

Lemma bind_keeps {A B} (m : M A) (f : A -> M B) (w : World) :
  (m w).2 = w -> (forall a, (f a w).2 = w) -> ((m ≫= f) w).2 = w.
Proof.
  intros Hm Hf. unfold mbind, M_bind.
  destruct (m w) as [[a | e] w1]; cbn in *; subst; [apply Hf | reflexivity].
Qed.

Lemma select_tour_id_reads `{Platform} (admin : Admin) (q : Query) (w : World) :
  (select_tour_id admin q w).2 = w.
Proof.
  unfold select_tour_id. apply bind_keeps; [| done]. by apply query_reads.
Qed.

Lemma try_catch_reads {A} (body : M A) (x : A) (w : World) :
  (body w).2 = w -> exists a, try_catch body (λ _, mret x) w = (Ok a, w).
Proof.
  intros Hb. unfold try_catch.
  destruct (body w) as [[a | e] w1]; cbn in *; subst; eauto.
Qed.

Lemma bind_reads {A B} (m : M A) (f : A -> M B) (w : World) :
  (exists a, m w = (Ok a, w)) -> exists a, (m ≫= f) w = f a w.
Proof. intros [a Ha]. exists a. unfold mbind, M_bind. by rewrite Ha. Qed.

(** ** The helpers, one by one *)

Lemma sound_logEvent (admin : Admin) (type : string) (payload : list (string * JS.json)) :
  type <> "invoice_sent" -> type <> "stripe_event_seen" ->
  sound admin 0 0 (logEvent admin type payload).
Proof.
  intros H1 H2. unfold logEvent.
  apply (sound_try_catch admin 0 0 0 0); [| intros; apply sound_ret].
  apply sound_at_all. intros w. unfold insert_event.
  apply sound_at_query; [intros; by apply sound_at_here | intros _].
  eapply sound_at_one; [| le_done | le_done].
  by apply (at_log admin w type (JObj payload)).
Qed.

(** The write of a [stripe_event_seen] marker, after a read that found
    none or went wrong. *)
Lemma sound_at_mark (admin : Admin) (w : World) (eid : string) :
  (admin (select_events "stripe_event_seen" "event_id" eid) = None ->
   data (maybeSingle
           (List.filter (is_marker "stripe_event_seen" "event_id" eid) (events w)))
   = None) ->
  sound_at admin w 0 0
    (insert_event admin "stripe_event_seen" (JObj [("event_id", JStr eid)]);;
     mret false).
Proof.
  intros Hnone. unfold insert_event.
  apply sound_at_query; [intros; by apply sound_at_here | intros _].
  eapply sound_at_one; [| le_done | le_done]. by apply at_seen.
Qed.

Lemma sound_seenOrMarkEvent (admin : Admin) (eventId : string) :
  sound admin 0 0 (seenOrMarkEvent admin eventId).
Proof.
  apply sound_at_all. intros w. unfold seenOrMarkEvent.
  apply sound_at_try_catch; [| intros; apply sound_ret].
  unfold select_event. apply sound_at_query.
  - intros e Hq. apply sound_at_mark. rewrite Hq. discriminate.
  - intros Hq. eapply sound_at_read; [reflexivity |].
    destruct (data (maybeSingle _)) eqn:Hd; [by apply sound_at_here |].
    by apply sound_at_mark.
Qed.

Lemma sound_updateBookingStatusBySessionId (admin : Admin) (sid : string) (next : Status) :
  sound admin 0 0 (updateBookingStatusBySessionId admin sid next).
Proof.
  apply sound_at_all. intros w. unfold updateBookingStatusBySessionId, select_booking.
  apply sound_at_query; [intros; by apply sound_at_here | intros _].
  eapply sound_at_read; [reflexivity |].
  destruct (error (maybeSingle _)); [by apply sound_at_here |].
  destruct (data (maybeSingle _)) as [row |]; [| by apply sound_at_here].
  destruct (bool_decide (b_status row = next)); [by apply sound_at_here |].
  unfold update_booking.
  apply sound_at_query; [intros; by apply sound_at_here | intros _].
  eapply sound_at_one; [| le_done | le_done]. apply at_status.
Qed.

Lemma maybeSingle_none {A} (rows : list A) :
  error (maybeSingle rows) = None -> data (maybeSingle rows) = None -> rows = [].
Proof. destruct rows as [| x [| y rows]]; cbn; congruence. Qed.

(** The two lookups of the tour only read, and what they throw is caught. *)
Lemma tour_lookups_read `{Platform} (admin : Admin) (tourSlug tourTitle : string)
    (w : World) :
  exists tid,
    try_catch
      (by_slug ← match truthy (Some tourSlug) with
                 | Some sl => select_tour_id admin (select_tours_by_slug sl)
                 | None => mret None
                 end;
       match by_slug, truthy (Some tourTitle) with
       | None, Some ti => select_tour_id admin (select_tours_by_title ti)
       | _, _ => mret by_slug
       end)
      (λ _, mret None) w
    = (Ok tid, w).
Proof.
  apply try_catch_reads. apply bind_keeps.
  - destruct (truthy (Some tourSlug)); [apply select_tour_id_reads | reflexivity].
  - intros by_slug. destruct by_slug; [reflexivity |].
    destruct (truthy (Some tourTitle)); [apply select_tour_id_reads | reflexivity].
Qed.

(** What [upsertBookingFromSession] does for a session with an id, read by
    read and write by write: a fault of the database ends it in an
    exception and leaves the tables as they were; with several rows for
    the session the read is an error; with one row it is updated in place,
    with none a row is inserted. *)
Lemma upsertBookingFromSession_cases `{Platform} (svc : Services) (admin : Admin)
    (session : Session) (w : World) (sid : string) :
  truthy (Some (safeStr (Some (s_id session)))) = Some sid ->
  let meta := default ∅ (s_metadata session) in
  let r := upsertBookingFromSession svc admin session w in
  match admin (select_bookings sid) with
  | Some (Refused e) | Some (Failed e) => r = (Throw e, w)
  | None =>
      match List.filter (has_session sid) (bookings w) with
      | [] =>
          exists row,
            (forall id,
               stripe_session_id (row id) = Some sid
               /\ b_status (row id) = status_of_session session
               /\ total (row id) = amount_total session
               /\ payment_provider (row id) = Some "stripe"
               /\ b_date (row id)
                  = default (today svc) (parseYMD (safeStr (meta !! "date")))
               /\ b_customer_name (row id)
                  = truthy (Some (safeStr (meta !! "customer_name"
                                           ?? (customer_details session ≫= cd_name)
                                           ?? Some "")))
               /\ extras (row id) = jsonSafe_meta meta)
            /\ r = match admin (insert_into_bookings sid) with
                   | Some (Refused e) | Some (Failed e) => (Throw e, w)
                   | None => (Ok (next_id w), add_booking row sid w)
                   end
      | [old] =>
          exists patch,
            (forall b,
               stripe_session_id (patch b) = stripe_session_id b
               /\ b_status (patch b) = status_of_session session
               /\ total (patch b) = amount_total session
               /\ payment_provider (patch b) = Some "stripe"
               /\ b_id (patch b) = b_id b /\ b_date (patch b) = b_date b
               /\ persons (patch b) = persons b /\ tour_id (patch b) = tour_id b
               /\ extras (patch b) = extras b)
            /\ r = match admin (update_bookings (b_id old)) with
                   | Some (Refused e) | Some (Failed e) => (Throw e, w)
                   | None =>
                       (Ok (b_id old),
                        patch_booking (b_id old) patch (UpdateBooking (b_id old) sid) w)
                   end
      | _ => r = (Throw "PGRST116", w)
      end
  end.
Proof.
  intros Hsid. cbv zeta. unfold upsertBookingFromSession. cbv zeta. rewrite Hsid.
  match goal with |- context [(?m ≫= ?f) w] =>
    destruct (bind_reads m f w) as [tid ->] end;
    [apply tour_lookups_read |].
  unfold mbind, M_bind, select_booking, update_booking, insert_booking, query.
  destruct (admin (select_bookings sid)) as [[e | e] |]; [reflexivity | reflexivity |].
  cbn.
  destruct (List.filter (has_session sid) (bookings w)) as [| old [| other rest]]; cbn.
  - eexists. split; cycle 1.
    + destruct (admin (insert_into_bookings sid)) as [[e | e] |]; reflexivity.
    + intros id. cbn. done.
  - eexists. split; cycle 1.
    + destruct (admin (update_bookings (b_id old))) as [[e | e] |]; reflexivity.
    + intros b. cbn. done.
  - reflexivity.
Qed.

Lemma upsertBookingFromSession_no_id `{Platform} (svc : Services) (admin : Admin)
    (session : Session) (w : World) :
  truthy (Some (safeStr (Some (s_id session)))) = None ->
  upsertBookingFromSession svc admin session w = (Throw "Missing stripe_session_id", w).
Proof.
  intros Hsid. unfold upsertBookingFromSession. cbv zeta. rewrite Hsid.
  match goal with |- context [(?m ≫= ?f) w] =>
    destruct (bind_reads m f w) as [tid ->] end;
    [apply tour_lookups_read | reflexivity].
Qed.

Lemma sound_upsertBookingFromSession `{Platform} (svc : Services) (admin : Admin)
    (session : Session) :
  sound admin 1 0 (upsertBookingFromSession svc admin session).
Proof.
  apply sound_at_all. intros w.
  destruct (truthy (Some (safeStr (Some (s_id session))))) as [sid |] eqn:Hsid.
  2: { apply sound_at_here. by rewrite upsertBookingFromSession_no_id. }
  pose proof (upsertBookingFromSession_cases svc admin session w sid Hsid) as Hc.
  cbv zeta in Hc.
  destruct (admin (select_bookings sid)) as [[e | e] |];
    [apply sound_at_here; by rewrite Hc | apply sound_at_here; by rewrite Hc |].
  destruct (List.filter (has_session sid) (bookings w)) as [| old [| other rest]] eqn:Hf.
  - destruct Hc as (row & Hrow & Hr).
    destruct (admin (insert_into_bookings sid)) as [[e | e] |];
      [apply sound_at_here; by rewrite Hr | apply sound_at_here; by rewrite Hr |].
    eapply sound_at_one; [| le_done | le_done]. rewrite Hr. cbn.
    apply at_insert; [exact Hf | intros id; apply Hrow].
  - destruct Hc as (patch & Hpatch & Hr).
    destruct (admin (update_bookings (b_id old))) as [[e | e] |];
      [apply sound_at_here; by rewrite Hr | apply sound_at_here; by rewrite Hr |].
    eapply sound_at_one; [| le_done | le_done]. rewrite Hr. cbn.
    apply at_update. intros b. apply Hpatch.
  - apply sound_at_here. by rewrite Hc.
Qed.

Lemma sound_trySendBookingEmail `{Platform} (cfg : Config) (svc : Services)
    (admin : Admin) (session : Session) :
  sound admin 0 1 (trySendBookingEmail cfg svc admin session).
Proof.
  apply sound_at_all. intros w. unfold trySendBookingEmail. cbv zeta.
  apply sound_at_try_catch.
  2: { intros e. apply (sound_try_catch admin 0 0 0 0); [| intros; apply sound_ret].
       by apply sound_logEvent. }
  destruct (truthy (process_env cfg !! "RESEND_API_KEY")); [| by apply sound_at_here].
  destruct (truthy (customer_details session ≫= cd_email) ?? truthy (customer_email session))
    as [to |]; [| by apply sound_at_here].
  unfold select_event.
  set (rest := λ already : QueryResult EventRow, _).
  assert (Hrest : forall already,
            (admin (select_events "invoice_sent" "session_id" (s_id session)) = None ->
             data (maybeSingle
                     (List.filter (is_marker "invoice_sent" "session_id" (s_id session))
                        (events w))) = None) ->
            data already = None ->
            sound_at admin w 0 1 (rest already)).
  { intros already Hnone Hd. subst rest. cbv beta. rewrite Hd.
    destruct (Date_toISOString _) as [iso |]; [| by apply sound_at_here].
    eapply sound_at_read; [reflexivity |].
    match goal with |- context [buildInvoicePdf svc ?i ?o] =>
      destruct (buildInvoicePdf svc i o) as [pdf | e] end;
      [| by apply sound_at_here].
    eapply sound_at_read; [reflexivity |].
    unfold sound_at, mbind, M_bind, resend_emails_send, await.
    match goal with |- context [emails_send svc ?m] =>
      destruct (emails_send svc m) as [[err |] | e] end; cbn.
    - apply (sound_weaken admin 0 0 0 1); [| le_done | le_done].
      by apply sound_logEvent.
    - unfold logEvent, try_catch, mbind, M_bind, insert_event, query.
      destruct (admin (insert_into_events "invoice_sent" _)) as [[e | e] |] eqn:Hins; cbn.
      + exists 0%nat, 1%nat. repeat split; [le_done | le_done |].
        apply steps_one. eapply at_send_unmarked. by rewrite Hins.
      + exists 0%nat, 1%nat. repeat split; [le_done | le_done |].
        apply steps_one. eapply at_send_unmarked. by rewrite Hins.
      + exists 0%nat, 1%nat. repeat split; [le_done | le_done |].
        apply steps_one. by apply at_send.
    - exists 0%nat, 0%nat. repeat split; [le_done | le_done | apply steps_refl]. }
  apply sound_at_query.
  - intros e Hq. apply Hrest; [| reflexivity]. rewrite Hq. discriminate.
  - intros Hq. eapply sound_at_read; [reflexivity |].
    set (found := maybeSingle _).
    assert (Hcase : data found = None \/ exists r, data found = Some r)
      by (destruct (data found); eauto).
    destruct Hcase as [Hd | [r Hd]].
    + apply Hrest; [intros _; exact Hd | exact Hd].
    + subst rest. cbv beta. rewrite Hd. by apply sound_at_here.
Qed.

Create HintDb sound discriminated.

#[local] Hint Resolve sound_ret sound_throw sound_await sound_seenOrMarkEvent
  sound_updateBookingStatusBySessionId sound_upsertBookingFromSession
  sound_trySendBookingEmail : sound.

Ltac sound_log := apply sound_logEvent; discriminate.

Lemma sound_upsert_log_send `{Platform} (cfg : Config) (svc : Services) (admin : Admin)
    (session : Session) (type : string)
    (payload : nat -> list (string * JS.json)) :
  type <> "invoice_sent" -> type <> "stripe_event_seen" ->
  sound admin 1 1
    (bookingId ← upsertBookingFromSession svc admin session;
     logEvent admin type (payload bookingId);;
     trySendBookingEmail cfg svc admin session).
Proof.
  intros H1 H2.
  apply (sound_bind admin 1 0 0 1); [auto with sound | intros id].
  apply (sound_bind admin 0 0 0 1); [by apply sound_logEvent | intros _].
  auto with sound.
Qed.

Lemma sound_dispatch `{Platform} (cfg : Config) (svc : Services) (admin : Admin)
    (event : Event) :
  sound admin 1 1 (dispatch cfg svc admin event).
Proof.
  unfold dispatch. cbv zeta. destruct (e_data event) as [s | s | s | s | pi | pi | c | t].
  - by apply (sound_upsert_log_send cfg svc admin s "stripe_checkout_completed"
                (λ id, [_; ("booking_id", jnum (Z.of_nat id)); _; _; _; _])).
  - by apply (sound_upsert_log_send cfg svc admin s "stripe_checkout_async_succeeded"
                (λ id, [_; ("booking_id", jnum (Z.of_nat id)); _])).
  - apply sound_weaken with 0%nat 0%nat; [sound_log | lia | lia].
  - apply sound_weaken with 0%nat 0%nat; [| lia | lia].
    apply (sound_bind admin 0 0 0 0); [| intros _; sound_log].
    destruct (truthy (Some (s_id s))); auto with sound.
  - apply (sound_try_catch admin 1 1 0 0); [| intros e; sound_log].
    apply (sound_bind admin 0 0 1 1); [auto with sound | intros [sess |]].
    + destruct (truthy (Some (s_id sess))).
      * by apply (sound_upsert_log_send cfg svc admin sess "stripe_pi_succeeded_linked"
                    (λ id, [_; _; ("booking_id", jnum (Z.of_nat id)); _])).
      * apply sound_weaken with 0%nat 0%nat; [sound_log | lia | lia].
    + apply sound_weaken with 0%nat 0%nat; [sound_log | lia | lia].
  - apply sound_weaken with 0%nat 0%nat; [sound_log | lia | lia].
  - apply sound_weaken with 0%nat 0%nat; [| lia | lia].
    destruct (truthy (ch_payment_intent c)) as [piId |]; [| auto with sound].
    apply (sound_bind admin 0 0 0 0); [auto with sound | intros sessions].
    destruct (sessions ≫= _) as [sid |]; [| sound_log].
    apply (sound_bind admin 0 0 0 0); [auto with sound | intros _; sound_log].
  - apply sound_weaken with 0%nat 0%nat; [sound_log | lia | lia].
Qed.

(** What the handler does with a client in hand. *)
Lemma sound_handle `{Platform} (cfg : Config) (svc : Services) (admin : Admin)
    (event : Event) :
  sound admin 1 1
    (seen ← seenOrMarkEvent admin (e_id event);
     if seen : bool then mret (json (Duplicate (e_id event)) 200)
     else try_catch (dispatch cfg svc admin event;; mret (json Received 200))
            (λ _, mret (if isProd cfg then json (Err "Handler failure") 500
                        else json Dev 200))).
Proof.
  apply (sound_bind admin 0 0 1 1); [auto with sound | intros [|]].
  - apply sound_weaken with 0%nat 0%nat; [apply sound_ret | lia | lia].
  - apply (sound_try_catch admin 1 1 0 0); [| intros e; auto with sound].
    apply (sound_bind admin 1 1 0 0); [apply sound_dispatch | intros _; auto with sound].
Qed.

(** Every delivery either leaves the world as it was or changes it, through
    the client it got, by the writes of [atomic] only, with at most one
    booking upsert and at most one e-mail. *)
Lemma sound_POST `{Platform} (cfg : Config) (svc : Services) (req : Request) (w : World) :
  (POST cfg svc req w).2 = w
  \/ exists admin,
       getSupabaseAdmin cfg svc = Ok admin
       /\ exists u s, (u <= 1)%nat /\ (s <= 1)%nat
                      /\ steps admin u s w (POST cfg svc req w).2.
Proof.
  unfold POST. cbv zeta.
  destruct (truthy (process_env cfg !! "STRIPE_WEBHOOK_SECRET")) as [secret |];
    [| left; by destruct (isProd cfg)].
  destruct (truthy (process_env cfg !! "STRIPE_SECRET_KEY")) as [key |];
    [| left; by destruct (isProd cfg)].
  destruct (truthy (stripe_signature req)) as [sig |]; [| by left].
  destruct (constructEvent svc (rawBody req) sig secret) as [message | event];
    [by left |].
  unfold mbind at 1, M_bind at 1, await.
  destruct (getSupabaseAdmin cfg svc) as [admin | e]; [| by left].
  right. exists admin. split; [reflexivity |]. apply sound_handle.
Qed.

(** ** What one write does to the counts *)

Lemma filter_length_snoc {A} (p : A -> bool) (l : list A) (x : A) :
  length (List.filter p (l ++ [x]))
  = (length (List.filter p l) + (if p x then 1 else 0))%nat.
Proof.
  rewrite List.filter_app, List.length_app. cbn. by destruct (p x).
Qed.

Lemma filter_length_fmap {A} (p : A -> bool) (f : A -> A) (l : list A) :
  (forall x, p (f x) = p x) ->
  length (List.filter p (f <$> l)) = length (List.filter p l).
Proof.
  intros Hp. induction l as [| x l IH]; cbn; [reflexivity |].
  rewrite Hp. destruct (p x); cbn; by rewrite IH.
Qed.






Lemma has_session_patch (patch : BookingRow -> BookingRow) (id : nat) (sid : string)
    (b : BookingRow) :
  (forall b, stripe_session_id (patch b) = stripe_session_id b) ->
  has_session sid (if bool_decide (b_id b = id) then patch b else b) = has_session sid b.
Proof.
  intros Hp. unfold has_session. destruct (bool_decide (b_id b = id)); by rewrite ?Hp.
Qed.

(** Each write keeps the bookings unique, whatever the database does. *)
Lemma atomic_bookings_unique (admin : Admin) (u s : nat) (w w' : World) :
  atomic admin u s w w' -> bookings_unique w -> bookings_unique w'.
Proof.
  intros Hat Hw sid'. specialize (Hw sid'). unfold booking_count in *.
  destruct Hat as [w type payload _ _ | w eid _ | w row sid Hnone Hrow
                  | w id patch sid Hpatch | w id st | w sid m to _ | w sid m payload _];
    cbn; try exact Hw.
  - rewrite filter_length_snoc. unfold has_session at 2. rewrite Hrow.
    destruct (decide (sid = sid')) as [-> | Hne].
    + rewrite Hnone. cbn. by rewrite bool_decide_eq_true_2.
    + rewrite bool_decide_eq_false_2 by congruence. lia.
  - rewrite filter_length_fmap; [exact Hw |].
    intros b. by apply has_session_patch.
  - rewrite filter_length_fmap; [exact Hw |].
    intros b. by apply has_session_patch.
Qed.




(** The indices of a write count what they say. *)
Lemma atomic_counts (admin : Admin) (u s : nat) (w w' : World) :
  atomic admin u s w w' ->
  upsert_count w' = (upsert_count w + u)%nat
  /\ length (outbox w') = (length (outbox w) + s)%nat.
Proof.
  intros Hat. unfold upsert_count.
  destruct Hat; cbn; rewrite ?filter_length_snoc, ?List.length_app; cbn; lia.
Qed.

(** ** Invariants along a run *)

Lemma steps_invariant (admin : Admin) (I : World -> Prop) :
  (forall u s w w', atomic admin u s w w' -> I w -> I w') ->
  forall u s w w', steps admin u s w w' -> I w -> I w'.
Proof.
  intros Hat u s w w' Hst. induction Hst as [w | a1 b1 a2 b2 x y z Hxy Hyz IH];
    [done | intros Hx]. apply IH. eapply Hat; eassumption.
Qed.


Lemma steps_counts (admin : Admin) (u s : nat) (w w' : World) :
  steps admin u s w w' ->
  upsert_count w' = (upsert_count w + u)%nat
  /\ length (outbox w') = (length (outbox w) + s)%nat.
Proof.
  induction 1 as [w | a1 b1 a2 b2 x y z Hxy Hyz IH]; [lia |].
  pose proof (atomic_counts _ _ _ _ _ Hxy). lia.
Qed.

(** A property kept by every write of the clients that satisfy [P] is kept
    by every delivery whose client satisfies [P]. *)
Lemma deliver_invariant `{Platform} (I : World -> Prop) (P : Admin -> Prop)
    (cfg : Config) :
  (forall admin u s w w', P admin -> atomic admin u s w w' -> I w -> I w') ->
  forall w d, client_is cfg P d -> I w -> I (deliver cfg w d).
Proof.
  intros Hat w [svc req] Hd Hw. unfold deliver. cbn.
  destruct (sound_POST cfg svc req w) as [-> | (admin & Ha & u & s & _ & _ & Hst)];
    [exact Hw |].
  eapply (steps_invariant admin); [| exact Hst | exact Hw].
  intros a b x y. apply Hat. by apply Hd.
Qed.

Lemma run_invariant `{Platform} (I : World -> Prop) (P : Admin -> Prop) (cfg : Config) :
  (forall admin u s w w', P admin -> atomic admin u s w w' -> I w -> I w') ->
  forall ds w, Forall (client_is cfg P) ds -> I w -> I (run cfg w ds).
Proof.
  intros Hat ds. unfold run. induction ds as [| d ds IH]; intros w Hds Hw; cbn.
  - exact Hw.
  - apply Forall_cons in Hds as [Hd Hds]. apply IH; [exact Hds |].
    by apply (deliver_invariant I P).
Qed.

Lemma run_bookings_unique `{Platform} (cfg : Config) (ds : list Delivery) (w : World) :
  bookings_unique w -> bookings_unique (run cfg w ds).
Proof.
  apply (run_invariant bookings_unique (λ _, True)).
  - intros admin u s x y _. apply atomic_bookings_unique.
  - apply Forall_forall. intros d _ admin _. exact I.
Qed.

Lemma initial_invariants (catalog : list TourRow) :
  bookings_unique (initial catalog) /\ seen_once (initial catalog)
  /\ sent_ledger (initial catalog).
Proof.
  split; [| split].
  - intros sid. cbn. lia.
  - intros eid. cbn. lia.
  - intros sid. cbn. split; [reflexivity | lia].
Qed.

(** ** Booking rows *)

Lemma length_le_1_cases {A} (l : list A) :
  (length l <= 1)%nat -> l = [] \/ exists x, l = [x].
Proof. destruct l as [| x [| y l]]; cbn; [by left | right; eauto | lia]. Qed.

(** An upsert for a session with an id, in a table with at most one row
    per session.  When it returns, there is exactly one row for the
    session: updated in place when there was one, inserted when there was
    none, by one write.  When it ends in an exception, the world is as it
    was.  And it returns when the database takes its queries. *)
Lemma upsert_in_place_or_insert `{Platform} (svc : Services) (admin : Admin)
    (session : Session) (w : World) (sid : string) :
  truthy (Some (safeStr (Some (s_id session)))) = Some sid ->
  bookings_unique w ->
  let r := upsertBookingFromSession svc admin session w in
  (forall id, r.1 = Ok id ->
     booking_count sid r.2 = 1%nat
     /\ upsert_count r.2 = S (upsert_count w)
     /\ (booking_count sid w = 1%nat -> length (bookings r.2) = length (bookings w))
     /\ (booking_count sid w = 0%nat -> length (bookings r.2) = S (length (bookings w))))
  /\ (forall e, r.1 = Throw e -> r.2 = w)
  /\ (bookings_work admin -> exists id, r.1 = Ok id).
Proof.
  intros Hsid Hw. cbv zeta.
  pose proof (upsertBookingFromSession_cases svc admin session w sid Hsid) as Hc.
  cbv zeta in Hc.
  specialize (Hw sid). unfold booking_count, upsert_count in *.
  destruct (admin (select_bookings sid)) as [[e | e] |] eqn:Hsel.
  1, 2: rewrite Hc; cbn; split; [discriminate |]; split; [done |];
        intros (Hs & _ & _); rewrite Hs in Hsel; discriminate.
  destruct (length_le_1_cases _ Hw) as [Hnil | [old Hone]].
  - rewrite Hnil in Hc |- *. destruct Hc as (row & Hrow & ->).
    destruct (admin (insert_into_bookings sid)) as [[e | e] |] eqn:Hins.
    1, 2: cbn; split; [discriminate |]; split; [done |];
          intros (_ & _ & Hi); rewrite Hi in Hins; discriminate.
    cbn. split; [| split; [discriminate | eauto]].
    intros id _.
    rewrite !filter_length_snoc, Hnil, List.length_app. unfold has_session.
    destruct (Hrow (next_id w)) as [-> _]. rewrite bool_decide_eq_true_2 by done. cbn.
    repeat split; lia.
  - rewrite Hone in Hc |- *. destruct Hc as (patch & Hpatch & ->).
    destruct (admin (update_bookings (b_id old))) as [[e | e] |] eqn:Hupd.
    1, 2: cbn; split; [discriminate |]; split; [done |];
          intros (_ & Hu & _); rewrite Hu in Hupd; discriminate.
    cbn. split; [| split; [discriminate | eauto]].
    intros id _.
    rewrite filter_length_snoc, length_fmap.
    rewrite filter_length_fmap by (intros b; apply has_session_patch; apply Hpatch).
    rewrite Hone. cbn. repeat split; lia.
Qed.

(** C5.  Whatever deliveries are handled one after the other, and whatever
    the database refuses or fails to do, the bookings table never holds
    more than one row for a session id; uniqueness is kept from any table
    that has it; and [upsertBookingFromSession], when it returns, leaves
    exactly one row for its session, updating the row in place when there
    is one and inserting a row only when there is none, while an upsert
    that ends in an exception leaves the table as it was. *)
Theorem booking_upsert_unique `{Platform} (cfg : Config) (catalog : list TourRow) :
  (forall ds sid, (booking_count sid (run cfg (initial catalog) ds) <= 1)%nat)
  /\ (forall ds w, bookings_unique w -> bookings_unique (run cfg w ds))
  /\ (forall svc admin session w sid,
        truthy (Some (safeStr (Some (s_id session)))) = Some sid ->
        bookings_unique w ->
        let r := upsertBookingFromSession svc admin session w in
        let w' := r.2 in
        (forall id, r.1 = Ok id ->
           booking_count sid w' = 1%nat
           /\ (booking_count sid w = 1%nat ->
               length (bookings w') = length (bookings w))
           /\ (booking_count sid w = 0%nat ->
               length (bookings w') = S (length (bookings w))))
        /\ (forall e, r.1 = Throw e -> w' = w)
        /\ (bookings_work admin -> exists id, r.1 = Ok id)).
Proof.
  assert (Hrun : forall ds w, bookings_unique w -> bookings_unique (run cfg w ds))
    by (intros ds w; apply run_bookings_unique).
  split; [| split; [exact Hrun |]].
  - intros ds sid. apply Hrun, initial_invariants.
  - intros svc admin session w sid Hsid Hw r w'. subst r w'.
    destruct (upsert_in_place_or_insert svc admin session w sid Hsid Hw)
      as (H1 & H2 & H3).
    split; [| split; [exact H2 | exact H3]].
    intros id Hid. destruct (H1 id Hid) as (Ha & _ & Hb & Hc). by repeat split.
Qed.

(** ** The confirmation e-mail *)




(** ** The ledger of seen events *)




(** ** Deliveries to a configured endpoint *)

Section configured.

Context `{Platform} (cfg : Config) (secret key : string).
Hypothesis Hsecret : truthy (process_env cfg !! "STRIPE_WEBHOOK_SECRET") = Some secret.
Hypothesis Hkey : truthy (process_env cfg !! "STRIPE_SECRET_KEY") = Some key.

(** C2.  With the webhook secret and the provider key configured, a request
    whose [stripe-signature] header is missing or empty, or whose signature
    [constructEvent] rejects for the raw body, is answered 400 and leaves
    the world as it was: no booking is written, nothing is added to the
    event ledger, no e-mail is sent. *)
Theorem bad_signature_rejected (svc : Services) (req : Request) (w : World) :
  truthy (stripe_signature req) = None
  \/ (exists sig message,
        truthy (stripe_signature req) = Some sig
        /\ constructEvent svc (rawBody req) sig secret = inl message) ->
  exists message, POST cfg svc req w = (Ok (json (Err message) 400), w).
Proof.
  intros Hsig. unfold POST. rewrite Hsecret, Hkey.
  destruct Hsig as [-> | (sig & message & -> & ->)]; eexists; reflexivity.
Qed.

(** The handler past its two gates, with the client it got. *)
Lemma POST_verified (svc : Services) (req : Request) (event : Event) (admin : Admin) :
  verified secret svc req event ->
  getSupabaseAdmin cfg svc = Ok admin ->
  POST cfg svc req
  = (seen ← seenOrMarkEvent admin (e_id event);
     if seen : bool then mret (json (Duplicate (e_id event)) 200)
     else try_catch (dispatch cfg svc admin event;; mret (json Received 200))
            (λ _, mret (if isProd cfg then json (Err "Handler failure") 500
                        else json Dev 200))).
Proof.
  intros (sig & Hsig & Hev) Hadmin. unfold POST.
  rewrite Hsecret, Hkey, Hsig, Hev, Hadmin. reflexivity.
Qed.

(** Without a client the handler ends in the exception of
    [getSupabaseAdmin()], which nothing catches. *)
Lemma POST_without_client (svc : Services) (req : Request) (event : Event) (e : string)
    (w : World) :
  verified secret svc req event ->
  getSupabaseAdmin cfg svc = Throw e ->
  POST cfg svc req w = (Throw e, w).
Proof.
  intros (sig & Hsig & Hev) Hadmin. unfold POST.
  rewrite Hsecret, Hkey, Hsig, Hev, Hadmin. reflexivity.
Qed.





End configured.

(** ** Where the handler departs from the specification *)

(** C8 fails on the code.  When [buildInvoicePdf] throws, the [catch] of
    [trySendBookingEmail] records [invoice_send_exception] and returns: no
    e-mail is sent, with or without attachment.  (The route
    [api/email/booking-confirmation] does send without attachment.)  For
    all services whose renderer throws, the outbox is left as it was; on the
    sample delivery of a paid checkout the handler answers 200, the booking
    is paid, nothing is in the outbox and the ledger ends with the
    exception. *)
Theorem pdf_failure_sends_nothing `{Platform} (cfg : Config) :
  (forall svc admin e session w,
      outbox (trySendBookingEmail cfg (pdf_fails e svc) admin session w).2 = outbox w)
  /\ (let r := POST (H := Sample.platform) Sample.cfg_hook
                 (pdf_fails "Error: Failed to embed font"
                    (Sample.services (Sample.completed "paid") true))
                 (Sample.signed "evt_1") (initial []) in
      r.1 = Ok (json Received 200)
      /\ b_status <$> bookings r.2 = [paid]
      /\ outbox r.2 = []
      /\ last (ev_type <$> events r.2) = Some "invoice_send_exception").
Proof.
  split.
  - intros svc admin e session w. unfold trySendBookingEmail. cbv zeta.
    assert (Hlog : forall type payload x,
              outbox (try_catch (logEvent admin type payload) (λ _, mret ()) x).2
              = outbox x).
    { intros type payload x.
      unfold try_catch, logEvent, mbind, M_bind, insert_event, query.
      by destruct (admin (insert_into_events type (JObj payload))) as [[e' | e'] |]. }
    unfold try_catch at 1.
    destruct (truthy (process_env cfg !! "RESEND_API_KEY")); [| reflexivity].
    destruct (truthy (customer_details session ≫= cd_email) ?? truthy (customer_email session));
      [| reflexivity].
    unfold mbind, M_bind, select_event, query.
    destruct (admin (select_events "invoice_sent" "session_id" (s_id session)))
      as [[e' | e'] |]; cbn.
    + destruct (Date_toISOString _); cbn; apply Hlog.
    + apply Hlog.
    + destruct (data (maybeSingle _)); [reflexivity |].
      destruct (Date_toISOString _); cbn; apply Hlog.
  - vm_compute. repeat split; reflexivity.
Qed.

(** C9 fails on the code.  [trySendBookingEmail] never reads
    [payment_status]: it does the same for a session whatever its status,
    and the handler calls it after every upsert.  On the sample delivery of
    [checkout.session.completed] for an unpaid session the booking is
    recorded as pending and the confirmation e-mail is sent all the same. *)
Theorem unpaid_checkout_is_emailed `{Platform} (cfg : Config) :
  (forall svc admin session status w,
      trySendBookingEmail cfg svc admin (with_payment_status status session) w
      = trySendBookingEmail cfg svc admin session w)
  /\ (let r := POST (H := Sample.platform) Sample.cfg_hook
                 (Sample.services (Sample.completed "unpaid") true)
                 (Sample.signed "evt_1") (initial []) in
      r.1 = Ok (json Received 200)
      /\ b_status <$> bookings r.2 = [pending]
      /\ (λ m, (m.1, to m.2)) <$> outbox r.2 = [("cs_test_1", "ana@example.com")]).
Proof.
  split.
  - intros svc admin session status w. reflexivity.
  - vm_compute. repeat split; reflexivity.
Qed.

(** ** The properties at work on sample deliveries *)

Lemma bad_signature_rejected_witness :
  exists message,
    POST (H := Sample.platform) Sample.cfg_hook
      (Sample.services (Sample.completed "paid") true)
      {| stripe_signature := Some "forged"; rawBody := "evt_1" |} (initial [])
    = (Ok (json (Err message) 400), initial []).
Proof.
  apply (bad_signature_rejected (H := Sample.platform) Sample.cfg_hook
           "whsec_1" "sk_test_1" eq_refl eq_refl).
  right. eexists _, _. split; reflexivity.
Defined.

Lemma unconfigured_webhook_skips_witness :
  POST (H := Sample.platform) (Sample.cfg_no_secret "development")
    (Sample.services (Sample.completed "paid") true) (Sample.unsigned "not json")
    (initial [])
  = (Ok (json Skipped 200), initial [])
  /\ POST (H := Sample.platform) (Sample.cfg_no_secret "production")
       (Sample.services (Sample.completed "paid") true) (Sample.unsigned "not json")
       (initial [])
     = (Ok (json (Err "Stripe env not set") 500), initial []).
Proof.
  split.
  - apply (unconfigured_webhook_skips (H := Sample.platform)
             (Sample.cfg_no_secret "development")); [left; reflexivity |].
    vm_compute. discriminate.
  - apply (unconfigured_webhook_skips (H := Sample.platform)
             (Sample.cfg_no_secret "production")); [left; reflexivity |].
    reflexivity.
Defined.


Lemma healthy_bookings : bookings_work Sample.healthy.
Proof. by repeat split. Qed.




Lemma booking_upsert_unique_witness :
  let svc := Sample.services (Sample.completed "paid") true in
  let w := run (H := Sample.platform) Sample.cfg_hook (initial [])
             [(svc, Sample.signed "evt_1")] in
  let r := upsertBookingFromSession (H := Sample.platform) svc Sample.healthy
             (Sample.session_of "cs_test_1" "paid") w in
  (exists id, r.1 = Ok id)
  /\ booking_count "cs_test_1" r.2 = 1%nat
  /\ length (bookings r.2) = length (bookings w).
Proof.
  cbv zeta.
  destruct (booking_upsert_unique (H := Sample.platform) Sample.cfg_hook [])
    as (_ & Hrun & Hupsert).
  set (svc := Sample.services (Sample.completed "paid") true).
  set (w := run (H := Sample.platform) Sample.cfg_hook (initial []) _).
  destruct (Hupsert svc Sample.healthy (Sample.session_of "cs_test_1" "paid") w
              "cs_test_1" eq_refl (Hrun _ _ (proj1 (initial_invariants [])))) 
    as (Hok & _ & Hret).
  destruct (Hret healthy_bookings) as [id Hid].
  destruct (Hok id Hid) as (H1 & H2 & _).
  split; [by exists id |]. split; [exact H1 |]. apply H2. reflexivity.
Defined.



(** Two paid-equivalent events for one session, [checkout.session.completed]
    and [payment_intent.succeeded]: one booking row, one e-mail. *)
Example two_events_one_session :
  let w := run (H := Sample.platform) Sample.cfg_hook (initial [])
             [(Sample.services (Sample.completed "paid") true, Sample.signed "evt_1");
              (Sample.services Sample.intent_succeeded true, Sample.signed "evt_2")] in
  booking_count "cs_test_1" w = 1%nat /\ sent_count "cs_test_1" w = 1%nat
  /\ upsert_count w = 2%nat.
Proof. vm_compute. repeat split; reflexivity. Qed.

(** [checkout.session.expired] for a session with no row: nothing to cancel. *)
Example expired_without_booking :
  bookings
    (POST (H := Sample.platform) Sample.cfg_hook
       (Sample.services
          (checkout_session_expired (Sample.session_of "cs_test_9" "unpaid")) true)
       (Sample.signed "evt_3") (initial [])).2 = [].
Proof. reflexivity. Qed.

End WebhookFacts.

(* ===================================================================== *)
(** * Booking creation: validation, gating and what reaches the provider  *)
(* ===================================================================== *)

Module CheckoutMore.
Import Catalog Checkout.

(** What a body that passes the schema satisfies. *)
Lemma Schema_safeParse_bounds `{Platform} (raw : RawPayload) (d : Payload) :
  Schema_safeParse raw = Some d ->
  1 <= quantity d <= 20 /\ ymd_shape (date d) = true
  /\ is_email (email (customer d)) = true
  /\ (currency d = "COP" \/ currency d = "USD").
Proof.
  unfold Schema_safeParse.
  destruct (r_tour raw) as [t |]; cbn; [| discriminate].
  destruct (r_quantity raw) as [q |]; cbn; [| discriminate].
  destruct (r_customer raw) as [c |]; cbn; [| discriminate].
  destruct (r_date raw) as [dt |]; cbn; [| discriminate].
  assert (Hcur : forall cur,
    match r_currency raw with
    | None => Some "COP"
    | Some x => if bool_decide (x = "COP") || bool_decide (x = "USD")
                then Some x else None
    end = Some cur -> cur = "COP" \/ cur = "USD").
  { intros cur. destruct (r_currency raw) as [x |]; [| intros [= <-]; by left].
    destruct (bool_decide (x = "COP")) eqn:H1; cbn.
    - intros [= <-]. left. by apply bool_decide_eq_true_1 in H1.
    - destruct (bool_decide (x = "USD")) eqn:H2; [| discriminate].
      intros [= <-]. right. by apply bool_decide_eq_true_1 in H2. }
  destruct (match r_currency raw with None => _ | Some _ => _ end) as [cur |];
    cbn; [| discriminate].
  specialize (Hcur cur eq_refl).
  match goal with |- context [if ?b then _ else _] => destruct b eqn:Hb end;
    [| discriminate].
  intros [= <-]. cbn.
  rewrite !andb_true_iff in Hb. destruct Hb as (((((_ & Hq1) & Hq2) & Hc) & Hd) & _).
  unfold customer_ok in Hc. rewrite andb_true_iff in Hc.
  split; [lia |]. split; [exact Hd |]. split; [apply Hc | exact Hcur].
Qed.

Lemma ymd_shape_nonempty (s : string) : ymd_shape s = true -> truthy (Some s) = Some s.
Proof. destruct s; [discriminate | reflexivity]. Qed.

Lemma isTodayOrFuture_spec `{Platform} (now d : Z) (ymd : string) :
  ymd_shape ymd = true -> Date_getTime (ymd +:+ "T00:00:00Z") = Some d ->
  isTodayOrFuture now ymd = (utc_midnight now <=? d).
Proof.
  intros Hs Hd. unfold isTodayOrFuture, parseYMD. rewrite Hs, Hd.
  rewrite (ymd_shape_nonempty _ Hs), Hd. reflexivity.
Qed.

Lemma utc_midnight_le (now d : Z) :
  d mod day_ms = 0 -> (utc_midnight now <= d <-> now < d + day_ms).
Proof.
  unfold utc_midnight, day_ms. intros Hd.
  pose proof (Z.mod_pos_bound now 86400000 ltac:(lia)) as Hb.
  pose proof (Z.div_mod now 86400000 ltac:(lia)) as Hn.
  pose proof (Z.div_mod d 86400000 ltac:(lia)) as Hdd.
  rewrite Hd in Hdd. lia.
Qed.

(** X1.  A call reaches the provider only at the end of the handler's checks:
    the body passed the schema, the tour was found in the catalog, the date
    exists and is today or later, the mock switch is off and the provider's
    key is configured; and a request makes one call at most. *)
Theorem provider_called_only_after_checks `{Platform} (cfg : Config)
    (create : SessionCreateParams -> string -> CreateResult) (amb : Ambient)
    (req : Request) (c : CreateCall) :
  c ∈ (POST cfg create amb req).2 ->
  (POST cfg create amb req).2 = [c]
  /\ isStripeMock cfg = false
  /\ is_Some (truthy (process_env cfg !! "STRIPE_SECRET_KEY"))
  /\ exists data resolved,
       Schema_safeParse (default empty_body (json_body req)) = Some data
       /\ resolve (tour data) = Some resolved
       /\ parseYMD (date data) = Some (date data)
       /\ isTodayOrFuture (today_clock amb) (date data) = true.
Proof.
  unfold POST.
  destruct (Schema_safeParse _) as [data |] eqn:Hd; [| by intros ?%elem_of_nil].
  destruct (resolve (tour data)) as [resolved |] eqn:Hr; [| by intros ?%elem_of_nil].
  destruct (negb (bool_decide (is_Some (truthy (parseYMD (date data)))))) eqn:Hp;
    [by intros ?%elem_of_nil |].
  destruct (negb (isTodayOrFuture (today_clock amb) (date data))) eqn:Ht;
    [by intros ?%elem_of_nil |].
  destruct (negb (URL_canParse _ _ && URL_canParse _ _)); [by intros ?%elem_of_nil |].
  destruct (isStripeMock cfg) eqn:Hm; [by intros ?%elem_of_nil |].
  destruct (negb (bool_decide (is_Some (truthy (process_env cfg !! "STRIPE_SECRET_KEY")))))
    eqn:Hk; [by intros ?%elem_of_nil |].
  cbn [orb]. cbn zeta. intros Hc.
  apply negb_false_iff in Hp, Ht, Hk.
  apply bool_decide_eq_true_1 in Hp, Hk.
  assert (Hone : forall (r : Response) (x : CreateCall), c ∈ (r, [x]).2 -> (r, [x]).2 = [c])
    by (intros r x Hx%list_elem_of_singleton; by subst).
  split.
  { destruct (create _ _) as [sid url | e]; [destruct (truthy url) |]; by apply Hone. }
  split; [reflexivity |]. split; [exact Hk |].
  exists data, resolved. split; [reflexivity |]. split; [exact Hr |].
  split; [| exact Ht].
  destruct Hp as [x Hx]. unfold parseYMD in *.
  destruct (ymd_shape (date data)); [| discriminate].
  destruct (Date_getTime _); [reflexivity | discriminate].
Qed.

(** X2.  The date check at its boundary.  A date of the right shape that the
    platform parses to the instant [d] is accepted when [d] is not before
    the UTC midnight of the clock; for a date at a UTC midnight this is
    until the end of that UTC day and not after.  A valid request for a
    known tour whose date is rejected gets 400 and makes no call. *)
Theorem date_accepted_through_its_utc_day `{Platform} (now d : Z) (ymd : string) :
  ymd_shape ymd = true -> Date_getTime (ymd +:+ "T00:00:00Z") = Some d ->
  (isTodayOrFuture now ymd = true <-> utc_midnight now <= d)
  /\ (d mod day_ms = 0 -> (isTodayOrFuture now ymd = true <-> now < d + day_ms))
  /\ (forall cfg create amb req data resolved,
        Schema_safeParse (default empty_body (json_body req)) = Some data ->
        resolve (tour data) = Some resolved ->
        date data = ymd -> today_clock amb = now -> d < utc_midnight now ->
        POST cfg create amb req
        = (json (Error "La fecha debe ser hoy o futura." (reqId amb)) 400
             [("X-Request-ID", reqId amb)], [])).
Proof.
  intros Hs Hd. pose proof (isTodayOrFuture_spec now d ymd Hs Hd) as Heq.
  split; [| split].
  - rewrite Heq. apply Z.leb_le.
  - intros Hmod. rewrite Heq, Z.leb_le. by apply utc_midnight_le.
  - intros cfg create amb req data resolved Hp Hr Hdate Hnow Hlt.
    unfold POST. rewrite Hp, Hr, Hdate, Hnow, Heq.
    unfold parseYMD. rewrite Hs, Hd, (ymd_shape_nonempty _ Hs).
    rewrite bool_decide_eq_true_2 by eauto. cbn [negb].
    replace (utc_midnight now <=? d) with false by (symmetry; apply Z.leb_gt; lia).
    reflexivity.
Qed.

Lemma POST_mock_gate `{Platform} (cfg : Config)
    (create : SessionCreateParams -> string -> CreateResult) (amb : Ambient)
    (req : Request) :
  isStripeMock cfg = true \/ truthy (process_env cfg !! "STRIPE_SECRET_KEY") = None ->
  (POST cfg create amb req).2 = []
  /\ (forall create', POST cfg create' amb req = POST cfg create amb req)
  /\ (status (POST cfg create amb req).1 = 200 ->
      exists data resolved,
        Schema_safeParse (default empty_body (json_body req)) = Some data
        /\ resolve (tour data) = Some resolved
        /\ body (POST cfg create amb req).1
           = Url (URL_toString "/checkout/success" (SITE_URL cfg)
                    [("mock", "1"); ("q", pretty (quantity data));
                     ("tour", slug resolved); ("date", date data)])
               (reqId amb)).
Proof.
  intros Hmock.
  assert (Hgate : isStripeMock cfg
                  || negb (bool_decide (is_Some (truthy (process_env cfg !! "STRIPE_SECRET_KEY"))))
                  = true).
  { destruct Hmock as [-> | ->]; [reflexivity |].
    rewrite bool_decide_eq_false_2 by (intros [x Hx]; discriminate).
    apply orb_true_r. }
  unfold POST.
  destruct (Schema_safeParse _) as [data |] eqn:Hd;
    [| split; [reflexivity | split; [reflexivity | discriminate]]].
  destruct (resolve (tour data)) as [resolved |] eqn:Hr;
    [| split; [reflexivity | split; [reflexivity | discriminate]]].
  destruct (negb (bool_decide (is_Some (truthy (parseYMD (date data))))));
    [split; [reflexivity | split; [reflexivity | discriminate]] |].
  destruct (negb (isTodayOrFuture (today_clock amb) (date data)));
    [split; [reflexivity | split; [reflexivity | discriminate]] |].
  destruct (negb (URL_canParse _ _ && URL_canParse _ _));
    [split; [reflexivity | split; [reflexivity | discriminate]] |].
  rewrite Hgate. cbn zeta.
  split; [reflexivity |]. split; [reflexivity |].
  intros _. exists data, resolved. split; [reflexivity |]. split; [exact Hr | reflexivity].
Qed.

(** X3.  With the mock switch on, or without the provider's key, no request
    reaches the provider, the provider's answers do not matter, and the
    only answer with status 200 is the mock URL (never a session). *)
Theorem mock_mode_never_calls_provider `{Platform} (cfg : Config)
    (create : SessionCreateParams -> string -> CreateResult) (amb : Ambient)
    (req : Request) :
  isStripeMock cfg = true \/ truthy (process_env cfg !! "STRIPE_SECRET_KEY") = None ->
  (POST cfg create amb req).2 = []
  /\ (forall create', POST cfg create' amb req = POST cfg create amb req)
  /\ (status (POST cfg create amb req).1 = 200 ->
      exists data resolved,
        Schema_safeParse (default empty_body (json_body req)) = Some data
        /\ resolve (tour data) = Some resolved
        /\ body (POST cfg create amb req).1
           = Url (URL_toString "/checkout/success" (SITE_URL cfg)
                    [("mock", "1"); ("q", pretty (quantity data));
                     ("tour", slug resolved); ("date", date data)])
               (reqId amb)).
Proof. apply POST_mock_gate. Qed.

(** The variables [serverEnv] holds are those of [process.env]. *)
Lemma parsed_fields_lookup (process_env : gmap string string)
    (fields : list (string * Env.Field)) (k : string) :
  (list_to_map (omap (λ kf : string * Env.Field, (λ v, (kf.1, v)) <$> process_env !! kf.1)
                  fields) : gmap string string) !! k
  = if bool_decide (k ∈ fields.*1) then process_env !! k else None.
Proof.
  induction fields as [| [k' f] fields IH]; [reflexivity |].
  cbn [omap list_omap fmap list_fmap fst].
  destruct (decide (k = k')) as [-> | Hne].
  - rewrite (bool_decide_eq_true_2 (k' ∈ k' :: fields.*1)) by apply list_elem_of_here.
    destruct (process_env !! k') as [v |] eqn:Hv; cbn.
    + by rewrite lookup_insert_eq.
    + rewrite IH. by destruct (bool_decide (k' ∈ fields.*1)).
  - assert (Hiff : bool_decide (k ∈ k' :: fields.*1) = bool_decide (k ∈ fields.*1)).
    { apply bool_decide_ext. rewrite elem_of_cons.
      split; [by intros [Hk | Hk] | by right]. }
    rewrite Hiff.
    destruct (process_env !! k') as [v |] eqn:Hv; cbn.
    + by rewrite lookup_insert_ne.
    + exact IH.
Qed.

Lemma serverEnv_STRIPE_MOCK `{Platform} (process_env : gmap string string) :
  Env.serverEnv process_env !! "STRIPE_MOCK"
  = match Env.safeParse process_env with
    | Some _ => process_env !! "STRIPE_MOCK"
    | None => None
    end.
Proof.
  unfold Env.serverEnv, Env.safeParse.
  destruct (forallb _ _); [| reflexivity].
  cbn [default from_option]. unfold Datatypes.id.
  rewrite lookup_insert_ne by discriminate.
  rewrite parsed_fields_lookup. reflexivity.
Qed.

(** X7.  The mock switch as the deployment sets it.  [STRIPE_MOCK] is read from
    [serverEnv], what [ServerSchema] made of [process.env].  When the
    schema accepts the environment, the variable turns the mock mode on
    when, trimmed and in lower case, it is one of [1], [true], [yes], [on],
    and only then; when the schema rejects any variable, [serverEnv] is
    empty and the switch is off whatever [STRIPE_MOCK] says; without the
    variable the switch is off.  With the switch on, the checkout handler
    makes no call to the provider. *)
Theorem stripe_mock_switch `{Platform} (process_env : gmap string string) :
  let on := Env.isStripeMock (Env.serverEnv process_env) in
  (Env.safeParse process_env = None -> on = false)
  /\ (process_env !! "STRIPE_MOCK" = None -> on = false)
  /\ (forall v, is_Some (Env.safeParse process_env) ->
                process_env !! "STRIPE_MOCK" = Some v ->
      (on = true
       <-> toLowerCase (trim v) = "1" \/ toLowerCase (trim v) = "true"
           \/ toLowerCase (trim v) = "yes" \/ toLowerCase (trim v) = "on"))
  /\ (on = true ->
      forall create amb req,
        (POST (Env.checkout_config process_env) create amb req).2 = []).
Proof.
  cbv zeta. unfold Env.isStripeMock. rewrite serverEnv_STRIPE_MOCK.
  split; [| split; [| split]].
  - intros ->. reflexivity.
  - intros ->. by destruct (Env.safeParse process_env).
  - intros v [m ->] ->. unfold Env.boolEnv. rewrite bool_decide_eq_true. unfold Env.TRUEY.
    rewrite !elem_of_cons, elem_of_nil. tauto.
  - intros Hmock create amb req.
    apply (POST_mock_gate (Env.checkout_config process_env)). left.
    unfold Env.checkout_config, Env.isStripeMock. cbn.
    rewrite serverEnv_STRIPE_MOCK. exact Hmock.
Qed.

Lemma unitAmountCents_floor `{Platform} (env : gmap string string) (t : Tour) :
  unitAmountCents env t <> Int 0
  /\ forall n, unitAmountCents env t = Int n -> 1 <= n.
Proof.
  unfold unitAmountCents, copToUsdCents.
  destruct (bool_decide _); apply CheckoutFacts.Math_max_1_floor.
Qed.

(** X4.  What the provider is asked to charge.  Every call carries one line, in
    USD, for between 1 and 20 units, with a unit amount that is never 0
    (at least 1 when it is an integer) and comes from a tour of the
    catalog; the session is a one-off payment for the e-mail address the
    schema accepted, and the payment intent carries the session's
    metadata. *)
Theorem provider_line_item_bounds `{Platform} (cfg : Config)
    (create : SessionCreateParams -> string -> CreateResult) (amb : Ambient)
    (req : Request) (c : CreateCall) :
  c ∈ (POST cfg create amb req).2 ->
  exists li t,
    line_items (params c) = [li]
    /\ 1 <= li_quantity li <= 20
    /\ li_currency li = "usd"
    /\ t ∈ TOURS /\ li_name li = title t
    /\ li_unit_amount li = unitAmountCents (process_env cfg) t
    /\ li_unit_amount li <> Int 0
    /\ (forall n, li_unit_amount li = Int n -> 1 <= n)
    /\ mode (params c) = "payment"
    /\ is_email (customer_email (params c)) = true
    /\ payment_intent_metadata (params c) = metadata (params c)
    /\ metadata (params c) !! 3%nat = Some ("tour_slug", slug t).
Proof.
  intros Hc.
  destruct (CheckoutFacts.POST_unit_amount _ _ _ _ _ Hc) as (data & resolved & Hd & Hr & ->).
  destruct (Schema_safeParse_bounds _ _ Hd) as (Hq & _ & Hmail & _).
  destruct (unitAmountCents_floor (process_env cfg) resolved) as [Hnz Hge].
  eexists _, resolved. cbn.
  split; [reflexivity |]. split; [exact Hq |]. split; [reflexivity |].
  split; [eapply CheckoutFacts.resolve_in_catalog, Hr |].
  repeat (split; [done |]). done.
Qed.

Lemma ltb_leb (x y : float) : PrimFloat.ltb x y = true -> PrimFloat.leb x y = true.
Proof.
  rewrite FloatAxioms.ltb_spec, FloatAxioms.leb_spec. unfold SFltb, SFleb.
  destruct (SFcompare _ _) as [[] |]; congruence.
Qed.

(** X5.  The lifetime of a session in minutes is [Math.max(15, Math.min(60, n))]
    for the configured number [n], 24 when none is configured: it lies
    between 15 and 60 unless the configured text is not a number, in which
    case it is [NaN], and so is the expiry sent to the provider. *)
Theorem expireMinutes_clamped `{Platform} (env : gmap string string) :
  (truthy (env !! "STRIPE_SESSION_EXPIRES_MIN") = None ->
   expireMinutes env = 24%float)
  /\ (forall s, truthy (env !! "STRIPE_SESSION_EXPIRES_MIN") = Some s ->
      if PrimFloat.is_nan (Number s)
      then PrimFloat.is_nan (expireMinutes env) = true
           /\ forall now, PrimFloat.is_nan (expires_at_of env now) = true
      else PrimFloat.leb 15 (expireMinutes env) = true
           /\ PrimFloat.leb (expireMinutes env) 60 = true
           /\ (PrimFloat.ltb 15 (Number s) = true ->
               PrimFloat.ltb (Number s) 60 = true ->
               expireMinutes env = Number s)).
Proof.
  unfold expires_at_of, expireMinutes. split.
  - intros ->. reflexivity.
  - intros s ->. unfold fmax, fmin.
    change (PrimFloat.is_nan 60) with false. change (PrimFloat.is_nan 15) with false.
    cbn [orb].
    destruct (PrimFloat.is_nan (Number s)) eqn:Hnan.
    + split; [reflexivity |]. intros now.
      change (PrimFloat.is_nan PrimFloat.nan) with true. cbn [orb].
      change (PrimFloat.nan * 60)%float with PrimFloat.nan.
      unfold PrimFloat.is_nan. rewrite FloatAxioms.eqb_spec, FloatAxioms.add_spec.
      change (Prim2SF PrimFloat.nan) with S754_nan.
      destruct (Prim2SF (of_Z (now / 1000))) as [[] | [] | | ? ? ?]; reflexivity.
    + destruct (PrimFloat.ltb (Number s) 60) eqn:H60.
      * rewrite Hnan. destruct (PrimFloat.ltb 15 (Number s)) eqn:H15.
        -- split; [by apply ltb_leb |]. split; [by apply ltb_leb | done].
        -- split; [reflexivity |]. split; [reflexivity | discriminate].
      * change (PrimFloat.is_nan 60) with false.
        change (PrimFloat.ltb 15 60) with true. cbn iota.
        split; [reflexivity |]. split; [reflexivity |]. intros _. discriminate.
Qed.

Lemma lookup_by_key_NoDup {A} (f : A -> string) (l : list A) (x : A) :
  NoDup (f <$> l) -> x ∈ l ->
  (list_to_map (reverse ((λ t, (f t, t)) <$> l)) : gmap string A) !! f x = Some x.
Proof.
  intros Hnd Hx. apply elem_of_list_to_map_1.
  - rewrite fmap_reverse, <- list_fmap_compose, reverse_Permutation. exact Hnd.
  - rewrite elem_of_reverse. apply list_elem_of_fmap. by exists x.
Qed.

(** X6.  The lookup by slug ignores letter case: when the catalog's slugs are
    distinct in lower case, a text that equals the slug of a tour up to
    letter case finds that tour, and so does the handler's resolution,
    whatever title the request carries. *)
Theorem getTourBySlug_case_insensitive `{Platform} (t : Tour) (s : string)
    (ti sh : option string) (p : option Z) :
  NoDup ((λ t, toLowerCase (slug t)) <$> TOURS) ->
  t ∈ TOURS -> s <> "" -> toLowerCase s = toLowerCase (slug t) ->
  getTourBySlug (Some s) = Some t
  /\ resolve {| t_slug := Some s; t_title := ti; t_short := sh; t_price := p |} = Some t.
Proof.
  intros Hnd Ht Hs Heq.
  assert (Hget : getTourBySlug (Some s) = Some t).
  { unfold getTourBySlug. destruct s; [done |]. cbn [truthy].
    rewrite Heq. unfold TOURS_BY_SLUG.
    by apply (lookup_by_key_NoDup (λ t, toLowerCase (slug t))). }
  split; [exact Hget |]. unfold resolve. cbn [t_slug]. by rewrite Hget.
Qed.

Lemma provider_called_only_after_checks_witness :
  let r := POST (H := Sample.platform) Sample.cfg_live Sample.always_created
             (Sample.amb "r1" Sample.t0) (Sample.req_coffee None "ana@example.com") in
  exists c, r.2 = [c] /\ isStripeMock Sample.cfg_live = false.
Proof.
  cbv zeta.
  destruct (CheckoutFacts.POST_calls (H := Sample.platform) Sample.cfg_live
              Sample.always_created (Sample.amb "r1" Sample.t0)
              (Sample.req_coffee None "ana@example.com")) as [H0 | [c Hc]];
    [vm_compute in H0; discriminate |].
  exists c.
  destruct (provider_called_only_after_checks (H := Sample.platform) Sample.cfg_live
              Sample.always_created (Sample.amb "r1" Sample.t0)
              (Sample.req_coffee None "ana@example.com") c) as (H1 & H2 & _).
  - rewrite Hc. apply list_elem_of_singleton. reflexivity.
  - split; [exact H1 | exact H2].
Defined.

Lemma date_accepted_through_its_utc_day_witness :
  (isTodayOrFuture (H := Sample.platform) Sample.t1 "2026-11-02" = true
   <-> Sample.t1 < Sample.t0 + day_ms)
  /\ (isTodayOrFuture (H := Sample.platform) (Sample.t0 + day_ms) "2026-11-02" = true
      <-> Sample.t0 + day_ms < Sample.t0 + day_ms).
Proof.
  split.
  - apply (date_accepted_through_its_utc_day (H := Sample.platform) Sample.t1 Sample.t0
             "2026-11-02" eq_refl eq_refl). reflexivity.
  - apply (date_accepted_through_its_utc_day (H := Sample.platform)
             (Sample.t0 + day_ms) Sample.t0 "2026-11-02" eq_refl eq_refl). reflexivity.
Defined.

Lemma mock_mode_never_calls_provider_witness :
  (POST (H := Sample.platform) Sample.cfg_mock Sample.always_created
     (Sample.amb "r1" Sample.t0) (Sample.req_coffee None "ana@example.com")).2 = [].
Proof.
  apply (mock_mode_never_calls_provider (H := Sample.platform) Sample.cfg_mock
           Sample.always_created (Sample.amb "r1" Sample.t0)
           (Sample.req_coffee None "ana@example.com")).
  left. reflexivity.
Defined.

Lemma provider_line_item_bounds_witness :
  exists c li,
    (POST (H := Sample.platform) Sample.cfg_live Sample.always_created
       (Sample.amb "r1" Sample.t0) (Sample.req_coffee (Some 1) "ana@example.com")).2 = [c]
    /\ line_items (params c) = [li] /\ 1 <= li_quantity li <= 20
    /\ li_unit_amount li <> Int 0.
Proof.
  destruct (CheckoutFacts.POST_calls (H := Sample.platform) Sample.cfg_live
              Sample.always_created (Sample.amb "r1" Sample.t0)
              (Sample.req_coffee (Some 1) "ana@example.com")) as [H0 | [c Hc]];
    [vm_compute in H0; discriminate |].
  destruct (provider_line_item_bounds (H := Sample.platform) Sample.cfg_live
              Sample.always_created (Sample.amb "r1" Sample.t0)
              (Sample.req_coffee (Some 1) "ana@example.com") c)
    as (li & t & Hli & Hq & _ & _ & _ & _ & Hnz & _).
  - rewrite Hc. apply list_elem_of_singleton. reflexivity.
  - exists c, li. split; [exact Hc |]. split; [exact Hli | split; [exact Hq | exact Hnz]].
Defined.

Lemma expireMinutes_clamped_witness :
  expireMinutes (H := Sample.platform) ∅ = 24%float
  /\ PrimFloat.leb (expireMinutes (H := Sample.platform)
                      (<["STRIPE_SESSION_EXPIRES_MIN" := "600"]> ∅)) 60 = true.
Proof.
  pose proof (expireMinutes_clamped (H := Sample.platform) ∅) as [H0 _].
  pose proof (expireMinutes_clamped (H := Sample.platform)
                (<["STRIPE_SESSION_EXPIRES_MIN" := "600"]> ∅)) as [_ H1].
  split; [apply H0; reflexivity |].
  specialize (H1 "600" eq_refl). cbn in H1. apply H1.
Defined.

Lemma getTourBySlug_case_insensitive_witness :
  getTourBySlug (H := Sample.platform) (Some "GUATAPE-Day-Trip")
  = TOURS !! 2%nat.
Proof.
  refine (proj1 (getTourBySlug_case_insensitive (H := Sample.platform)
                   _ "GUATAPE-Day-Trip" None None None _ _ _ _)).
  - apply (bool_decide_unpack _). vm_compute. exact I.
  - apply (list_elem_of_lookup_2 _ 2%nat). reflexivity.
  - discriminate.
  - reflexivity.
Defined.

Lemma stripe_mock_switch_witness :
  let env := <["STRIPE_MOCK" := " TRUE "]> (Checkout.process_env Sample.cfg_live) in
  Env.isStripeMock (H := Sample.platform) (Env.serverEnv (H := Sample.platform) env) = true
  /\ (POST (H := Sample.platform) (Env.checkout_config (H := Sample.platform) env)
        Sample.always_created (Sample.amb "r1" Sample.t0)
        (Sample.req_coffee None "ana@example.com")).2 = [].
Proof.
  cbv zeta.
  destruct (stripe_mock_switch (H := Sample.platform)
              (<["STRIPE_MOCK" := " TRUE "]> (Checkout.process_env Sample.cfg_live)))
    as (_ & _ & H2 & H3).
  assert (Hon : Env.isStripeMock (H := Sample.platform)
                  (Env.serverEnv (H := Sample.platform)
                     (<["STRIPE_MOCK" := " TRUE "]> (Checkout.process_env Sample.cfg_live)))
                = true).
  { apply (H2 " TRUE "); [vm_compute; eauto | reflexivity |]. right. left. reflexivity. }
  split; [exact Hon |]. apply (H3 Hon).
Defined.

(** One variable the schema rejects, here a site URL that is no URL, and
    [STRIPE_MOCK=1] is not seen: the handler calls the provider. *)
Example mock_switch_lost_with_invalid_env :
  let env := <["NEXT_PUBLIC_SITE_URL" := "kce.travel"]>
               (<["STRIPE_MOCK" := "1"]> (Checkout.process_env Sample.cfg_live)) in
  Env.isStripeMock (H := Sample.platform) (Env.serverEnv (H := Sample.platform) env) = false
  /\ length (POST (H := Sample.platform) (Env.checkout_config (H := Sample.platform) env)
               Sample.always_created (Sample.amb "r1" Sample.t0)
               (Sample.req_coffee None "ana@example.com")).2 = 1%nat.
Proof. vm_compute. split; reflexivity. Qed.

End CheckoutMore.

(* ===================================================================== *)
(** * Derived settings                                                    *)
(* ===================================================================== *)

Module EnvFacts.
Import Env.

Lemma list_ascii_of_string_app (a b : string) :
  list_ascii_of_string (a +:+ b) = list_ascii_of_string a ++ list_ascii_of_string b.
Proof. induction a as [| c a IH]; simpl; [reflexivity | by rewrite IH]. Qed.

Lemma take_fmap_app_eq {A B} (f : A -> B) (n : nat) (l x : list A) (p : list B) :
  length p = n -> take n (f <$> l) = p -> take n (f <$> (l ++ x)) = p.
Proof.
  intros Hp Ht. rewrite fmap_app, take_app_le; [exact Ht |].
  apply (f_equal length) in Ht. rewrite length_take in Ht. lia.
Qed.

Lemma has_protocol_app (u x : string) :
  has_protocol u = true -> has_protocol (u +:+ x) = true.
Proof.
  unfold has_protocol. cbv zeta. rewrite list_ascii_of_string_app.
  intros [H7 | H8]%orb_true_iff; apply orb_true_iff; [left | right];
    apply bool_decide_eq_true_1 in H7 || apply bool_decide_eq_true_1 in H8;
    apply bool_decide_eq_true_2; by apply take_fmap_app_eq.
Qed.

Lemma has_protocol_nonempty (u : string) :
  has_protocol u = true -> truthy (Some u) = Some u.
Proof. destruct u; [discriminate | reflexivity]. Qed.

(** X18.  [ensureProtocol] gives every text but the empty one a protocol, leaves
    a text that has one ([http://] or [https://], in any letter case) as
    it is, and so changes nothing when applied again; the site URL taken
    from [VERCEL_URL] therefore always has a protocol. *)
Theorem ensureProtocol_idempotent (u : string) :
  (u <> "" -> has_protocol (ensureProtocol u) = true)
  /\ (has_protocol u = true -> ensureProtocol u = u)
  /\ ensureProtocol (ensureProtocol u) = ensureProtocol u
  /\ (forall (H : Platform) (serverEnv : gmap string string) (v : string),
        truthy (trim <$> serverEnv !! "NEXT_PUBLIC_SITE_URL") = None ->
        truthy (serverEnv !! "VERCEL_URL") = Some v -> trim v = u -> u <> "" ->
        computedSiteUrl serverEnv = ensureProtocol u
        /\ has_protocol (computedSiteUrl serverEnv) = true).
Proof.
  assert (H1 : u <> "" -> has_protocol (ensureProtocol u) = true).
  { intros Hu. unfold ensureProtocol. destruct u as [| c u]; [done |]. cbn [truthy].
    destruct (has_protocol (String c u)) eqn:Hp; [exact Hp | reflexivity]. }
  assert (H2 : forall x, has_protocol x = true -> ensureProtocol x = x).
  { intros x Hp. unfold ensureProtocol. rewrite Hp. by destruct (truthy (Some x)). }
  split; [exact H1 |]. split; [apply H2 |]. split.
  - destruct (decide (u = "")) as [-> | Hu]; [reflexivity |]. by apply H2, H1.
  - intros H serverEnv v Hsite Hv Htrim Hu. unfold computedSiteUrl.
    rewrite Hsite, Hv, Htrim.
    assert (Hne : truthy (Some (ensureProtocol u)) = Some (ensureProtocol u))
      by (apply has_protocol_nonempty, H1, Hu).
    rewrite Hne. split; [reflexivity | by apply H1].
Qed.

(** X19.  [absUrl] over a site URL that has a protocol always returns an absolute
    URL: a path that is one already is returned as it is, any other is put
    after the site URL with one slash between; applying it again changes
    nothing. *)
Theorem absUrl_is_absolute (site path : string) :
  has_protocol site = true ->
  has_protocol (absUrl site path) = true
  /\ absUrl site (absUrl site path) = absUrl site path
  /\ (has_protocol path = true -> absUrl site path = path)
  /\ (path <> "" -> has_protocol path = false ->
      exists rest, absUrl site path = site +:+ "/" +:+ rest
                   /\ (path = rest \/ path = "/" +:+ rest)).
Proof.
  intros Hs.
  assert (Hfix : forall x, has_protocol x = true -> absUrl site x = x).
  { intros x Hx. unfold absUrl. rewrite Hx. by destruct x. }
  assert (Habs : has_protocol (absUrl site path) = true).
  { unfold absUrl. destruct (truthy (Some path)); [| exact Hs].
    destruct (has_protocol path) eqn:Hp; [exact Hp |]. by apply has_protocol_app. }
  split; [exact Habs |]. split; [by apply Hfix |]. split; [apply Hfix |].
  intros Hne Hp. unfold absUrl. rewrite Hp.
  destruct path as [| c path]; [done |]. cbn [truthy].
  destruct (String.prefix "/" (String c path)) eqn:Hpre.
  - change (String.prefix "/" (String c path))
      with (match Ascii.ascii_dec "/" c with
            | left _ => String.prefix "" path
            | right _ => false
            end) in Hpre.
    destruct (Ascii.ascii_dec "/" c) as [<- |]; [| discriminate].
    exists path. split; [reflexivity | by right].
  - exists (String c path). split; [reflexivity | by left].
Qed.

Lemma ensureProtocol_idempotent_witness :
  has_protocol (ensureProtocol "kce.vercel.app") = true
  /\ ensureProtocol "HTTPS://kce.travel" = "HTTPS://kce.travel".
Proof.
  split.
  - destruct (ensureProtocol_idempotent "kce.vercel.app") as (H1 & _).
    apply H1. discriminate.
  - destruct (ensureProtocol_idempotent "HTTPS://kce.travel") as (_ & H2 & _).
    apply H2. reflexivity.
Defined.

Lemma absUrl_is_absolute_witness :
  absUrl "https://kce.travel" (absUrl "https://kce.travel" "tours")
  = absUrl "https://kce.travel" "tours".
Proof.
  destruct (absUrl_is_absolute "https://kce.travel" "tours" eq_refl) as (_ & H2 & _).
  exact H2.
Defined.

End EnvFacts.

(* ===================================================================== *)
(** * The invoice download                                                *)
(* ===================================================================== *)

Module InvoiceRouteFacts.
Import InvoiceRoute.

Lemma underscore_is_filename_char : is_filename_char "_" = true.
Proof. reflexivity. Qed.

Lemma underscore_runs_chars (b : bool) (l : list ascii) :
  Forall (λ c, is_filename_char c = true) (underscore_runs b l).
Proof.
  revert b. induction l as [| c r IH]; intros b; cbn; [constructor |].
  destruct (is_filename_char c) eqn:Hc; [constructor; [exact Hc | apply IH] |].
  destruct b; [apply IH | constructor; [reflexivity | apply IH]].
Qed.

Lemma is_filename_char_no_quote (c : ascii) :
  is_filename_char c = true ->
  c <> "034"%char /\ c <> "010"%char /\ c <> "013"%char
  /\ c <> "\"%char /\ c <> "/"%char /\ c <> ";"%char.
Proof.
  intros Hc. repeat split; intros ->; vm_compute in Hc; discriminate.
Qed.

(** X20.  The file name written into [Content-Disposition] is never empty, has
    120 characters at most and holds only letters, digits, [_ . - ( )] and
    spaces: no quote, no backslash, no slash, no semicolon and no line
    break can reach the header. *)
Theorem sanitizeFilename_safe (name : string) :
  let l := list_ascii_of_string (sanitizeFilename name) in
  l <> [] /\ (length l <= 120)%nat
  /\ Forall (λ c, is_filename_char c = true) l
  /\ Forall (λ c, c <> "034"%char /\ c <> "010"%char /\ c <> "013"%char
                  /\ c <> "\"%char /\ c <> "/"%char /\ c <> ";"%char) l.
Proof.
  cbv zeta.
  assert (Hmain : list_ascii_of_string (sanitizeFilename name) <> []
                  /\ (length (list_ascii_of_string (sanitizeFilename name)) <= 120)%nat
                  /\ Forall (λ c, is_filename_char c = true)
                       (list_ascii_of_string (sanitizeFilename name))).
  { unfold sanitizeFilename, or_str.
    set (t := take 120 (underscore_runs false (list_ascii_of_string name))).
    assert (Hlen : (length t <= 120)%nat) by (subst t; rewrite length_take; lia).
    assert (Hall : Forall (λ c, is_filename_char c = true) t)
      by (subst t; apply Forall_take, underscore_runs_chars).
    destruct t as [| c t]; cbn [string_of_list_ascii truthy default from_option id].
    - split; [discriminate |]. split; [cbn; lia |].
      repeat constructor.
    - change (String c (string_of_list_ascii t))
        with (string_of_list_ascii (c :: t)).
      rewrite list_ascii_of_string_of_list_ascii.
      split; [discriminate |]. split; [exact Hlen | exact Hall]. }
  destruct Hmain as (H1 & H2 & H3).
  split; [exact H1 |]. split; [exact H2 |]. split; [exact H3 |].
  eapply Forall_impl; [exact H3 |]. intros c. apply is_filename_char_no_quote.
Qed.

(** X21.  The ids that count as placeholders.  An id that, trimmed, is a text in
    braces on one line (as [{CHECKOUT_SESSION_ID}], the provider's template
    before it is filled in) or is empty is a placeholder; an id that,
    trimmed, starts with anything but a brace, as the provider's own ids
    do, is not. *)
Theorem placeholder_ids `{Platform} (id : option string) (v : string) :
  trim (or_str id "") = v ->
  (v = "" -> isStripePlaceholderSession id = true)
  /\ (forall mid, mid <> [] -> has_line_terminator mid = false ->
      list_ascii_of_string v = "{"%char :: mid ++ ["}"%char] ->
      isStripePlaceholderSession id = true)
  /\ (forall c rest, list_ascii_of_string v = c :: rest -> c <> "{"%char ->
      isStripePlaceholderSession id = false).
Proof.
  intros Hv. unfold isStripePlaceholderSession. cbv zeta. rewrite Hv.
  split; [| split].
  - intros ->. reflexivity.
  - intros mid Hmid Hlt Hl. apply orb_true_iff. right.
    unfold in_braces. rewrite Hl. rewrite bool_decide_eq_true_2 by reflexivity.
    rewrite reverse_app.
    change (reverse ["}"%char]) with ["}"%char]. cbn [app].
    rewrite bool_decide_eq_true_2 by reflexivity.
    rewrite reverse_involutive, Hlt.
    rewrite bool_decide_eq_false_2; [reflexivity |].
    intros Hr. apply Hmid. apply (f_equal reverse) in Hr.
    by rewrite reverse_involutive in Hr.
  - intros c rest Hl Hc.
    assert (Hne : v <> "") by (intros ->; discriminate).
    assert (Hph : v <> "{CHECKOUT_SESSION_ID}").
    { intros ->. cbn in Hl. injection Hl as <- _. done. }
    rewrite (bool_decide_eq_false_2 _ Hne), (bool_decide_eq_false_2 _ Hph).
    unfold in_braces. rewrite Hl. by rewrite (bool_decide_eq_false_2 _ Hc).
Qed.

Lemma placeholder_ids_witness :
  isStripePlaceholderSession (H := Sample.platform) (Some " {SESSION} ") = true
  /\ isStripePlaceholderSession (H := Sample.platform) (Some "cs_test_a1B2") = false.
Proof.
  split.
  - destruct (placeholder_ids (H := Sample.platform) (Some " {SESSION} ") "{SESSION}"
                eq_refl) as (_ & H2 & _).
    apply (H2 (list_ascii_of_string "SESSION")); [discriminate | reflexivity | reflexivity].
  - destruct (placeholder_ids (H := Sample.platform) (Some "cs_test_a1B2") "cs_test_a1B2"
                eq_refl) as (_ & _ & H3).
    eapply H3; [reflexivity | discriminate].
Defined.

(** X22.  The route asks the provider for one session at most, the one named in
    the path, and for none without the provider's key or when the id is
    empty or a placeholder in braces (400); an unknown session is 404, a
    document that cannot be built 500; and an answer 200 carries the bytes
    [buildInvoicePdf] returned for the retrieved session (its id as booking
    id, its total, currency and tour title, the site URL, the QR link to
    its booking page), with their length, the session id, and the file
    name [buildInvoiceFileName] gave, sanitized, between the quotes of
    [Content-Disposition]. *)
Theorem invoice_download_outcomes `{Platform} (cfg : Webhook.Config) (svc : Services)
    (req : Request) :
  let r := GET cfg svc req in
  (r.2 = [] \/ r.2 = [session_id req])
  /\ (truthy (Webhook.process_env cfg !! "STRIPE_SECRET_KEY") = None ->
      r.2 = [] /\ exists resp, r.1 = Webhook.Ok resp /\ status resp = 500)
  /\ (truthy (Webhook.process_env cfg !! "STRIPE_SECRET_KEY") <> None ->
      isStripePlaceholderSession (Some (session_id req)) = true ->
      r.2 = [] /\ exists resp, r.1 = Webhook.Ok resp /\ status resp = 400)
  /\ (forall e, sessions_retrieve svc (session_id req) = Webhook.Throw e ->
      forall resp, r.1 = Webhook.Ok resp -> status resp <> 200)
  /\ (forall resp, r.1 = Webhook.Ok resp -> status resp = 200 ->
      exists session createdISO input options bytes disposition,
        sessions_retrieve svc (session_id req) = Webhook.Ok session
        /\ r.2 = [session_id req]
        /\ Date_toISOString (default (now_s svc) (Webhook.created session) * 1000)
           = Some createdISO
        /\ buildInvoicePdf svc input options = Webhook.Ok bytes
        /\ bookingId input = Webhook.s_id session
        /\ createdAtISO input = createdISO
        /\ totalMinor input = Webhook.amount_total session
        /\ currency input = toUpperCase (or_str (Webhook.s_currency session) "usd")
        /\ tourTitle input
           = or_str (default ∅ (Webhook.s_metadata session) !! "tour_title") "Tour KCE"
        /\ siteUrl input = Webhook.BASE_URL cfg
        /\ Webhook.qrUrl options
           = Webhook.BASE_URL cfg +:+ "/booking/"
             +:+ encodeURIComponent (Webhook.s_id session)
        /\ body resp = Pdf bytes
        /\ (disposition = "attachment" \/ disposition = "inline")
        /\ ("Content-Disposition",
            disposition +:+ "; filename=" +:+ dquote
            +:+ sanitizeFilename (buildInvoiceFileName svc (tourTitle input) createdISO)
            +:+ dquote)
           ∈ headers resp
        /\ ("Content-Length", pretty (String.length bytes)) ∈ headers resp
        /\ ("X-Invoice-Session", Webhook.s_id session) ∈ headers resp).
Proof.
  cbv zeta.
  assert (Hst : forall rid error st, status (problem req rid error st) = st)
    by (intros; unfold problem; by destruct (wantsJson req)).
  unfold GET. cbv zeta.
  destruct (truthy (Webhook.process_env cfg !! "STRIPE_SECRET_KEY")) as [k |] eqn:Hk.
  2: { cbn. split; [by left |]. split; [intros _; split; [done | eauto] |].
       split; [done |]. split.
       - intros e _ resp [= <-]. by rewrite Hst.
       - intros resp [= <-]. by rewrite Hst. }
  destruct (isStripePlaceholderSession (Some (session_id req))) eqn:Hph.
  { cbn. split; [by left |]. split; [discriminate |].
    split; [intros _ _; split; [done | eauto] |]. split.
    - intros e _ resp [= <-]. by rewrite Hst.
    - intros resp [= <-]. by rewrite Hst. }
  destruct (sessions_retrieve svc (session_id req)) as [session | e0] eqn:Hret.
  2: { cbn. split; [by right |]. split; [discriminate |]. split; [discriminate |].
       split.
       - intros e _ resp [= <-]. by rewrite Hst.
       - intros resp [= <-]. by rewrite Hst. }
  destruct (Date_toISOString _) as [iso |] eqn:Hiso.
  2: { cbn. split; [by right |]. split; [discriminate |]. split; [discriminate |].
       split; [discriminate | discriminate]. }
  match goal with |- context [buildInvoicePdf svc ?i ?o] =>
    destruct (buildInvoicePdf svc i o) as [bytes | e1] eqn:Hpdf end.
  2: { cbn. split; [by right |]. split; [discriminate |]. split; [discriminate |].
       split; [discriminate |]. intros resp [= <-]. by rewrite Hst. }
  cbn. split; [by right |]. split; [discriminate |]. split; [discriminate |].
  split; [discriminate |].
  intros resp [= <-] _. cbn.
  eexists session, iso, _, _, bytes, _.
  split; [reflexivity |]. split; [reflexivity |]. split; [exact Hiso |].
  split; [exact Hpdf |]. cbn.
  do 7 (split; [reflexivity |]). split; [reflexivity |].
  split; [| split; [| split]].
  2: { do 3 apply list_elem_of_further. apply list_elem_of_here. }
  - match goal with |- context [if ?b then _ else _] => destruct b end; [by left | by right].
  - do 2 apply list_elem_of_further. apply list_elem_of_here.
  - do 4 apply list_elem_of_further. apply list_elem_of_here.
Qed.

Lemma sanitizeFilename_safe_witness :
  sanitizeFilename "Factura: Bogota/2030.pdf" = "Factura_ Bogota_2030.pdf"
  /\ (length (list_ascii_of_string (sanitizeFilename "Factura: Bogota/2030.pdf")) <= 120)%nat
  /\ sanitizeFilename "" = "archivo.pdf".
Proof.
  split; [reflexivity |]. split; [| reflexivity].
  apply (sanitizeFilename_safe "Factura: Bogota/2030.pdf").
Defined.

Lemma invoice_download_outcomes_witness :
  let r := GET (H := Sample.platform) Sample.cfg_hook Sample.invoice_services
             (Sample.invoice_request " {CHECKOUT_SESSION_ID} ") in
  let r' := GET (H := Sample.platform) Sample.cfg_hook Sample.invoice_services
              (Sample.invoice_request "cs_test_1") in
  (r.2 = [] /\ exists resp, r.1 = Webhook.Ok resp /\ status resp = 400)
  /\ exists resp input options,
       r'.1 = Webhook.Ok resp
       /\ buildInvoicePdf Sample.invoice_services input options = Webhook.Ok "%PDF-1.7"
       /\ bookingId input = "cs_test_1"
       /\ body resp = Pdf "%PDF-1.7".
Proof.
  cbv zeta. split.
  - destruct (invoice_download_outcomes (H := Sample.platform) Sample.cfg_hook
                Sample.invoice_services (Sample.invoice_request " {CHECKOUT_SESSION_ID} "))
      as (_ & _ & H3 & _).
    apply H3; [discriminate | reflexivity].
  - destruct (invoice_download_outcomes (H := Sample.platform) Sample.cfg_hook
                Sample.invoice_services (Sample.invoice_request "cs_test_1"))
      as (_ & _ & _ & _ & H5).
    assert (Hg : exists resp,
               (GET (H := Sample.platform) Sample.cfg_hook Sample.invoice_services
                  (Sample.invoice_request "cs_test_1")).1 = Webhook.Ok resp
               /\ status resp = 200)
      by (eexists; split; reflexivity).
    destruct Hg as (resp & Hr & Hst).
    destruct (H5 resp Hr Hst)
      as (session & iso & input & options & bytes & disposition & Hs & _ & _ & Hpdf
          & Hid & _ & _ & _ & _ & _ & _ & Hbody & _).
    exists resp, input, options. split; [exact Hr |].
    injection Hs as <-.
    assert (Hb : bytes = "%PDF-1.7") by (cbn in Hpdf; congruence).
    subst bytes. split; [exact Hpdf |]. split; [exact Hid | exact Hbody].
Defined.

(** A download: the file name of the renderer, sanitized, between quotes. *)
Example invoice_download_header :
  (λ resp, (status resp, headers resp !! 3%nat))
    <$> (match (GET (H := Sample.platform) Sample.cfg_hook Sample.invoice_services
                  (Sample.invoice_request "cs_test_1")).1 with
         | Webhook.Ok resp => Some resp
         | Webhook.Throw _ => None
         end)
  = Some (200,
          Some ("Content-Disposition",
                "attachment; filename=" +:+ dquote
                +:+ "Factura_ Bogota Coffee Culture_2030.pdf" +:+ dquote)).
Proof. reflexivity. Qed.

End InvoiceRouteFacts.

(* ===================================================================== *)
(** * Sending the confirmation again                                      *)
(* ===================================================================== *)

Module ConfirmationFacts.
Import Webhook Confirmation.

Lemma escape_char_safe (c : ascii) :
  Forall (λ x, x <> "<"%char /\ x <> ">"%char /\ x <> "034"%char /\ x <> "'"%char)
    (escape_char c).
Proof.
  unfold escape_char.
  repeat (match goal with |- context [bool_decide ?P] =>
            destruct (bool_decide P) eqn:?H end;
          [repeat constructor; discriminate |]).
  repeat constructor; intros ->;
    match goal with H : bool_decide (?x = ?x) = false |- _ =>
      by rewrite bool_decide_eq_true_2 in H end.
Qed.

Lemma escape_char_plain (c : ascii) :
  c <> "&"%char -> c <> "<"%char -> c <> ">"%char -> c <> "034"%char ->
  c <> "'"%char -> escape_char c = [c].
Proof.
  intros. unfold escape_char.
  rewrite !bool_decide_eq_false_2 by assumption. reflexivity.
Qed.

(** X23.  [escapeHtml] leaves no angle bracket and no quote in its result, and
    it returns a text that has none of the five characters as it is. *)
Theorem escapeHtml_safe (s : string) :
  Forall (λ x, x <> "<"%char /\ x <> ">"%char /\ x <> "034"%char /\ x <> "'"%char)
    (list_ascii_of_string (escapeHtml s))
  /\ (Forall (λ c, c <> "&"%char /\ c <> "<"%char /\ c <> ">"%char
                   /\ c <> "034"%char /\ c <> "'"%char)
        (list_ascii_of_string s) ->
      escapeHtml s = s).
Proof.
  unfold escapeHtml. rewrite list_ascii_of_string_of_list_ascii. split.
  - induction (list_ascii_of_string s) as [| c l IH]; cbn; [constructor |].
    apply Forall_app. split; [apply escape_char_safe | exact IH].
  - intros Hall. rewrite <- (string_of_list_ascii_of_string s) at 2. f_equal.
    induction Hall as [| c l (H1 & H2 & H3 & H4 & H5) _ IH]; cbn; [reflexivity |].
    by rewrite escape_char_plain, IH.
Qed.

(** ** The steps of the handler *)

Lemma lookup_session_effects `{Platform} (cfg : Config) (svc : Services) (inp : Input)
    (sid : option string) :
  let looked := lookup_session cfg svc inp sid in
  offered looked.2 = []
  /\ (retrieved looked.2 = []
      \/ exists s, truthy sid = Some s
                   /\ truthy (process_env cfg !! "STRIPE_SECRET_KEY") <> None
                   /\ retrieved looked.2 = [s])
  /\ (trim (or_str (email inp) "") <> "" ->
      l_to looked.1 = trim (or_str (email inp) "")).
Proof.
  cbv zeta. unfold lookup_session. cbv zeta.
  destruct (truthy (process_env cfg !! "STRIPE_SECRET_KEY")) as [k |];
    [| cbn; split; [done | split; [by left | done]]].
  destruct (truthy sid) as [s |] eqn:Hs; [| cbn; split; [done | split; [by left | done]]].
  assert (Hto : forall (x : string) (a : option string) (b : string),
            x <> "" ->
            match truthy (Some x), a with
            | Some t, _ | None, Some t => t
            | None, None => b
            end = x).
  { intros x a b Hx. destruct x; [done | reflexivity]. }
  destruct (sessions_retrieve svc s) as [session | e]; cbn.
  - destruct (amount_total session) as [amt |];
      [destruct (truthy (s_currency session)) as [cur |];
       [destruct (formatAmount svc amt cur) |] |];
      cbn; (split; [done |]); (split; [right; exists s; done |]); apply Hto.
  - split; [done |]. split; [right; exists s; done | done].
Qed.

Lemma build_pdf_effects `{Platform} (cfg : Config) (svc : Services) (loc : Locals)
    (sid : option string) (to : string) (qty : option float) (manageUrl : string) :
  let built := build_pdf cfg svc loc sid to qty manageUrl in
  offered built.2 = [] /\ retrieved built.2 = []
  /\ ((forall i o, exists e, buildInvoicePdf svc i o = Throw e) -> built.1.1 = None).
Proof.
  cbv zeta. unfold build_pdf. cbv zeta.
  destruct (_ ≫= Date_toISOString) as [iso |]; [| done].
  match goal with |- context [buildInvoicePdf svc ?i ?o] =>
    destruct (buildInvoicePdf svc i o) as [pdf | e] eqn:Hpdf end; cbn; [| done].
  split; [done |]. split; [done |]. intros Hthrow.
  match type of Hpdf with buildInvoicePdf svc ?i ?o = _ =>
    destruct (Hthrow i o) as [e He] end.
  rewrite He in Hpdf. discriminate.
Qed.

Lemma send_with_fallback_cases (svc : Services) (initialFrom : string)
    (sendWith : string -> Email) :
  let s := send_with_fallback svc initialFrom sendWith in
  retrieved s.2 = []
  /\ ((offered s.2 = [sendWith initialFrom]
       /\ (initialFrom = fallbackFrom
           \/ forall e, emails_send svc (sendWith initialFrom) <> Ok (Some e))
       /\ s.1 = match emails_send svc (sendWith initialFrom) with
                | Throw e => Throw e
                | Ok res => Ok (initialFrom, res)
                end)
      \/ (offered s.2 = [sendWith initialFrom; sendWith fallbackFrom]
          /\ initialFrom <> fallbackFrom
          /\ (exists e, emails_send svc (sendWith initialFrom) = Ok (Some e))
          /\ s.1 = match emails_send svc (sendWith fallbackFrom) with
                   | Throw e => Throw e
                   | Ok res => Ok (fallbackFrom, res)
                   end)).
Proof.
  cbv zeta. unfold send_with_fallback.
  destruct (emails_send svc (sendWith initialFrom)) as [[e |] | e] eqn:H1; cbn.
  - destruct (bool_decide (initialFrom = fallbackFrom)) eqn:Hf; cbn.
    + apply bool_decide_eq_true_1 in Hf. split; [done |]. left. split; [done |].
      split; [by left | done].
    + apply bool_decide_eq_false_1 in Hf.
      destruct (emails_send svc (sendWith fallbackFrom)) as [res | e2] eqn:H2; cbn;
        (split; [done |]); right; (split; [done |]); (split; [done |]);
        (split; [eauto | done]).
  - split; [done |]. left. split; [done |]. split; [right; discriminate | done].
  - split; [done |]. left. split; [done |]. split; [right; discriminate | done].
Qed.

Lemma offered_app (a b : list Effect) : offered (a ++ b) = offered a ++ offered b.
Proof. apply omap_app. Qed.

Lemma retrieved_app (a b : list Effect) : retrieved (a ++ b) = retrieved a ++ retrieved b.
Proof. apply omap_app. Qed.

(** What a run that gets as far as the mail provider is made of. *)
Lemma POST_cases `{Platform} (cfg : Config) (svc : Services) (req : Request) :
  let env := process_env cfg in
  let r := POST cfg svc req in
  (truthy (Some (trim (or_str (env !! "RESEND_API_KEY") ""))) = None
   /\ r = (Ok (json (Err "RESEND_API_KEY not set") 500), []))
  \/ (input req = None /\ r = (Ok (json InvalidBody 400), []))
  \/ exists inp sid looked,
       truthy (Some (trim (or_str (env !! "RESEND_API_KEY") ""))) <> None
       /\ input req = Some inp
       /\ sid = (if isStripePlaceholderSession (session_id inp) then None
                 else session_id inp)
       /\ looked = lookup_session cfg svc inp sid
       /\ ((l_to looked.1 = "" /\ r = (Ok (json NoEmail 400), looked.2))
           \/ exists built (sendWith : string -> Email) initialFrom (done : Response),
                l_to looked.1 <> ""
                /\ offered built.2 = [] /\ retrieved built.2 = []
                /\ ((forall i o, exists e, buildInvoicePdf svc i o = Throw e) ->
                    built.1.1 = None)
                /\ (forall f, from (sendWith f) = f /\ to (sendWith f) = l_to looked.1
                              /\ attachments (sendWith f)
                                 = match built.1.1 with
                                   | Some b => [{| filename := built.1.2; content := b;
                                                   contentType := "application/pdf" |}]
                                   | None => []
                                   end
                              /\ sendWith f = with_from f (sendWith initialFrom))
                /\ (status done = 200 \/ status done = 303)
                /\ r = (match (send_with_fallback svc initialFrom sendWith).1 with
                        | Throw e => Throw e
                        | Ok (firstFrom, Some e) => Ok (json (SendFailed e firstFrom) 500)
                        | Ok (_, None) => Ok done
                        end,
                        looked.2 ++ built.2
                        ++ (send_with_fallback svc initialFrom sendWith).2)).
Proof.
  cbv zeta. unfold POST. cbv zeta.
  destruct (truthy (Some (trim (or_str (process_env cfg !! "RESEND_API_KEY") ""))))
    as [k |] eqn:Hk; [| by left].
  right. destruct (input req) as [inp |] eqn:Hinp; [| by left].
  right. eexists inp, _, _. split; [done |]. split; [reflexivity |].
  split; [reflexivity |]. split; [reflexivity |].
  set (sid := if isStripePlaceholderSession (session_id inp) then None else session_id inp).
  set (looked := lookup_session cfg svc inp sid).
  destruct (l_to looked.1) as [| c t] eqn:Hto; cbn [truthy]; [by left |].
  right.
  match goal with |- context [build_pdf cfg svc ?loc ?s ?to ?q ?u] =>
    set (built := build_pdf cfg svc loc s to q u);
    destruct (build_pdf_effects cfg svc loc s to q u) as (Hb1 & Hb2 & Hb3) end.
  cbv zeta in Hb1, Hb2. fold built in Hb1, Hb2, Hb3.
  match goal with |- context [send_with_fallback svc ?i ?m] =>
    set (initialFrom := i); set (sendWith := m) end.
  match goal with |- context [if ?b then (Ok ?x, _) else (Ok ?y, _)] =>
    exists built, sendWith, initialFrom, (if b then x else y) end.
  split; [discriminate |]. split; [exact Hb1 |]. split; [exact Hb2 |].
  split; [exact Hb3 |]. split; [intros f; done |].
  split.
  { match goal with |- context [if ?b then _ else _] => destruct b end;
      [by left | by right]. }
  destruct (send_with_fallback svc initialFrom sendWith) as [[[f [e |]] | e] fx];
    cbn; try reflexivity.
  match goal with |- context [if ?b then _ else _] => destruct b end; reflexivity.
Qed.


(** X25.  The fallback of the sender.  A run offers the mail provider two
    messages at most; the second one only when the first was refused and
    its sender was not the fallback, and it is the same message from the
    fallback sender.  A refusal is reported (500) only for the fallback
    sender, and an answer 200 or 303 means the last message offered was
    accepted. *)
Theorem sender_fallback_is_tried_once `{Platform} (cfg : Config) (svc : Services)
    (req : Request) :
  let r := POST cfg svc req in
  (length (offered r.2) <= 2)%nat
  /\ (forall m1 m2, offered r.2 = [m1; m2] ->
        from m1 <> fallbackFrom /\ m2 = with_from fallbackFrom m1
        /\ exists e, emails_send svc m1 = Ok (Some e))
  /\ (forall e triedFrom, r.1 = Ok (json (SendFailed e triedFrom) 500) ->
        triedFrom = fallbackFrom
        /\ exists m, last (offered r.2) = Some m /\ from m = fallbackFrom
                     /\ emails_send svc m = Ok (Some e))
  /\ (forall resp, r.1 = Ok resp -> status resp = 200 \/ status resp = 303 ->
        exists m, last (offered r.2) = Some m /\ emails_send svc m = Ok None).
Proof.
  cbv zeta.
  destruct (POST_cases cfg svc req) as [[_ ->] | [[_ ->] | Hrun]].
  - cbn. split; [lia |]. split; [discriminate |]. split; [discriminate |].
    intros resp [= <-] [? | ?]; discriminate.
  - cbn. split; [lia |]. split; [discriminate |]. split; [discriminate |].
    intros resp [= <-] [? | ?]; discriminate.
  - destruct Hrun as (inp & sid & looked & _ & _ & _ & Hl & Hrest).
    destruct (lookup_session_effects cfg svc inp sid) as (Hoff & _ & _).
    cbv zeta in Hoff. rewrite <- Hl in Hoff.
    destruct Hrest as [[_ ->] | Hrest].
    { cbn [fst snd]. rewrite Hoff. split; [cbn; lia |]. split; [discriminate |].
      split; [discriminate |]. intros resp [= <-] [? | ?]; discriminate. }
    destruct Hrest as (built & sendWith & initialFrom & ok & _ & Hb1 & _ & _ & Hmsg
                       & Hok & ->).
    cbn [fst snd]. rewrite !offered_app, Hoff, Hb1. cbn [app].
    destruct (send_with_fallback_cases svc initialFrom sendWith) as (_ & [Hone | Htwo]).
    + destruct Hone as (-> & Hwhy & ->). split; [cbn; lia |]. split; [discriminate |].
      destruct (emails_send svc (sendWith initialFrom)) as [[e1 |] | e1] eqn:Hs1.
      * destruct Hwhy as [Hfb | Hno]; [| by destruct (Hno e1)].
        split.
        { intros e tf [= <- <-]. split; [exact Hfb |].
          exists (sendWith initialFrom). split; [reflexivity |].
          destruct (Hmsg initialFrom) as (Hf & _). split; [congruence | exact Hs1]. }
        intros resp [= <-] [? | ?]; discriminate.
      * split; [intros e tf [= ->]; destruct Hok as [Hok | Hok]; discriminate |].
        intros resp _ _.
        exists (sendWith initialFrom). split; [reflexivity | exact Hs1].
      * split; [discriminate | discriminate].
    + destruct Htwo as (-> & Hne & [e1 He1] & ->). split; [cbn; lia |].
      split.
      { intros m1 m2 [= <- <-]. destruct (Hmsg initialFrom) as (Hf & _).
        split; [congruence |]. split; [apply Hmsg | eauto]. }
      destruct (emails_send svc (sendWith fallbackFrom)) as [[e2 |] | e2] eqn:Hs2.
      * split.
        { intros e tf [= <- <-]. split; [reflexivity |].
          exists (sendWith fallbackFrom). split; [reflexivity |].
          split; [apply Hmsg | exact Hs2]. }
        intros resp [= <-] [? | ?]; discriminate.
      * split; [intros e tf [= ->]; destruct Hok as [Hok | Hok]; discriminate |].
        intros resp _ _.
        exists (sendWith fallbackFrom). split; [reflexivity | exact Hs2].
      * split; [discriminate | discriminate].
Qed.

(** X26.  What the route does not do.  Without the mail key nothing is asked of
    any service; the payment provider is asked for one session at most,
    the one the body names, and for none when that id is a placeholder or
    the provider's key is missing; no message is offered without a
    recipient, and an address given in the body is the recipient whatever
    the provider's session holds. *)
Theorem resend_asks_no_more_than_needed `{Platform} (cfg : Config) (svc : Services)
    (req : Request) :
  let r := POST cfg svc req in
  (truthy (Some (trim (or_str (process_env cfg !! "RESEND_API_KEY") ""))) = None ->
   r = (Ok (json (Err "RESEND_API_KEY not set") 500), []))
  /\ (retrieved r.2 = []
      \/ exists inp sid, input req = Some inp /\ truthy (session_id inp) = Some sid
                         /\ isStripePlaceholderSession (session_id inp) = false
                         /\ truthy (process_env cfg !! "STRIPE_SECRET_KEY") <> None
                         /\ retrieved r.2 = [sid])
  /\ (forall m, m ∈ offered r.2 -> to m <> "")
  /\ (forall inp m, input req = Some inp -> trim (or_str (email inp) "") <> "" ->
        m ∈ offered r.2 -> to m = trim (or_str (email inp) "")).
Proof.
  cbv zeta. split.
  { intros Hk. unfold POST. cbv zeta. by rewrite Hk. }
  destruct (POST_cases cfg svc req) as [[Hk ->] | [[Hi ->] | Hrun]].
  - cbn [fst snd offered retrieved omap]. split; [by left |].
    split; [by intros m ?%elem_of_nil | by intros inp m _ _ ?%elem_of_nil].
  - cbn [fst snd offered retrieved omap]. split; [by left |].
    split; [by intros m ?%elem_of_nil | by intros inp m _ _ ?%elem_of_nil].
  - destruct Hrun as (inp & sid & looked & Hkey & Hinp & Hsid & Hl & Hrest).
    destruct (lookup_session_effects cfg svc inp sid) as (Hoff & Hret & Hto).
    cbv zeta in Hoff, Hret. rewrite <- Hl in Hoff, Hret, Hto.
    assert (Hretr : retrieved looked.2 = []
                    \/ exists inp0 s, input req = Some inp0
                         /\ truthy (session_id inp0) = Some s
                         /\ isStripePlaceholderSession (session_id inp0) = false
                         /\ truthy (process_env cfg !! "STRIPE_SECRET_KEY") <> None
                         /\ retrieved looked.2 = [s]).
    { destruct Hret as [Hnil | (s & Hs & Hstripe & Hone)]; [by left |].
      right. exists inp, s. split; [exact Hinp |].
      destruct (isStripePlaceholderSession (session_id inp)) eqn:Hph;
        subst sid; [discriminate |]. done. }
    destruct Hrest as [[_ ->] | Hrest].
    { cbn [fst snd]. rewrite Hoff. split; [exact Hretr |].
      split; [by intros m ?%elem_of_nil | by intros ? m _ _ ?%elem_of_nil]. }
    destruct Hrest as (built & sendWith & initialFrom & ok & Hne & Hb1 & Hb2 & _ & Hmsg
                       & _ & ->).
    destruct (send_with_fallback_cases svc initialFrom sendWith) as (Hs0 & Hcases).
    cbn [fst snd]. rewrite !offered_app, !retrieved_app, Hoff, Hb1, Hb2, Hs0, !app_nil_r.
    cbn [app].
    assert (Hall : forall m, m ∈ offered (send_with_fallback svc initialFrom sendWith).2 ->
                             to m = l_to looked.1).
    { intros m Hm.
      destruct Hcases as [(Ho & _) | (Ho & _)]; rewrite Ho in Hm.
      - apply list_elem_of_singleton in Hm as ->. apply Hmsg.
      - apply elem_of_cons in Hm as [-> | Hm%list_elem_of_singleton]; [apply Hmsg |].
        subst m. apply Hmsg. }
    split; [exact Hretr |]. split.
    + intros m Hm. by rewrite (Hall m Hm).
    + intros inp0 m Hinp0 Hmail Hm. assert (inp0 = inp) as -> by congruence.
      rewrite (Hall m Hm). by apply Hto.
Qed.


Lemma escapeHtml_safe_witness :
  escapeHtml "Bogota Coffee Culture" = "Bogota Coffee Culture"
  /\ escapeHtml "Bogota <Coffee> & 'Culture'" = "Bogota &lt;Coffee&gt; &amp; &#39;Culture&#39;".
Proof.
  split; [| reflexivity].
  apply (escapeHtml_safe "Bogota Coffee Culture").
  repeat constructor; discriminate.
Defined.

Lemma sender_fallback_is_tried_once_witness :
  let r := POST (H := Sample.platform) Sample.cfg_mail
             (Sample.mail_services true true true)
             (Sample.resend_request (Some "cs_test_1") None) in
  exists m1 m2,
    offered r.2 = [m1; m2]
    /\ from m1 = "KCE <reservas@kce.travel>" /\ m2 = with_from fallbackFrom m1
    /\ r.1 = Ok (json (Sent {| r_session_id := Some "cs_test_1";
                               r_tour := Some "Bogota <Coffee>";
                               r_date := Some "2030-01-15";
                               r_q := Some 2%float |}) 200).
Proof.
  cbv zeta.
  destruct (sender_fallback_is_tried_once (H := Sample.platform) Sample.cfg_mail
              (Sample.mail_services true true true)
              (Sample.resend_request (Some "cs_test_1") None)) as (_ & H2 & _).
  eexists _, _. split; [reflexivity |]. split; [reflexivity |].
  split; [| reflexivity]. eapply H2. reflexivity.
Defined.

Lemma resend_asks_no_more_than_needed_witness :
  let r := POST (H := Sample.platform) Sample.cfg_hook
             (Sample.mail_services true true false)
             (Sample.resend_request (Some "{CHECKOUT_SESSION_ID}") None) in
  retrieved r.2 = [] /\ offered r.2 = [] /\ r.1 = Ok (json NoEmail 400).
Proof.
  cbv zeta.
  destruct (resend_asks_no_more_than_needed (H := Sample.platform) Sample.cfg_hook
              (Sample.mail_services true true false)
              (Sample.resend_request (Some "{CHECKOUT_SESSION_ID}") None))
    as (_ & [H2 | (inp & sid & _ & _ & _ & _ & H2)] & _).
  - split; [exact H2 |]. split; reflexivity.
  - vm_compute in H2. discriminate.
Defined.

End ConfirmationFacts.

(* ===================================================================== *)
(** * Payment webhooks: helpers, event cases and failures                 *)
(* ===================================================================== *)

Module WebhookMore.
Import Webhook.

Ltac split_all := repeat match goal with |- _ /\ _ => split end.

(** ** Steps that leave [bookings] alone *)

Lemma keeps_ret {A} (a : A) : keeps_bookings (mret a).
Proof. done. Qed.

Lemma keeps_throw {A} (e : string) : keeps_bookings (throw (A := A) e).
Proof. done. Qed.

Lemma keeps_await {A} (r : Outcome A) : keeps_bookings (await r).
Proof. done. Qed.

Lemma keeps_bind {A B} (m : M A) (f : A -> M B) :
  keeps_bookings m -> (forall a, keeps_bookings (f a)) -> keeps_bookings (m ≫= f).
Proof.
  intros Hm Hf w. unfold mbind, M_bind. specialize (Hm w).
  destruct (m w) as [[a | e] w1]; cbn in *; [| exact Hm].
  by rewrite Hf.
Qed.

Lemma keeps_try_catch {A} (body : M A) (handler : string -> M A) :
  keeps_bookings body -> (forall e, keeps_bookings (handler e)) ->
  keeps_bookings (try_catch body handler).
Proof.
  intros Hm Hf w. unfold try_catch. specialize (Hm w).
  destruct (body w) as [[a | e] w1]; cbn in *; [exact Hm |].
  by rewrite Hf.
Qed.

Lemma keeps_query {A} (admin : Admin) (q : Query) (refused : string -> A)
    (answer : M A) :
  keeps_bookings answer -> keeps_bookings (query admin q refused answer).
Proof. intros Ha w. unfold query. by destruct (admin q) as [[e | e] |]. Qed.

Lemma keeps_logEvent (admin : Admin) (type : string) (payload : list (string * JS.json)) :
  keeps_bookings (logEvent admin type payload).
Proof.
  unfold logEvent. apply keeps_try_catch; [| intros; apply keeps_ret].
  apply keeps_bind; [| intros; apply keeps_ret]. by apply keeps_query.
Qed.

Lemma keeps_select_event (admin : Admin) (type key value : string) :
  keeps_bookings (select_event admin type key value).
Proof. by apply keeps_query. Qed.

Lemma keeps_resend_emails_send (svc : Services) (sid : string) (m : Email) :
  keeps_bookings (resend_emails_send svc sid m).
Proof.
  intros w. unfold resend_emails_send, mbind, M_bind, await.
  destruct (emails_send svc m) as [[e |] | e]; reflexivity.
Qed.

Lemma keeps_trySendBookingEmail `{Platform} (cfg : Config) (svc : Services)
    (admin : Admin) (session : Session) :
  keeps_bookings (trySendBookingEmail cfg svc admin session).
Proof.
  unfold trySendBookingEmail. cbv zeta.
  apply keeps_try_catch.
  2: { intros e. apply keeps_try_catch; [apply keeps_logEvent | intros; apply keeps_ret]. }
  destruct (truthy (process_env cfg !! "RESEND_API_KEY")); [| apply keeps_ret].
  destruct (truthy (customer_details session ≫= cd_email) ?? truthy (customer_email session))
    as [to |]; [| apply keeps_ret].
  apply keeps_bind; [apply keeps_select_event | intros already].
  destruct (data already); [apply keeps_ret |].
  apply keeps_bind.
  { destruct (Date_toISOString _); [apply keeps_ret | apply keeps_throw]. }
  intros iso. apply keeps_bind; [apply keeps_await | intros pdf].
  apply keeps_bind; [apply keeps_resend_emails_send | intros res].
  destruct res; apply keeps_logEvent.
Qed.

Lemma logEvent_ok (admin : Admin) (type : string) (payload : list (string * JS.json))
    (w : World) :
  (logEvent admin type payload w).1 = Ok ().
Proof.
  unfold logEvent, try_catch, mbind, M_bind, insert_event, query.
  by destruct (admin (insert_into_events type (JObj payload))) as [[e | e] |].
Qed.

Lemma trySendBookingEmail_ok `{Platform} (cfg : Config) (svc : Services) (admin : Admin)
    (session : Session) (w : World) :
  (trySendBookingEmail cfg svc admin session w).1 = Ok ().
Proof.
  unfold trySendBookingEmail. cbv zeta. unfold try_catch at 1.
  match goal with |- context [match ?b w with _ => _ end] =>
    destruct (b w) as [[[] | e] w1] end; [reflexivity |].
  unfold try_catch.
  match goal with |- context [logEvent admin ?t ?p w1] =>
    pose proof (logEvent_ok admin t p w1) as Hl;
    destruct (logEvent admin t p w1) as [[[] | e'] w2] end; [reflexivity | discriminate].
Qed.

(** X8.  The confirmation e-mail is best effort: [trySendBookingEmail] never
    ends in an exception, whatever the database, the PDF renderer and the
    mail provider do, leaves the table of bookings as it was, and sends
    one message at most. *)
Theorem confirmation_email_is_best_effort `{Platform} (cfg : Config) (svc : Services)
    (admin : Admin) (session : Session) (w : World) :
  let r := trySendBookingEmail cfg svc admin session w in
  r.1 = Ok ()
  /\ bookings r.2 = bookings w
  /\ (length (outbox w) <= length (outbox r.2) <= length (outbox w) + 1)%nat.
Proof.
  cbv zeta. split; [apply trySendBookingEmail_ok |].
  split; [apply keeps_trySendBookingEmail |].
  destruct (WebhookFacts.sound_trySendBookingEmail cfg svc admin session w)
    as (u & s & _ & Hs & Hst).
  destruct (WebhookFacts.steps_counts _ _ _ _ _ Hst) as [_ ->]. lia.
Qed.

(** ** Cases that cannot fail *)

Lemma dispatch_caught_or_recorded `{Platform} (cfg : Config) (svc : Services)
    (admin : Admin) (event : Event) (w : World) :
  caught_or_recorded (e_data event) = true ->
  (dispatch cfg svc admin event w).1 = Ok ().
Proof.
  unfold dispatch. cbv zeta.
  destruct (e_data event) as [s | s | s | s | pi | pi | c | t]; try discriminate;
    intros _; try apply logEvent_ok.
  unfold try_catch.
  match goal with |- context [match ?b w with _ => _ end] =>
    destruct (b w) as [[[] | e] w1] end; [reflexivity | apply logEvent_ok].
Qed.

Lemma seenOrMarkEvent_ok (admin : Admin) (eid : string) (w : World) :
  exists b, (seenOrMarkEvent admin eid w).1 = Ok b.
Proof.
  unfold seenOrMarkEvent, try_catch.
  match goal with |- context [match ?b w with _ => _ end] =>
    destruct (b w) as [[x | e] w1] end; cbn; eauto.
Qed.

(** ** One booking per session: status changes *)

Lemma filter_fmap_same {A} (p : A -> bool) (f : A -> A) (l : list A) :
  (forall x, p (f x) = p x) ->
  List.filter p (f <$> l) = f <$> List.filter p l.
Proof.
  intros Hp. induction l as [| x l IH]; cbn; [reflexivity |].
  rewrite Hp. destruct (p x); cbn; by rewrite IH.
Qed.

Lemma has_session_set_status (sid : string) (st : Status) (id : nat) (b : BookingRow) :
  has_session sid (if bool_decide (b_id b = id) then set_status st b else b)
  = has_session sid b.
Proof. by destruct (bool_decide (b_id b = id)). Qed.

Lemma filter_singleton_elem {A} (p : A -> bool) (l : list A) (x y : A) :
  List.filter p l = [x] -> y ∈ l -> p y = true -> y = x.
Proof.
  intros Hf Hy Hp.
  assert (Hin : List.In y (List.filter p l))
    by (apply List.filter_In; split; [by apply list_elem_of_In | exact Hp]).
  rewrite Hf in Hin. destruct Hin as [-> | []]. reflexivity.
Qed.

Lemma filter_nil_elem {A} (p : A -> bool) (l : list A) (y : A) :
  List.filter p l = [] -> y ∈ l -> p y = true -> False.
Proof.
  intros Hf Hy Hp.
  assert (Hin : List.In y (List.filter p l))
    by (apply List.filter_In; split; [by apply list_elem_of_In | exact Hp]).
  rewrite Hf in Hin. destruct Hin.
Qed.

Lemma updateBookingStatusBySessionId_spec (admin : Admin) (sid : string) (st : Status)
    (w : World) :
  bookings_unique w ->
  let r := updateBookingStatusBySessionId admin sid st w in
  (r.1 = Ok () ->
     (forall b, b ∈ bookings r.2 -> has_session sid b = true -> b_status b = st)
     /\ updateBookingStatusBySessionId admin sid st r.2 = (Ok (), r.2))
  /\ (forall e, r.1 = Throw e -> r.2 = w)
  /\ (bookings_work admin -> r.1 = Ok ())
  /\ (forall sid', booking_count sid' r.2 = booking_count sid' w)
  /\ length (bookings r.2) = length (bookings w)
  /\ outbox r.2 = outbox w /\ events r.2 = events w
  /\ (booking_count sid w = 0%nat -> r.2 = w).
Proof.
  intros Hw. cbv zeta. specialize (Hw sid). unfold booking_count in *.
  unfold updateBookingStatusBySessionId, mbind, M_bind, select_booking, update_booking,
    query.
  destruct (admin (select_bookings sid)) as [[e | e] |] eqn:Hsel.
  1, 2: cbn; split_all; try done;
        intros (Hs & _ & _); rewrite Hs in Hsel; discriminate.
  cbn.
  destruct (List.filter (has_session sid) (bookings w)) as [| row [| other rest]] eqn:Hf;
    cbn in *; [| | lia].
  - rewrite Hf. cbn.
    split; [intros _; split; [| reflexivity]
           | split_all; try reflexivity; try discriminate].
    intros b Hb Hs. destruct (filter_nil_elem _ _ _ Hf Hb Hs).
  - destruct (bool_decide (b_status row = st)) eqn:Hst; cbn.
    + rewrite Hf. cbn. rewrite Hst.
      split; [intros _; split; [| reflexivity]
             | split_all; try reflexivity; try discriminate].
      intros b Hb Hs. rewrite (filter_singleton_elem _ _ _ _ Hf Hb Hs).
      by apply bool_decide_eq_true_1 in Hst.
    + destruct (admin (update_bookings (b_id row))) as [[e | e] |] eqn:Hupd.
      1, 2: cbn; split_all; try done; try discriminate;
            intros (_ & Hu & _); rewrite Hu in Hupd; discriminate.
      cbn.
      assert (Hf' : List.filter (has_session sid)
                      ((λ b, if bool_decide (b_id b = b_id row)
                             then set_status st b else b) <$> bookings w)
                    = [set_status st row]).
      { rewrite filter_fmap_same by (intros; apply has_session_set_status).
        rewrite Hf. cbn. by rewrite bool_decide_eq_true_2. }
      rewrite Hf'. cbn. rewrite bool_decide_eq_true_2 by reflexivity.
      split.
      { intros _. split; [| reflexivity]. intros b Hb Hs.
        rewrite (filter_singleton_elem _ _ _ _ Hf' Hb Hs). reflexivity. }
      split; [discriminate |]. split; [reflexivity |].
      split.
      { intros sid'. rewrite filter_fmap_same by (intros; apply has_session_set_status).
        by rewrite length_fmap. }
      split; [by rewrite length_fmap |].
      split_all; try reflexivity; try discriminate.
Qed.

(** X9.  [updateBookingStatusBySessionId] when the table holds at most one row
    per session.  When it returns, the row of the session, if there is
    one, has the status asked for, and running it again changes nothing.
    It returns whenever the database takes the queries on [bookings]; when
    the read or the write goes wrong it ends in an exception and the world
    is as it was.  In every case no row is created or removed and no row
    changes session; nothing is sent or recorded; and without a row for
    the session nothing changes at all. *)
Theorem status_update_is_idempotent (admin : Admin) (sid : string) (st : Status)
    (w : World) :
  bookings_unique w ->
  let r := updateBookingStatusBySessionId admin sid st w in
  (r.1 = Ok () ->
     (forall b, b ∈ bookings r.2 -> has_session sid b = true -> b_status b = st)
     /\ updateBookingStatusBySessionId admin sid st r.2 = (Ok (), r.2))
  /\ (forall e, r.1 = Throw e -> r.2 = w)
  /\ (bookings_work admin -> r.1 = Ok ())
  /\ (forall sid', booking_count sid' r.2 = booking_count sid' w)
  /\ length (bookings r.2) = length (bookings w)
  /\ outbox r.2 = outbox w /\ events r.2 = events w
  /\ (booking_count sid w = 0%nat -> r.2 = w).
Proof. apply updateBookingStatusBySessionId_spec. Qed.

Lemma logEvent_quiet (admin : Admin) (type : string) (payload : list (string * JS.json))
    (w : World) :
  bookings (logEvent admin type payload w).2 = bookings w
  /\ outbox (logEvent admin type payload w).2 = outbox w.
Proof.
  unfold logEvent, try_catch, mbind, M_bind, insert_event, query.
  by destruct (admin (insert_into_events type (JObj payload))) as [[e | e] |].
Qed.

(** X10.  An expired checkout, and a refund whose payment intent leads to a
    session, cancel the booking of the session whatever its status was (a
    paid one too).  When the case returns, the row of the session, if
    there is one, ends [canceled]; it returns whenever the database takes
    the queries on [bookings], and ends in an exception when the read or
    the write of the booking goes wrong.  In every case no row is created
    or removed and no e-mail is sent. *)
Theorem expiry_or_refund_cancels_the_booking `{Platform} (cfg : Config) (svc : Services)
    (admin : Admin) (event : Event) (w : World) (sid : string) :
  bookings_unique w ->
  (exists s, e_data event = checkout_session_expired s
             /\ truthy (Some (s_id s)) = Some sid)
  \/ (exists c piId sess,
        e_data event = charge_refunded c
        /\ truthy (ch_payment_intent c) = Some piId
        /\ sessions_list svc piId = Ok (Some sess)
        /\ truthy (Some (s_id sess)) = Some sid) ->
  let r := dispatch cfg svc admin event w in
  (r.1 = Ok () ->
   forall b, b ∈ bookings r.2 -> has_session sid b = true -> b_status b = canceled)
  /\ (bookings_work admin -> r.1 = Ok ())
  /\ (forall e,
        (updateBookingStatusBySessionId admin sid canceled w).1 = Throw e ->
        r = (Throw e, w))
  /\ (forall sid', booking_count sid' r.2 = booking_count sid' w)
  /\ outbox r.2 = outbox w.
Proof.
  intros Hw Hev. cbv zeta.
  destruct (updateBookingStatusBySessionId_spec admin sid canceled w Hw)
    as (H1 & H2 & H3 & H4 & _ & H5 & _).
  assert (Hlog : forall type payload,
            let r := (updateBookingStatusBySessionId admin sid canceled;;
                      logEvent admin type payload) w in
            (r.1 = Ok () ->
             forall b, b ∈ bookings r.2 -> has_session sid b = true ->
                       b_status b = canceled)
            /\ (bookings_work admin -> r.1 = Ok ())
            /\ (forall e,
                  (updateBookingStatusBySessionId admin sid canceled w).1 = Throw e ->
                  r = (Throw e, w))
            /\ (forall sid', booking_count sid' r.2 = booking_count sid' w)
            /\ outbox r.2 = outbox w).
  { intros type payload. cbv zeta. unfold mbind, M_bind.
    destruct (updateBookingStatusBySessionId admin sid canceled w) as [[[] | e] w1];
      cbn in H1, H2, H3, H4, H5 |- *.
    - destruct (logEvent_quiet admin type payload w1) as [Hb Ho].
      pose proof (logEvent_ok admin type payload w1) as Hok.
      split_all.
      + intros _ b Hb' Hs. rewrite Hb in Hb'. by apply (proj1 (H1 eq_refl)).
      + intros _. exact Hok.
      + discriminate.
      + intros sid'. unfold booking_count in *. rewrite Hb. apply H4.
      + by rewrite Ho.
    - split; [discriminate |]. split; [exact H3 |].
      split; [intros e' [= ->]; by rewrite (H2 e') |].
      split; [exact H4 | exact H5]. }
  assert (Heq : exists type payload,
            dispatch cfg svc admin event w
            = (updateBookingStatusBySessionId admin sid canceled;;
               logEvent admin type payload) w).
  { unfold dispatch. cbv zeta.
    destruct Hev as [(s & -> & Hs) | (c & piId & sess & -> & Hpi & Hlist & Hs)].
    - rewrite Hs. eexists _, _. reflexivity.
    - rewrite Hpi. unfold mbind at 1, M_bind at 1, await. rewrite Hlist.
      cbn [mbind option_bind]. rewrite Hs. eexists _, _. reflexivity. }
  destruct Heq as (type & payload & ->). apply Hlog.
Qed.

(** ** What an upsert writes *)

(** X11.  The last write wins.  After an upsert for a session with an id that
    returned, in a table with at most one row per session, the row of the
    session carries the status, the total and the provider of this
    session, whatever it held before (a [canceled] row becomes [paid] or
    [pending] again); whether the upsert returned or not, an existing row
    keeps its id, date, persons, tour and extras, and every other row is
    left as it was. *)
Theorem upsert_last_write_wins `{Platform} (svc : Services) (admin : Admin)
    (session : Session) (w : World) (sid : string) :
  truthy (Some (safeStr (Some (s_id session)))) = Some sid ->
  bookings_unique w ->
  let r := upsertBookingFromSession svc admin session w in
  (forall id, r.1 = Ok id ->
   forall b, b ∈ bookings r.2 -> has_session sid b = true ->
     b_status b = status_of_session session
     /\ total b = amount_total session
     /\ payment_provider b = Some "stripe")
  /\ (forall old, old ∈ bookings w -> has_session sid old = true ->
      exists b, b ∈ bookings r.2 /\ has_session sid b = true
                /\ b_id b = b_id old /\ b_date b = b_date old
                /\ persons b = persons old /\ tour_id b = tour_id old
                /\ extras b = extras old
                /\ length (bookings r.2) = length (bookings w))
  /\ (forall b, b ∈ bookings w -> (forall old, old ∈ bookings w ->
                                   has_session sid old = true -> b_id b <> b_id old) ->
      b ∈ bookings r.2).
Proof.
  intros Hsid Hw. cbv zeta.
  pose proof (WebhookFacts.upsertBookingFromSession_cases svc admin session w sid Hsid)
    as Hc.
  cbv zeta in Hc. specialize (Hw sid). unfold booking_count in Hw.
  assert (Hsame : forall e,
            upsertBookingFromSession svc admin session w = (Throw e, w) ->
            (forall id, (upsertBookingFromSession svc admin session w).1 = Ok id ->
             forall b, b ∈ bookings (upsertBookingFromSession svc admin session w).2 ->
               has_session sid b = true ->
               b_status b = status_of_session session
               /\ total b = amount_total session
               /\ payment_provider b = Some "stripe")
            /\ (forall old, old ∈ bookings w -> has_session sid old = true ->
                exists b, b ∈ bookings (upsertBookingFromSession svc admin session w).2
                          /\ has_session sid b = true
                          /\ b_id b = b_id old /\ b_date b = b_date old
                          /\ persons b = persons old /\ tour_id b = tour_id old
                          /\ extras b = extras old
                          /\ length (bookings (upsertBookingFromSession svc admin session w).2)
                             = length (bookings w))
            /\ (forall b, b ∈ bookings w ->
                  (forall old, old ∈ bookings w ->
                               has_session sid old = true -> b_id b <> b_id old) ->
                  b ∈ bookings (upsertBookingFromSession svc admin session w).2)).
  { intros e ->. cbn. split; [discriminate |]. split; [| done].
    intros old Hold Hs. exists old. done. }
  destruct (admin (select_bookings sid)) as [[e | e] |]; [by eapply Hsame .. |].
  destruct (List.filter (has_session sid) (bookings w)) as [| old [| other rest]] eqn:Hf;
    cbn in Hw; [| | lia].
  - destruct Hc as (row & Hrow & Hr).
    destruct (admin (insert_into_bookings sid)) as [[e | e] |]; [by eapply Hsame .. |].
    rewrite Hr. cbn. split; [| split].
    + intros id _ b Hb Hs. apply elem_of_app in Hb as [Hb | Hb%list_elem_of_singleton].
      * destruct (filter_nil_elem _ _ _ Hf Hb Hs).
      * subst b. destruct (Hrow (next_id w)) as (_ & H1 & H2 & H3 & _). done.
    + intros old Hold Hs. destruct (filter_nil_elem _ _ _ Hf Hold Hs).
    + intros b Hb _. apply elem_of_app. by left.
  - destruct Hc as (patch & Hpatch & Hr).
    destruct (admin (update_bookings (b_id old))) as [[e | e] |]; [by eapply Hsame .. |].
    rewrite Hr. cbn. split; [| split].
    + intros id _ b Hb Hs. apply list_elem_of_fmap in Hb as (b0 & -> & Hb0).
      destruct (bool_decide (b_id b0 = b_id old)) eqn:Hid.
      * destruct (Hpatch b0) as (_ & H1 & H2 & H3 & _). done.
      * pose proof (filter_singleton_elem _ _ _ _ Hf Hb0 Hs) as ->.
        by rewrite bool_decide_eq_true_2 in Hid.
    + intros old' Hold Hs.
      pose proof (filter_singleton_elem _ _ _ _ Hf Hold Hs) as ->.
      exists (patch old). destruct (Hpatch old) as (H0 & _ & _ & _ & H4 & H5 & H6 & H7 & H8).
      split.
      { apply list_elem_of_fmap. exists old.
        by rewrite bool_decide_eq_true_2. }
      unfold has_session in *. rewrite H0. rewrite length_fmap. done.
    + intros b Hb Hne. apply list_elem_of_fmap. exists b. split; [| exact Hb].
      rewrite bool_decide_eq_false_2; [reflexivity |].
      apply Hne.
      * assert (Hin : List.In old (List.filter (has_session sid) (bookings w)))
          by (rewrite Hf; by left).
        apply List.filter_In in Hin as [Hin _]. by apply list_elem_of_In.
      * assert (Hin : List.In old (List.filter (has_session sid) (bookings w)))
          by (rewrite Hf; by left).
        by apply List.filter_In in Hin as [_ Hin].
Qed.

(** ** Events that do not confirm a payment *)

Lemma atomic_quiet (admin : Admin) (u s : nat) (w w' : World) :
  atomic admin u s w w' ->
  (s = 0%nat -> outbox w' = outbox w)
  /\ (u = 0%nat -> length (bookings w') = length (bookings w)
                   /\ forall sid, booking_count sid w' = booking_count sid w).
Proof.
  intros Hat. unfold booking_count.
  destruct Hat as [w type payload _ _ | w eid _ | w row sid _ _
                  | w id patch sid _ | w id st | w sid m to _ | w sid m payload _]; cbn;
    (split; [try done | try done; try discriminate]).
  intros _. rewrite length_fmap. split; [reflexivity |].
  intros sid. rewrite filter_fmap_same by (intros; apply has_session_set_status).
  by rewrite length_fmap.
Qed.

Lemma steps_quiet (admin : Admin) (u s : nat) (w w' : World) :
  steps admin u s w w' ->
  (s = 0%nat -> outbox w' = outbox w)
  /\ (u = 0%nat -> length (bookings w') = length (bookings w)
                   /\ forall sid, booking_count sid w' = booking_count sid w).
Proof.
  induction 1 as [w | u1 s1 u2 s2 x y z Hxy Hyz [IHs IHu]]; [done |].
  destruct (atomic_quiet _ _ _ _ _ Hxy) as [Hs Hu]. split.
  - intros H0. rewrite IHs, Hs by lia. reflexivity.
  - intros H0. destruct (IHu ltac:(lia)) as [Hl Hc].
    destruct (Hu ltac:(lia)) as [Hl' Hc'].
    split; [congruence |]. intros sid. by rewrite Hc, Hc'.
Qed.

Lemma sound_dispatch_quiet `{Platform} (cfg : Config) (svc : Services) (admin : Admin)
    (event : Event) :
  confirms_payment (e_data event) = false -> sound admin 0 0 (dispatch cfg svc admin event).
Proof.
  unfold dispatch. cbv zeta.
  destruct (e_data event) as [s | s | s | s | pi | pi | c | t]; try discriminate;
    intros _.
  - by apply WebhookFacts.sound_logEvent.
  - apply (WebhookFacts.sound_bind admin 0 0 0 0);
      [| intros _; by apply WebhookFacts.sound_logEvent].
    destruct (truthy (Some (s_id s)));
      [apply WebhookFacts.sound_updateBookingStatusBySessionId
      | apply WebhookFacts.sound_ret].
  - by apply WebhookFacts.sound_logEvent.
  - destruct (truthy (ch_payment_intent c)) as [piId |]; [| apply WebhookFacts.sound_ret].
    apply (WebhookFacts.sound_bind admin 0 0 0 0); [apply WebhookFacts.sound_await |].
    intros sessions.
    destruct (sessions ≫= _) as [sid |]; [| by apply WebhookFacts.sound_logEvent].
    apply (WebhookFacts.sound_bind admin 0 0 0 0);
      [apply WebhookFacts.sound_updateBookingStatusBySessionId |].
    intros _. by apply WebhookFacts.sound_logEvent.
  - by apply WebhookFacts.sound_logEvent.
Qed.

(** X12.  An event that does not confirm a payment (a failed or expired
    checkout, a failed payment intent, a refund, an unknown type) sends no
    e-mail, issues no booking upsert and neither creates nor removes a
    booking: every session keeps the rows it had. *)
Theorem other_events_send_nothing `{Platform} (cfg : Config) (svc : Services)
    (admin : Admin) (event : Event) (w : World) :
  confirms_payment (e_data event) = false ->
  let w' := (dispatch cfg svc admin event w).2 in
  outbox w' = outbox w
  /\ upsert_count w' = upsert_count w
  /\ length (bookings w') = length (bookings w)
  /\ forall sid, booking_count sid w' = booking_count sid w.
Proof.
  intros Hev. cbv zeta.
  destruct (sound_dispatch_quiet cfg svc admin event Hev w) as (u & s & Hu & Hs & Hst).
  assert (u = 0%nat) as -> by lia. assert (s = 0%nat) as -> by lia.
  destruct (steps_quiet _ _ _ _ _ Hst) as [Ho Hb].
  destruct (WebhookFacts.steps_counts _ _ _ _ _ Hst) as [Hc _].
  split; [by apply Ho |]. split; [lia |]. by apply Hb.
Qed.

(** ** [toKebab] and [BASE_URL] *)

Lemma dash_not_alnum : is_lower_alnum "-" = false.
Proof. reflexivity. Qed.

Lemma dash_runs_chars (b : bool) (l : list ascii) :
  Forall (λ c, is_lower_alnum c = true \/ c = "-"%char) (dash_runs b l).
Proof.
  revert b. induction l as [| c r IH]; intros b; cbn; [constructor |].
  destruct (is_lower_alnum c) eqn:Hc; [constructor; [by left | apply IH] |].
  destruct b; [apply IH | constructor; [by right | apply IH]].
Qed.

Lemma head_dash_runs (l : list ascii) : head (dash_runs true l) <> Some "-"%char.
Proof.
  induction l as [| c r IH]; cbn; [discriminate |].
  destruct (is_lower_alnum c) eqn:Hc; [| exact IH].
  cbn. intros [= ->]. by rewrite dash_not_alnum in Hc.
Qed.

Lemma dash_runs_no_double (b : bool) (l : list ascii) : no_double_dash (dash_runs b l).
Proof.
  revert b. induction l as [| c r IH]; intros b l1 l2; cbn.
  - destruct l1; discriminate.
  - destruct (is_lower_alnum c) eqn:Hc.
    + destruct l1 as [| x l1]; cbn.
      * intros [= -> _]. by rewrite dash_not_alnum in Hc.
      * intros [= _ Hr]. exact (IH false _ _ Hr).
    + destruct b; [apply IH |].
      destruct l1 as [| x l1]; cbn.
      * intros [= Hr]. apply (head_dash_runs r). by rewrite Hr.
      * intros [= _ Hr]. exact (IH true _ _ Hr).
Qed.

Lemma drop_dashes_suffix (l : list ascii) : exists k, l = k ++ drop_dashes l.
Proof.
  induction l as [| c r [k Hk]]; cbn; [by exists [] |].
  destruct (bool_decide (c = "-"%char)); [| by exists []].
  exists (c :: k). cbn. by rewrite <- Hk.
Qed.

Lemma head_drop_dashes (l : list ascii) : head (drop_dashes l) <> Some "-"%char.
Proof.
  induction l as [| c r IH]; cbn; [discriminate |].
  destruct (bool_decide (c = "-"%char)) eqn:Hc; [exact IH |].
  cbn. intros [= ->]. by rewrite bool_decide_eq_true_2 in Hc.
Qed.

Lemma last_suffix {A} (k l : list A) (x : A) : last l = Some x -> last (k ++ l) = Some x.
Proof.
  intros Hl. destruct l as [| y l]; [discriminate |].
  by rewrite last_app, Hl.
Qed.

Lemma no_double_dash_suffix (k l : list ascii) :
  no_double_dash (k ++ l) -> no_double_dash l.
Proof. intros Hn l1 l2 ->. apply (Hn (k ++ l1) l2). by rewrite <- app_assoc. Qed.

Lemma no_double_dash_reverse (l : list ascii) :
  no_double_dash l -> no_double_dash (reverse l).
Proof.
  intros Hn l1 l2 Hr. apply (Hn (reverse l2) (reverse l1)).
  rewrite <- (reverse_involutive l), Hr.
  rewrite reverse_app, !reverse_cons, <- !app_assoc. reflexivity.
Qed.

(** X13.  The slug [toKebab] builds, whatever text it is given: lower-case
    letters, digits and dashes only, no dash at either end and no two
    dashes in a row. *)
Theorem toKebab_shape `{Platform} (str : option string) :
  let l := list_ascii_of_string (toKebab str) in
  Forall (λ c, is_lower_alnum c = true \/ c = "-"%char) l
  /\ head l <> Some "-"%char /\ last l <> Some "-"%char
  /\ no_double_dash l.
Proof.
  cbv zeta. unfold toKebab. cbv zeta. rewrite list_ascii_of_string_of_list_ascii.
  set (d := dash_runs false _).
  destruct (drop_dashes_suffix d) as [k1 Hk1].
  destruct (drop_dashes_suffix (reverse (drop_dashes d))) as [k2 Hk2].
  split; [| split; [| split]].
  - apply Forall_reverse.
    assert (Hall : Forall (λ c, is_lower_alnum c = true \/ c = "-"%char)
                     (reverse (drop_dashes d))).
    { apply Forall_reverse.
      pose proof (dash_runs_chars false
                    (list_ascii_of_string
                       (toLowerCase (without_diacritics (safeStr (Some (or_str str ""))))))) as Hd.
      fold d in Hd. rewrite Hk1 in Hd. by apply Forall_app in Hd as [_ Hd]. }
    rewrite Hk2 in Hall. by apply Forall_app in Hall as [_ Hall].
  - rewrite head_reverse. intros Hl.
    apply (last_suffix k2) in Hl. rewrite <- Hk2, last_reverse in Hl.
    by apply (head_drop_dashes d).
  - rewrite last_reverse. apply head_drop_dashes.
  - apply no_double_dash_reverse, (no_double_dash_suffix k2). rewrite <- Hk2.
    apply no_double_dash_reverse, (no_double_dash_suffix k1). rewrite <- Hk1.
    apply dash_runs_no_double.
Qed.

Lemma drop_slashes_spec (l : list ascii) :
  head (drop_slashes l) <> Some "/"%char
  /\ exists k, l = replicate k "/"%char ++ drop_slashes l.
Proof.
  induction l as [| c r [IH1 [k IH2]]]; cbn; [split; [discriminate | by exists 0%nat] |].
  destruct (bool_decide (c = "/"%char)) eqn:Hc.
  - apply bool_decide_eq_true_1 in Hc as ->.
    split; [exact IH1 |]. exists (S k). cbn. by rewrite <- IH2.
  - split; [| by exists 0%nat].
    cbn. intros [= ->]. by rewrite bool_decide_eq_true_2 in Hc.
Qed.

(** X14.  [BASE_URL] is the configured site URL without its trailing slashes,
    all of them and nothing else: it never ends in a slash, so the links
    built as [BASE_URL + "/booking/..."] have a single slash there. *)
Theorem BASE_URL_strips_trailing_slashes (cfg : Config) :
  let u := or_str (Some (SITE_URL cfg))
             (or_str (process_env cfg !! "NEXT_PUBLIC_SITE_URL") "http://localhost:3000") in
  last (list_ascii_of_string (BASE_URL cfg)) <> Some "/"%char
  /\ exists k, list_ascii_of_string u
               = list_ascii_of_string (BASE_URL cfg) ++ replicate k "/"%char.
Proof.
  cbv zeta. unfold BASE_URL.
  assert (Hu : or_str (Some (SITE_URL cfg))
                 (or_str (process_env cfg !! "NEXT_PUBLIC_SITE_URL") "http://localhost:3000")
               = match truthy (Some (SITE_URL cfg)) with
                 | Some u => u
                 | None => or_str (process_env cfg !! "NEXT_PUBLIC_SITE_URL")
                             "http://localhost:3000"
                 end).
  { unfold or_str at 1. by destruct (truthy (Some (SITE_URL cfg))). }
  rewrite Hu. set (u := match truthy _ with Some _ => _ | None => _ end).
  rewrite list_ascii_of_string_of_list_ascii.
  destruct (drop_slashes_spec (reverse (list_ascii_of_string u))) as [Hh [k Hk]].
  split.
  - by rewrite last_reverse.
  - exists k. rewrite <- (reverse_involutive (list_ascii_of_string u)) at 1.
    rewrite Hk at 1. by rewrite reverse_app, reverse_replicate.
Qed.

(** ** From the checkout request to the booking row *)

Lemma parseYMD_agree `{Platform} (ymd : string) :
  parseYMD ymd = Checkout.parseYMD ymd.
Proof. unfold parseYMD, Checkout.parseYMD. by destruct ymd. Qed.

(** X15.  The metadata the checkout handler attaches to a session is enough to
    rebuild the booking.  For a session that carries the metadata of an
    accepted request, the first upsert that returns inserts one row for the
    session whose date is the date of the request (never the fallback to
    the current day), whose customer name is the trimmed name of the
    request and whose [extras] hold the whole metadata; and the upsert
    returns when the database takes the queries on [bookings]. *)
Theorem booking_row_carries_the_request `{Platform} (env : gmap string string)
    (data : Checkout.Payload) (resolved : Catalog.Tour) (svc : Services) (admin : Admin)
    (session : Session) (w : World) (sid : string) (id : nat) :
  Checkout.parseYMD (Checkout.date data) = Some (Checkout.date data) ->
  trim (Checkout.date data) = Checkout.date data ->
  s_metadata session = Some (list_to_map (Checkout.metadata_of env data resolved)) ->
  truthy (Some (safeStr (Some (s_id session)))) = Some sid ->
  booking_count sid w = 0%nat ->
  (upsertBookingFromSession svc admin session w).1 = Ok id ->
  exists b,
    bookings (upsertBookingFromSession svc admin session w).2 = bookings w ++ [b]
    /\ stripe_session_id b = Some sid
    /\ b_date b = Checkout.date data
    /\ b_customer_name b
       = truthy (Some (trim (Checkout.name (Checkout.customer data))))
    /\ b_status b = status_of_session session
    /\ extras b
       = jsonSafe_meta (list_to_map (Checkout.metadata_of env data resolved)).
Proof.
  intros Hdate Htrim Hmeta Hsid Hcount Hok.
  pose proof (WebhookFacts.upsertBookingFromSession_cases svc admin session w sid Hsid)
    as Hc.
  cbv zeta in Hc. unfold booking_count in Hcount.
  apply length_zero_iff_nil in Hcount. rewrite Hcount in Hc.
  destruct (admin (select_bookings sid)) as [[e | e] |];
    [rewrite Hc in Hok; discriminate | rewrite Hc in Hok; discriminate |].
  destruct Hc as (row & Hrow & Hr).
  destruct (admin (insert_into_bookings sid)) as [[e | e] |];
    [rewrite Hr in Hok; discriminate | rewrite Hr in Hok; discriminate |].
  rewrite Hr.
  destruct (Hrow (next_id w)) as (H1 & H2 & _ & _ & H5 & H6 & H7).
  exists (row (next_id w)). cbn.
  split; [reflexivity |]. split; [exact H1 |].
  rewrite Hmeta in H5, H6, H7. cbn [default from_option Datatypes.id] in H5, H6, H7.
  unfold Checkout.metadata_of in H5, H6. cbn [list_to_map foldr fst snd] in H5, H6.
  split.
  { rewrite H5. rewrite lookup_insert_eq. cbn [safeStr].
    by rewrite Htrim, parseYMD_agree, Hdate. }
  split.
  { rewrite H6. do 5 (rewrite lookup_insert_ne by discriminate).
    rewrite lookup_insert_eq. reflexivity. }
  split; [exact H2 | exact H7].
Qed.

(** ** Deliveries whose handling fails, or cannot fail *)

Section deliveries.

Context `{Platform} (cfg : Config) (secret key : string).
Hypothesis Hsecret : truthy (process_env cfg !! "STRIPE_WEBHOOK_SECRET") = Some secret.
Hypothesis Hkey : truthy (process_env cfg !! "STRIPE_SECRET_KEY") = Some key.

(** X16.  A verified delivery of [payment_intent.succeeded], of a failed payment
    or of an unknown type that gets its database client is always
    acknowledged with 200, as received or as a duplicate: what its case
    runs (the session lookup, the booking upsert, the e-mail, the writes to
    the database) is caught or cannot fail, in production too.  Without a
    client, when [SUPABASE_URL] or [SUPABASE_SERVICE_ROLE] is unset or the
    client cannot be made, the delivery ends in the exception of
    [getSupabaseAdmin()] and writes nothing. *)
Theorem caught_events_are_acknowledged (svc : Services) (req : Request)
    (event : Event) (w : World) :
  verified secret svc req event ->
  caught_or_recorded (e_data event) = true ->
  (forall admin,
      getSupabaseAdmin cfg svc = Ok admin ->
      (POST cfg svc req w).1 = Ok (json Received 200)
      \/ (POST cfg svc req w).1 = Ok (json (Duplicate (e_id event)) 200))
  /\ (forall e, getSupabaseAdmin cfg svc = Throw e -> POST cfg svc req w = (Throw e, w)).
Proof.
  intros Hv Hev. split.
  - intros admin Hadmin.
    rewrite (WebhookFacts.POST_verified cfg secret key Hsecret Hkey svc req event admin
               Hv Hadmin).
    unfold mbind, M_bind.
    destruct (seenOrMarkEvent admin (e_id event) w) as [[[] | e] w1] eqn:Hseen.
    + right. reflexivity.
    + left. unfold try_catch.
      pose proof (dispatch_caught_or_recorded cfg svc admin event w1 Hev) as Hd.
      destruct (dispatch cfg svc admin event w1) as [[[] | e] w2]; cbn in Hd;
        [reflexivity | discriminate].
    + destruct (seenOrMarkEvent_ok admin (e_id event) w) as [b Hb].
      rewrite Hseen in Hb. discriminate.
  - intros e Hadmin.
    by apply (WebhookFacts.POST_without_client cfg secret key Hsecret Hkey svc req event).
Qed.


End deliveries.

(** ** Witnesses *)

Lemma sample_run_unique (ds : list Delivery) :
  bookings_unique (run (H := Sample.platform) Sample.cfg_hook (initial []) ds).
Proof. apply WebhookFacts.run_bookings_unique, WebhookFacts.initial_invariants. Qed.

Lemma status_update_is_idempotent_witness :
  let w := run (H := Sample.platform) Sample.cfg_hook (initial [])
             [(Sample.services (Sample.completed "paid") true, Sample.signed "evt_1")] in
  let r := updateBookingStatusBySessionId Sample.healthy "cs_test_1" canceled w in
  r.1 = Ok ()
  /\ updateBookingStatusBySessionId Sample.healthy "cs_test_1" canceled r.2 = (Ok (), r.2)
  /\ booking_count "cs_test_1" r.2 = 1%nat.
Proof.
  cbv zeta.
  set (w := run (H := Sample.platform) Sample.cfg_hook (initial [])
              [(Sample.services (Sample.completed "paid") true, Sample.signed "evt_1")]).
  destruct (status_update_is_idempotent Sample.healthy "cs_test_1" canceled w
              (sample_run_unique _))
    as (H1 & _ & H3 & H4 & _).
  pose proof (H3 WebhookFacts.healthy_bookings) as Hok.
  split; [exact Hok |]. split; [exact (proj2 (H1 Hok)) |]. rewrite H4. reflexivity.
Defined.

(** The same update when the table of bookings cannot be read: an
    exception, and nothing changed. *)
Example status_update_unreadable :
  let w := run (H := Sample.platform) Sample.cfg_hook (initial [])
             [(Sample.services (Sample.completed "paid") true, Sample.signed "evt_1")] in
  updateBookingStatusBySessionId Sample.bookings_unreadable "cs_test_1" canceled w
  = (Throw "canceling statement due to timeout", w).
Proof. reflexivity. Qed.

Lemma upsert_last_write_wins_witness :
  let svc := Sample.services (Sample.completed "paid") true in
  let w := run (H := Sample.platform) Sample.cfg_hook (initial [])
             [(svc, Sample.signed "evt_1");
              (Sample.services Sample.refund true, Sample.signed "evt_2")] in
  let r := upsertBookingFromSession (H := Sample.platform) svc Sample.healthy
             (Sample.session_of "cs_test_1" "paid") w in
  (b_status <$> bookings w) = [canceled]
  /\ r.1 = Ok 1%nat
  /\ forall b, b ∈ bookings r.2 -> has_session "cs_test_1" b = true -> b_status b = paid.
Proof.
  cbv zeta. split; [reflexivity |]. split; [reflexivity |].
  set (svc := Sample.services (Sample.completed "paid") true).
  set (w := run (H := Sample.platform) Sample.cfg_hook (initial []) _).
  destruct (upsert_last_write_wins (H := Sample.platform) svc Sample.healthy
              (Sample.session_of "cs_test_1" "paid") w "cs_test_1" eq_refl
              (sample_run_unique _))
    as (H1 & _ & _).
  intros b Hb Hs. apply (H1 1%nat eq_refl b Hb Hs).
Defined.

Lemma other_events_send_nothing_witness :
  let svc := Sample.services (Sample.completed "paid") true in
  let w := run (H := Sample.platform) Sample.cfg_hook (initial [])
             [(svc, Sample.signed "evt_1")] in
  let w' := (dispatch (H := Sample.platform) Sample.cfg_hook svc Sample.healthy
               {| e_id := "evt_2"; e_data := Sample.refund |} w).2 in
  outbox w' = outbox w /\ length (bookings w') = 1%nat.
Proof.
  cbv zeta.
  destruct (other_events_send_nothing (H := Sample.platform) Sample.cfg_hook
              (Sample.services (Sample.completed "paid") true) Sample.healthy
              {| e_id := "evt_2"; e_data := Sample.refund |}
              (run (H := Sample.platform) Sample.cfg_hook (initial [])
                 [(Sample.services (Sample.completed "paid") true, Sample.signed "evt_1")])
              eq_refl) as (H1 & _ & H3 & _).
  split; [exact H1 | rewrite H3; reflexivity].
Defined.

Lemma caught_events_are_acknowledged_witness :
  let svc := Sample.lookup_fails (Sample.services Sample.intent_succeeded true) in
  let r := POST (H := Sample.platform) Sample.cfg_hook_prod svc (Sample.signed "evt_1")
             (initial []) in
  (r.1 = Ok (json Received 200) \/ r.1 = Ok (json (Duplicate "evt_1") 200))
  /\ POST (H := Sample.platform) Sample.cfg_no_database svc (Sample.signed "evt_1")
       (initial [])
     = (Throw "Missing env: SUPABASE_SERVICE_ROLE", initial []).
Proof.
  cbv zeta. split.
  - refine (proj1 (caught_events_are_acknowledged (H := Sample.platform)
                     Sample.cfg_hook_prod "whsec_1" "sk_test_1" eq_refl eq_refl
                     (Sample.lookup_fails (Sample.services Sample.intent_succeeded true))
                     (Sample.signed "evt_1")
                     {| e_id := "evt_1"; e_data := Sample.intent_succeeded |} (initial [])
                     _ eq_refl) Sample.healthy eq_refl).
    exists "whsec_1". split; reflexivity.
  - refine (proj2 (caught_events_are_acknowledged (H := Sample.platform)
                     Sample.cfg_no_database "whsec_1" "sk_test_1" eq_refl eq_refl
                     (Sample.lookup_fails (Sample.services Sample.intent_succeeded true))
                     (Sample.signed "evt_1")
                     {| e_id := "evt_1"; e_data := Sample.intent_succeeded |} (initial [])
                     _ eq_refl) _ eq_refl).
    exists "whsec_1". split; reflexivity.
Defined.


Example lost_booking_after_failed_delivery :
  let svc1 := Sample.with_client Sample.bookings_unreadable
                (Sample.services (Sample.completed "paid") true) in
  let svc2 := Sample.services (Sample.completed "paid") true in
  bookings (run (H := Sample.platform) Sample.cfg_hook_prod (initial [])
              [(svc1, Sample.signed "evt_1"); (svc2, Sample.signed "evt_1")]) = [].
Proof. reflexivity. Qed.

Lemma booking_row_carries_the_request_witness :
  exists b,
    bookings (upsertBookingFromSession (H := Sample.platform)
                (Sample.services (Sample.completed "paid") true) Sample.healthy
                (Sample.scenario_session "cs_test_7" "paid") (initial [])).2 = [b]
    /\ stripe_session_id b = Some "cs_test_7"
    /\ b_date b = "2030-01-15".
Proof.
  destruct (booking_row_carries_the_request (H := Sample.platform) ∅
              Sample.scenario_data Sample.scenario_tour
              (Sample.services (Sample.completed "paid") true) Sample.healthy
              (Sample.scenario_session "cs_test_7" "paid") (initial []) "cs_test_7" 0%nat
              eq_refl eq_refl eq_refl eq_refl eq_refl eq_refl)
    as (b & H1 & H2 & H3 & _).
  exists b. split; [exact H1 | split; [exact H2 | exact H3]].
Defined.

Lemma expiry_or_refund_cancels_the_booking_witness :
  let svc := Sample.services (Sample.completed "paid") true in
  let w := run (H := Sample.platform) Sample.cfg_hook (initial [])
             [(svc, Sample.signed "evt_1")] in
  let r := dispatch (H := Sample.platform) Sample.cfg_hook svc Sample.healthy
             {| e_id := "evt_2"; e_data := Sample.expired "cs_test_1" |} w in
  (b_status <$> bookings w) = [paid]
  /\ r.1 = Ok ()
  /\ forall b, b ∈ bookings r.2 -> has_session "cs_test_1" b = true -> b_status b = canceled.
Proof.
  cbv zeta. split; [reflexivity |].
  set (svc := Sample.services (Sample.completed "paid") true).
  set (w := run (H := Sample.platform) Sample.cfg_hook (initial []) _).
  destruct (expiry_or_refund_cancels_the_booking (H := Sample.platform) Sample.cfg_hook svc
              Sample.healthy
              {| e_id := "evt_2"; e_data := Sample.expired "cs_test_1" |} w "cs_test_1"
              (sample_run_unique _))
    as (H1 & H2 & _).
  - left. eexists. split; reflexivity.
  - pose proof (H2 WebhookFacts.healthy_bookings) as Hok.
    split; [exact Hok | exact (H1 Hok)].
Defined.

End WebhookMore.
